(** * MongoDB QA harness: runner, suites, report generator and dashboard

    A shallow embedding of the orchestration and reporting code of the
    repository (run_tests.py, report_generator.py, dashboard.py,
    view_reports.py, cleanup_code.py and the four scripts under
    automation-scripts/), with the properties of the specification and
    further properties of the code stated over it.

    Conventions.
    - A Python [dict] keyed by strings is a [gmap string _]; a Python list
      is a [list].
    - A Python [float] is a primitive binary64 [float]; a Python [int] is
      a [Z]; a Python [str] whose length matters is the list of its code
      points.
    - Code that can raise returns a [result]: [Ok v] or [Raise e].
    - Whatever lives outside the process (subprocesses, the clock, the
      reports directory, the database) is an explicit argument. *)

From Stdlib Require Import ZArith Floats Ascii String List Bool Sorted Uint63.
From stdpp Require Import gmap strings list fin_maps sorting pretty.
Import ListNotations.

Set Warnings "-register-all".

Local Open Scope string_scope.
Local Open Scope Z_scope.

(** ** Exceptions and results *)

Inductive exn : Type :=
  | ZeroDivisionError
  | FileNotFoundError
  | PermissionError
  | JSONDecodeError
  | IsADirectoryError
  | TypeError
  | AttributeError
  | UndefinedError
  | IndexError (msg : string)
  | OtherError (msg : string).

Inductive result (A : Type) : Type :=
  | Ok (v : A)
  | Raise (e : exn).
Arguments Ok {A} v.
Arguments Raise {A} e.

#[global] Instance result_ret : MRet result := fun A v => Ok v.
#[global] Instance result_bind : MBind result := fun A B k r =>
  match r with
  | Ok v => k v
  | Raise e => Raise e
  end.

Definition is_ok {A : Type} (r : result A) : bool :=
  match r with Ok _ => true | Raise _ => false end.

(** ** Python values (the fragment the suites pass around) *)

(** A Python [str] is the sequence of its code points; [len] counts
    them. *)
Definition codepoint : Type := N.
Definition str : Type := list codepoint.

(** The [str] a literal of ASCII characters stands for. *)
Definition str_of (literal : string) : str :=
  List.map N_of_ascii (list_ascii_of_string literal).

Inductive pyvalue : Type :=
  | PyNone
  | PyBool (b : bool)
  | PyInt (n : Z)
  | PyFloat (x : float)
  | PyStr (s : str)
  | PyList (items : list pyvalue)
  | PyDict (items : list (pyvalue * pyvalue)).

(** ** Security suite: the input validator
    (mongodb_security_tests.py, [validate_user_input] inside
    [test_injection_attacks]) *)

Module Security.

(** [sub in s] on a text held as its UTF-8 bytes, where a substring occurs
    exactly when its bytes do. *)
Fixpoint str_in (sub s : string) : bool :=
  String.prefix sub s
  || match s with
     | EmptyString => false
     | String _ rest => str_in sub rest
     end.

(** Python's [any(... for x in xs)]. *)
Definition any {A : Type} (p : A -> bool) (xs : list A) : bool := existsb p xs.

(** [s.startswith(sub)] and [sub in s] on a [str]. *)
Fixpoint starts_with (sub s : str) : bool :=
  match sub, s with
  | [], _ => true
  | a :: sub', b :: s' => N.eqb a b && starts_with sub' s'
  | _ :: _, [] => false
  end.

Fixpoint contains (sub s : str) : bool :=
  starts_with sub s
  || match s with
     | [] => false
     | _ :: rest => contains sub rest
     end.

Definition forbidden : list str := [str_of "$"; str_of "{"; str_of "}"; str_of ";"].

(** The same four, as code points. *)
Definition forbidden_chars : list codepoint := [36; 123; 125; 59]%N.

Definition validate_user_input (username : pyvalue) : bool :=
  match username with
  | PyStr s =>
      if (50 <? Z.of_nat (length s)) then false
      else if any (fun char => contains char s) forbidden then false
      else true
  | _ => false
  end.

Definition test_inputs : list pyvalue :=
  [ PyStr (str_of "admin");
    PyStr (str_of "user1");
    PyStr (str_of "$ne");
    PyStr (str_of "admin; drop table users;");
    PyDict [(PyStr (str_of "$ne"), PyNone)] ].

Definition expected_results : list bool := [true; true; false; false; false].

Definition actual_results : list bool := List.map validate_user_input test_inputs.

(** The status the check records. *)
Definition input_validation_status : string :=
  if bool_decide (actual_results = expected_results) then "PASS" else "FAIL".

(** A name of 27 letters outside ASCII (27 times U+00E9), 54 bytes in
    UTF-8. *)
Definition accented_name : str := repeat 233%N 27.

End Security.

(** ** Performance suite: throughput
    (mongodb_performance_tests.py) *)

Module Performance.

Local Open Scope float_scope.

(** Python numbers: the rates are [float] on the dividing branch and the
    [int] literal [0] on the guarded branch. *)
Inductive pynum : Type :=
  | NInt (n : Z)
  | NFloat (x : float).

(** [float(n)] for an [int] below 2^63 in absolute value. *)
Definition float_of_int (n : Z) : float :=
  if (n <? 0)%Z then - PrimFloat.of_uint63 (Uint63.of_Z (- n))
  else PrimFloat.of_uint63 (Uint63.of_Z n).

(** [a / b] with [b] a float: Python raises on a zero divisor (either
    sign) and otherwise divides as IEEE 754 does. *)
Definition truediv (a b : float) : result float :=
  if b =? 0 then Raise ZeroDivisionError else Ok (a / b).

(** [x > 0] for a float [x]. *)
Definition gt0 (x : float) : bool := 0 <? x.

(** [test_insert_performance], lines 109-111. *)
Definition single_insert_rate (single_insert_time : float) : result pynum :=
  if gt0 single_insert_time
  then x ← truediv (float_of_int 100) single_insert_time ; Ok (NFloat x)
  else Ok (NInt 0).

(** [test_insert_performance], lines 112-114. *)
Definition bulk_insert_rate (document_count : Z) (bulk_insert_time : float)
  : result pynum :=
  if gt0 bulk_insert_time
  then x ← truediv (float_of_int document_count) bulk_insert_time ; Ok (NFloat x)
  else Ok (NInt 0).

(** [test_query_performance], lines 151-153, from the average time. *)
Definition queries_per_second (avg_query_time : float) : result pynum :=
  if gt0 avg_query_time
  then x ← truediv (float_of_int 1) avg_query_time ; Ok (NFloat x)
  else Ok (NInt 0).

(** [test_query_performance], lines 146-153, from the elapsed time of the
    loop: the average is [elapsed / iterations]. *)
Definition query_rate (iterations : Z) (elapsed : float) : result pynum :=
  if (iterations =? 0)%Z then Raise ZeroDivisionError
  else queries_per_second (elapsed / float_of_int iterations).

(** [test_concurrent_operations], line 228: no guard. *)
Definition operations_per_second (num_threads operations_per_thread : Z)
    (total_time : float) : result pynum :=
  x ← truediv (float_of_int (num_threads * operations_per_thread)) total_time;
  Ok (NFloat x).

End Performance.

(** ** Test runner (run_tests.py) *)

Module Runner.

(** What [subprocess.run] hands back when the child ran to completion. *)
Record CompletedProcess : Type := {
  returncode : Z;
  stdout : string;
  stderr : string
}.

(** [str(e)] of an exception, as far as the runner looks at it. *)
Definition exn_str (e : exn) : string :=
  match e with
  | ZeroDivisionError => "division by zero"
  | FileNotFoundError => "No such file or directory"
  | PermissionError => "Permission denied"
  | JSONDecodeError => "Expecting value"
  | IsADirectoryError => "Is a directory"
  | TypeError => "unsupported operand"
  | AttributeError => "object has no attribute"
  | UndefinedError => "value is undefined"
  | IndexError msg => msg
  | OtherError msg => msg
  end.

(** The dictionary [run_command] returns. *)
Record cmd_result : Type := {
  success : bool;
  cmd_stdout : string;
  cmd_stderr : string;
  return_code : Z
}.

(** The surroundings of one invocation: what each shell command does, which
    paths exist, the two renderings of [datetime.now()], and what opening a
    file for writing and dumping into it does (nothing in [main] creates
    [reports/] once the setup is skipped). *)
Record world : Type := {
  shell : string -> result CompletedProcess;
  path_exists : string -> bool;
  now_isoformat : string;
  now_strftime : string;
  write_file : string -> result unit
}.

(** The dictionary written to [reports/test_summary_<timestamp>.json]. *)
Record execution_summary : Type := {
  timestamp : string;
  total_suites : nat;
  passed_suites : nat;
  failed_suites : nat;
  overall_status : string
}.

Record summary_report : Type := {
  test_execution_summary : execution_summary;
  suite_results : gmap string string;
  recommendations : list string
}.

(** What an invocation does to its surroundings, in order. *)
Inductive event : Type :=
  | MakeDirs (path : string)
  | Spawned (command : string) (r : cmd_result)
  | WroteSummary (filename : string) (report : summary_report).

(** The runner's code threads the log of events. *)
Definition M (A : Type) : Type := list event -> A * list event.

#[global] Instance M_ret : MRet M := fun A v log => (v, log).
#[global] Instance M_bind : MBind M := fun A B k m log =>
  let '(v, log') := m log in k v log'.

Definition emit (e : event) : M unit := fun log => (tt, (log ++ [e])%list).

(** The dictionary [run_command] builds from what [subprocess.run] did. *)
Definition command_result (w : world) (command : string) : cmd_result :=
  match shell w command with
  | Ok p => {| success := bool_decide (returncode p = 0);
               cmd_stdout := stdout p;
               cmd_stderr := stderr p;
               return_code := returncode p |}
  | Raise e => {| success := false; cmd_stdout := ""; cmd_stderr := exn_str e;
                  return_code := -1 |}
  end.

Definition run_command (w : world) (command : string) : M cmd_result :=
  let r := command_result w command in
  _ ← emit (Spawned command r);
  mret r.

Definition ping_command : string :=
  "mongosh --eval 'db.runCommand({ping: 1})' --quiet".

Definition setup_environment (w : world) : M bool :=
  _ ← emit (MakeDirs "reports");
  _ ← emit (MakeDirs "data/test-db");
  _ ← emit (MakeDirs "logs");
  mongo_check ← run_command w ping_command;
  if negb (success mongo_check) then mret false
  else mret true.

Definition crud_command : string := "python automation-scripts/mongodb_crud_tests.py".
Definition performance_command : string :=
  "python automation-scripts/mongodb_performance_tests.py".
Definition security_command : string :=
  "python automation-scripts/mongodb_security_tests.py".
Definition validation_command : string :=
  "python automation-scripts/mongodb_data_validation.py".

Definition run_functional_tests (w : world) : M bool :=
  r ← run_command w crud_command; mret (success r).

Definition run_performance_tests (w : world) : M bool :=
  r ← run_command w performance_command; mret (success r).

Definition run_security_tests (w : world) : M bool :=
  r ← run_command w security_command; mret (success r).

Definition run_data_validation_tests (w : world) : M bool :=
  r ← run_command w validation_command; mret (success r).

Definition load_test_data (w : world) : M bool :=
  mret (path_exists w "test-data/sample-datasets.json").

(** [results.values()]. *)
Definition values (results : gmap string bool) : list bool :=
  (map_to_list results).*2.

(** [results.get(key, False)]. *)
Definition get_or_false (results : gmap string bool) (key : string) : bool :=
  default false (results !! key).

Definition pass_fail (b : bool) : string := if b then "PASS" else "FAIL".

Definition build_report (w : world) (results : gmap string bool) : summary_report :=
  {| test_execution_summary :=
       {| timestamp := now_isoformat w;
          total_suites := size results;
          passed_suites := length (List.filter (fun r => r) (values results));
          failed_suites := length (List.filter (fun r => negb r) (values results));
          overall_status := pass_fail (forallb (fun r => r) (values results)) |};
     suite_results :=
       <["functional_tests" := pass_fail (get_or_false results "functional")]>
       (<["performance_tests" := pass_fail (get_or_false results "performance")]>
       (<["security_tests" := pass_fail (get_or_false results "security")]>
       (<["data_validation_tests" := pass_fail (get_or_false results "validation")]>
        ∅)));
     recommendations :=
       [ "Review failed test cases and address issues";
         "Monitor performance metrics trends";
         "Implement security recommendations";
         "Maintain data quality standards";
         "Update test cases as system evolves" ] |}.

(** The name of the summary file. *)
Definition summary_filename (w : world) : string :=
  "reports/test_summary_" +:+ now_strftime w +:+ ".json".

(** [generate_summary_report]: the report, or the exception of
    [with open(report_filename, "w") as f: json.dump(report, f, indent=2)],
    which no handler catches. *)
Definition generate_summary_report (w : world) (results : gmap string bool)
  : M (result summary_report) :=
  let report := build_report w results in
  let report_filename := summary_filename w in
  match write_file w report_filename with
  | Ok _ => _ ← emit (WroteSummary report_filename report); mret (Ok report)
  | Raise e => mret (Raise e)
  end.

(** The [--suite] choices of the argument parser. *)
Inductive suite_choice : Type := all | functional | performance | security | validation.

#[global] Instance suite_choice_eq_dec : EqDecision suite_choice.
Proof. solve_decision. Defined.

Record args : Type := {
  suite : suite_choice;
  skip_setup : bool;
  load_data : bool
}.

(** [main]: the status it hands to [sys.exit], or the exception that
    leaves it. *)
Definition main (a : args) (w : world) : M (result Z) :=
  setup_failed ←
    (if negb (skip_setup a)
     then ok ← setup_environment w; mret (negb ok)
     else mret false);
  if (setup_failed : bool) then mret (Ok 1)
  else
    _ ← (if load_data a then load_test_data w else mret true);
    let results : gmap string bool := ∅ in
    results ←
      (if bool_decide (suite a ∈ [all; functional])
       then r ← run_functional_tests w; mret (<["functional" := r]> results)
       else mret results);
    results ←
      (if bool_decide (suite a ∈ [all; performance])
       then r ← run_performance_tests w; mret (<["performance" := r]> results)
       else mret results);
    results ←
      (if bool_decide (suite a ∈ [all; security])
       then r ← run_security_tests w; mret (<["security" := r]> results)
       else mret results);
    results ←
      (if bool_decide (suite a ∈ [all; validation])
       then r ← run_data_validation_tests w; mret (<["validation" := r]> results)
       else mret results);
    summary_report ← generate_summary_report w results;
    match summary_report with
    | Raise e => mret (Raise e)
    | Ok summary_report =>
        if String.eqb (overall_status (test_execution_summary summary_report)) "PASS"
        then mret (Ok 0)
        else mret (Ok 1)
    end.

(** The exit status of the process: the argument of [sys.exit], or 1 when
    an exception reaches the top. *)
Definition process_exit (r : result Z) : Z :=
  match r with
  | Ok status => status
  | Raise _ => 1
  end.

(** One invocation from an empty log: the exit status and what happened. *)
Definition run (a : args) (w : world) : Z * list event :=
  let '(r, log) := main a w [] in (process_exit r, log).

(** The suite commands an invocation spawned, in order, with their results. *)
Definition suite_commands : list string :=
  [crud_command; performance_command; security_command; validation_command].

Definition spawned_suites (log : list event) : list (string * cmd_result) :=
  flat_map (fun e =>
    match e with
    | Spawned c r => if bool_decide (c ∈ suite_commands) then [(c, r)] else []
    | _ => []
    end) log.

Definition summaries_written (log : list event) : list (string * summary_report) :=
  flat_map (fun e =>
    match e with
    | WroteSummary f r => [(f, r)]
    | _ => []
    end) log.

(** The result key and the command of every suite a choice selects, in the
    order [main] goes through them. *)
Definition selected (s : suite_choice) : list (string * string) :=
  match s with
  | all => [("functional", crud_command); ("performance", performance_command);
            ("security", security_command); ("validation", validation_command)]
  | functional => [("functional", crud_command)]
  | performance => [("performance", performance_command)]
  | security => [("security", security_command)]
  | validation => [("validation", validation_command)]
  end.

Definition selected_commands (s : suite_choice) : list string := (selected s).*2.

(** The key of a suite in [suite_results] of the summary. *)
Definition report_key (result_key : string) : string :=
  if String.eqb result_key "validation" then "data_validation_tests"
  else result_key +:+ "_tests".

(** The reachability check was skipped or succeeded. *)
Definition setup_passes (a : args) (w : world) : bool :=
  skip_setup a || success (command_result w ping_command).

(** The summary file can be written. *)
Definition summary_writable (w : world) : bool :=
  is_ok (write_file w (summary_filename w)).

Definition setup_events (a : args) (w : world) : list event :=
  if skip_setup a then []
  else [MakeDirs "reports"; MakeDirs "data/test-db"; MakeDirs "logs";
        Spawned ping_command (command_result w ping_command)].

(** The [results] dictionary [main] has built when it reaches the summary. *)
Definition results_of (w : world) (s : suite_choice) : gmap string bool :=
  foldl (fun results kc => <[kc.1 := success (command_result w kc.2)]> results)
        ∅ (selected s).

(** The keys of [suite_results]. *)
Definition four_report_keys : gset string :=
  {[ "functional_tests"; "performance_tests"; "security_tests";
     "data_validation_tests" ]}.

(** A world where the database answers the ping, the CRUD suite exits with
    1, the security suite cannot be spawned and the other two exit with 0;
    [reports/] is there. *)
Definition failing_world : world :=
  {| shell := fun c =>
       if String.eqb c crud_command
       then Ok {| returncode := 1; stdout := ""; stderr := "assert" |}
       else if String.eqb c security_command
       then Raise (OtherError "spawn failed")
       else Ok {| returncode := 0; stdout := ""; stderr := "" |};
     path_exists := fun _ => false;
     now_isoformat := "2024-01-01T00:00:00";
     now_strftime := "20240101_000000";
     write_file := fun _ => Ok tt |}.

(** A working directory without [reports/], with [pytest] and [pymongo]
    installed and [cryptography] and [faker] not: the functional script
    exits with 0, the performance script runs into its own dump under
    [reports/], the security and the validation script end at their imports,
    before they would create [reports/]; opening a file under it raises. *)
Definition bare_directory : world :=
  {| shell := fun c =>
       if String.eqb c crud_command
       then Ok {| returncode := 0; stdout := ""; stderr := "" |}
       else if String.eqb c performance_command
       then Ok {| returncode := 1; stdout := "";
                  stderr := "FileNotFoundError: [Errno 2] No such file or directory" |}
       else Ok {| returncode := 1; stdout := ""; stderr := "ModuleNotFoundError" |};
     path_exists := fun _ => false;
     now_isoformat := "2024-01-01T00:00:00";
     now_strftime := "20240101_000000";
     write_file := fun _ => Raise FileNotFoundError |}.

(** Single-suite and full invocations that skip the setup. *)
Definition functional_skipping_setup : args :=
  {| suite := functional; skip_setup := true; load_data := false |}.

Definition all_skipping_setup : args :=
  {| suite := all; skip_setup := true; load_data := false |}.

(** A single-suite invocation that skips the setup. *)
Definition performance_only : args :=
  {| suite := performance; skip_setup := true; load_data := false |}.

End Runner.

(** ** Persisted results: JSON values and the reports directory *)

Module Reports.

(** What [json.load] returns. An object is the list of its items, keys
    distinct, in file order. *)
Inductive json : Type :=
  | JNull
  | JBool (b : bool)
  | JInt (n : Z)
  | JFloat (x : float)
  | JStr (s : string)
  | JArr (items : list json)
  | JObj (fields : list (string * json)).

(** What a name in the reports directory stands for. *)
Inductive file : Type :=
  | JsonFile (content : json)   (* opens and parses *)
  | Malformed                   (* opens, [json.load] raises *)
  | Unreadable                  (* [open] raises PermissionError *)
  | Directory.                  (* [open] raises IsADirectoryError *)

(** The reports directory: [None] when it does not exist. *)
Definition reports_dir : Type := option (gmap string file).

(** [os.listdir], in no particular order. *)
Definition listdir (d : reports_dir) : result (list string) :=
  match d with
  | None => Raise FileNotFoundError
  | Some entries => Ok ((map_to_list entries).*1)
  end.

(** [os.path.exists(os.path.join(reports_dir, name))]. *)
Definition exists_ (d : reports_dir) (name : string) : bool :=
  match d with
  | None => false
  | Some entries => bool_decide (is_Some (entries !! name))
  end.

(** [with open(path, "r") as f: json.load(f)]. *)
Definition load_json (d : reports_dir) (name : string) : result json :=
  match d with
  | None => Raise FileNotFoundError
  | Some entries =>
      match entries !! name with
      | None => Raise FileNotFoundError
      | Some (JsonFile content) => Ok content
      | Some Malformed => Raise JSONDecodeError
      | Some Unreadable => Raise PermissionError
      | Some Directory => Raise IsADirectoryError
      end
  end.

(** [sorted] on strings: ascending by code point, lexicographically. *)
Fixpoint insert_sorted (x : string) (l : list string) : list string :=
  match l with
  | [] => [x]
  | y :: rest => if String.leb x y then x :: l else y :: insert_sorted x rest
  end.

(** The order [sorted] sorts by. *)
Definition le_name (x y : string) : Prop := String.leb x y = true.

Definition sorted (l : list string) : list string := foldr insert_sorted [] l.

(** [[f for f in names if f.startswith(prefix)]]. *)
Definition with_prefix (prefix : string) (names : list string) : list string :=
  List.filter (String.prefix prefix) names.

(** Loading threads the [results] dictionary; an exception leaves the
    dictionary as it was when it was raised. *)
Definition L (A : Type) : Type :=
  gmap string json -> gmap string json * result A.

#[global] Instance L_ret : MRet L := fun A v results => (results, Ok v).
#[global] Instance L_bind : MBind L := fun A B k m results =>
  match m results with
  | (results', Ok v) => k v results'
  | (results', Raise e) => (results', Raise e)
  end.

Definition lift {A : Type} (r : result A) : L A := fun results => (results, r).

(** [results[key] = value]. *)
Definition store (key : string) (value : json) : L unit :=
  fun results => (<[key := value]> results, Ok tt).

(** The pattern both loaders use for time-stamped files: list the
    directory, keep the names with the prefix, and if there are any load
    [sorted(files)[-1]] under [key]. *)
Definition load_latest (d : reports_dir) (prefix key : string) : L unit :=
  names ← lift (listdir d);
  let files := with_prefix prefix names in
  match last (sorted files) with
  | None => mret tt
  | Some latest => content ← lift (load_json d latest); store key content
  end.

(** The pattern of the report generator for its four suite files. *)
Definition load_fixed (d : reports_dir) (name key : string) : L unit :=
  if exists_ d name
  then content ← lift (load_json d name); store key content
  else mret tt.

(** What loading the latest file of one category comes to, on its own:
    nothing to load, a value, or the exception. *)
Definition latest_of (d : reports_dir) (prefix : string) : result (option json) :=
  names ← listdir d;
  match last (sorted (with_prefix prefix names)) with
  | None => Ok None
  | Some latest => content ← load_json d latest; Ok (Some content)
  end.

End Reports.

(** ** Dashboard (dashboard.py) *)

Module Dashboard.
Import Reports.

(** The body of the [try] in [TestDashboard.load_latest_results]. *)
Definition load_body (d : reports_dir) : L unit :=
  _ ← load_latest d "test_summary_" "summary";
  _ ← load_latest d "performance_report_" "performance";
  _ ← load_latest d "security_report_" "security";
  load_latest d "validation_report_" "validation".

(** [TestDashboard.load_latest_results]: [except Exception] prints the
    error and falls through to [return results]. *)
Definition load_latest_results (d : reports_dir) : result (gmap string json) :=
  match load_body d ∅ with
  | (results, Ok _) => Ok results
  | (results, Raise e) => Ok results
  end.




(** The categories in the order the dashboard loads them. *)
Definition categories : list (string * string) :=
  [("test_summary_", "summary"); ("performance_report_", "performance");
   ("security_report_", "security"); ("validation_report_", "validation")].

End Dashboard.

(** ** Report generator (report_generator.py) *)

Module Generator.
Import Reports.

(** [TestReportGenerator.__init__] creates the directory when it is missing. *)
Definition ensure_reports_dir (d : reports_dir) : reports_dir :=
  match d with
  | None => Some ∅
  | Some entries => Some entries
  end.

(** The body of [TestReportGenerator.load_latest_results]: four files with
    fixed names, then the latest summary. *)
Definition load_body (d : reports_dir) : L unit :=
  _ ← load_fixed d "crud_test_results.json" "crud";
  _ ← load_fixed d "performance_test_results.json" "performance";
  _ ← load_fixed d "security_test_results.json" "security";
  _ ← load_fixed d "data_validation_results.json" "validation";
  load_latest d "test_summary_" "summary".

(** No [try] here: an exception leaves the function. *)
Definition load_latest_results (d : reports_dir) : result (gmap string json) :=
  match load_body d ∅ with
  | (results, Ok _) => Ok results
  | (_, Raise e) => Raise e
  end.

(** *** Python operations on loaded values *)

Fixpoint assoc (key : string) (fields : list (string * json)) : option json :=
  match fields with
  | [] => None
  | (k, v) :: rest => if String.eqb k key then Some v else assoc key rest
  end.

(** [value.get(key, default)]. *)
Definition get (value : json) (key : string) (default : json) : result json :=
  match value with
  | JObj fields => Ok (from_option id default (assoc key fields))
  | _ => Raise AttributeError
  end.

Definition is_str (key : string) (value : json) : bool :=
  match value with
  | JStr s => String.eqb s key
  | _ => false
  end.

(** [key in value]. *)
Definition contains (key : string) (value : json) : result bool :=
  match value with
  | JObj fields => Ok (bool_decide (is_Some (assoc key fields)))
  | JArr items => Ok (existsb (is_str key) items)
  | JStr s => Ok (Security.str_in key s)
  | _ => Raise TypeError
  end.

(** [value[key]], once [key in value] held. *)
Definition subscript (value : json) (key : string) : result json :=
  match value with
  | JObj fields => from_option Ok (Raise (OtherError "KeyError")) (assoc key fields)
  | _ => Raise TypeError
  end.

Fixpoint chars (s : string) : list json :=
  match s with
  | EmptyString => []
  | String c rest => JStr (String c EmptyString) :: chars rest
  end.

(** [for x in value]. *)
Definition iterate (value : json) : result (list json) :=
  match value with
  | JArr items => Ok items
  | JObj fields => Ok (List.map (fun kv => JStr kv.1) fields)
  | JStr s => Ok (chars s)
  | _ => Raise TypeError
  end.

(** A loop whose body can raise. *)
Fixpoint for_each {A B : Type} (body : A -> result B) (l : list A) : result (list B) :=
  match l with
  | [] => Ok []
  | x :: rest => y ← body x; ys ← for_each body rest; Ok (y :: ys)
  end.

(** Python numbers; [True] and [False] count as 1 and 0. *)
Inductive num : Type :=
  | NumInt (n : Z)
  | NumFloat (x : float).

Definition as_num (value : json) : option num :=
  match value with
  | JInt n => Some (NumInt n)
  | JBool b => Some (NumInt (if b then 1 else 0))
  | JFloat x => Some (NumFloat x)
  | _ => None
  end.

(** *** The template engine
    A template value is a loaded value or the engine's undefined
    ([None] here; Python's [None] is [Some JNull]). *)

Definition jv : Type := option json.

(** [value.name] in a template: the item of a dictionary, else undefined. *)
Definition attr (value : jv) (name : string) : jv :=
  match value with
  | Some (JObj fields) => assoc name fields
  | _ => None
  end.

Definition truthy (value : jv) : bool :=
  match value with
  | None | Some JNull => false
  | Some (JBool b) => b
  | Some (JInt n) => negb (n =? 0)
  | Some (JFloat x) => negb (PrimFloat.eqb x 0)
  | Some (JStr s) => negb (String.eqb s "")
  | Some (JArr items) => negb (bool_decide (items = []))
  | Some (JObj fields) => negb (bool_decide (fields = []))
  end.

(** [value == 'text']. *)
Definition eq_str (value : jv) (text : string) : bool :=
  match value with
  | Some v => is_str text v
  | None => false
  end.

(** [{% for x in value %}]: the undefined value loops over nothing. *)
Definition loop_items (value : jv) : result (list jv) :=
  match value with
  | None => Ok []
  | Some v => items ← iterate v; Ok (List.map (fun x : json => Some x) items)
  end.

(** [value > 0]. *)
Definition gt_zero (value : jv) : result bool :=
  match value with
  | None => Raise UndefinedError
  | Some v =>
      match as_num v with
      | Some (NumInt n) => Ok (0 <? n)
      | Some (NumFloat x) => Ok (PrimFloat.ltb 0 x)
      | None => Raise TypeError
      end
  end.

(** [value * 100], as far as the format filter accepts the product. *)
Definition times_100 (value : jv) : result num :=
  match value with
  | None => Raise UndefinedError
  | Some v =>
      match as_num v with
      | Some (NumInt n) => Ok (NumInt (n * 100))
      | Some (NumFloat x) => Ok (NumFloat (x * 100)%float)
      | None => Raise TypeError
      end
  end.

Definition to_num (value : jv) : result num :=
  match value with
  | Some v => from_option Ok (Raise TypeError) (as_num v)
  | None => Raise TypeError
  end.

(** What the template writes at a dynamic place. *)
Inductive cell : Type :=
  | Text (s : string)                  (* literal text chosen by a test *)
  | Shown (value : jv)                 (* [{{ value }}] *)
  | Titled (value : jv)                (* [{{ value|title }}], with or without [replace] *)
  | Fixed (digits : nat) (x : num).    (* [{{ "%.<digits>f"|format(x) }}] *)

Inductive section_kind : Type :=
  | CrudSection | PerformanceSection | SecuritySection | ValidationSection
  | RecommendationsSection.

#[global] Instance section_kind_eq_dec : EqDecision section_kind.
Proof. solve_decision. Defined.

Record section : Type := {
  kind : section_kind;
  cells : list cell
}.

(** The rendered document: the time stamp, the four summary cards and the
    optional sections, in template order. *)
Record html : Type := {
  generated : string;
  cards : list cell;
  sections : list section
}.

(** [{{ a if c else 'b' }}]. *)
Definition if_else (c a : jv) (b : string) : cell :=
  if truthy c then Shown a else Text b.

Definition pass_class (status : jv) : cell :=
  Text (if eq_str status "PASS" then "pass" else "fail").

Definition render_cards (summary : jv) : result (list cell) :=
  failed_class ←
    (if truthy summary
     then positive ← gt_zero (attr summary "failed_suites");
          Ok (if (positive : bool) then "error" else "success")
     else Ok "success");
  Ok [ Text (if eq_str (attr summary "overall_status") "PASS" then "success" else "error");
       if_else summary (attr summary "overall_status") "N/A";
       if_else summary (attr summary "total_suites") "0";
       if_else summary (attr summary "passed_suites") "0";
       Text failed_class;
       if_else summary (attr summary "failed_suites") "0" ].

Definition render_crud (crud : jv) : result (list section) :=
  if truthy crud then
    items ←
      (if truthy (attr crud "test_results")
       then tests ← loop_items (attr crud "test_results");
            for_each (fun test =>
              x ← to_num (attr test "execution_time");
              Ok [Titled (attr test "operation_type"); Fixed 3 x]) tests
       else Ok []);
    Ok [ {| kind := CrudSection; cells := concat items |} ]
  else Ok [].

Definition render_performance (performance : jv) (charts : gmap string string)
  : result (list section) :=
  if truthy performance then
    let chart name :=
      match charts !! name with
      | Some png => if String.eqb png "" then [] else [Shown (Some (JStr png))]
      | None => []
      end in
    results ← loop_items (attr performance "performance_results");
    metrics ← for_each (fun r =>
      if eq_str (attr r "test_type") "insert_performance"
      then bulk ← to_num (attr r "bulk_insert_rate");
           single ← to_num (attr r "single_insert_rate");
           Ok [Fixed 1 bulk; Fixed 1 single; Shown (attr r "documents_count")]
      else Ok []) results;
    Ok [ {| kind := PerformanceSection;
            cells := (chart "insert_performance" ++ chart "query_performance"
                      ++ concat metrics)%list |} ]
  else Ok [].

Definition render_security (security : jv) : result (list section) :=
  if truthy security then
    tests ← loop_items (attr security "security_results");
    Ok [ {| kind := SecuritySection;
            cells := concat (List.map (fun test =>
              [ Titled (attr test "test_type"); pass_class (attr test "status");
                Shown (attr test "status"); Shown (attr test "details") ]) tests) |} ]
  else Ok [].

Definition render_validation (validation : jv) : result (list section) :=
  if truthy validation then
    quality ←
      (if truthy (attr validation "data_quality_results")
       then rs ← loop_items (attr validation "data_quality_results");
            for_each (fun r =>
              x ← times_100 (attr r "pass_rate");
              Ok [Titled (attr r "check_type"); Fixed 1 x]) rs
       else Ok []);
    rows ←
      (if truthy (attr validation "validation_results")
       then tests ← loop_items (attr validation "validation_results");
            for_each (fun test =>
              let rate := attr test "success_rate" in
              x ← times_100 (if truthy rate then rate else Some (JInt 0));
              Ok [ Titled (attr test "test_type"); pass_class (attr test "status");
                   Shown (attr test "status");
                   if_else (attr test "records_processed")
                           (attr test "records_processed") "N/A";
                   Fixed 1 x ]) tests
       else Ok []);
    Ok [ {| kind := ValidationSection; cells := (concat quality ++ concat rows)%list |} ]
  else Ok [].

Definition render_recommendations (summary : jv) : result (list section) :=
  if truthy summary && truthy (attr summary "recommendations") then
    items ← loop_items (attr summary "recommendations");
    Ok [ {| kind := RecommendationsSection; cells := List.map Shown items |} ]
  else Ok [].

(** [Template(html_template).render(...)]. *)
Definition render (timestamp : string) (summary crud performance security validation : jv)
    (charts : gmap string string) : result html :=
  cards ← render_cards summary;
  s1 ← render_crud crud;
  s2 ← render_performance performance charts;
  s3 ← render_security security;
  s4 ← render_validation validation;
  s5 ← render_recommendations summary;
  Ok {| generated := timestamp; cards := cards;
        sections := (s1 ++ s2 ++ s3 ++ s4 ++ s5)%list |}.

(** [results.get(key)]: Python's [None] when the key is missing. *)
Definition get_or_none (results : gmap string json) (key : string) : jv :=
  Some (default JNull (results !! key)).

(** [k.replace("_", " ").title()], on ASCII. *)
Definition is_upper (c : ascii) : bool :=
  (65 <=? nat_of_ascii c)%nat && (nat_of_ascii c <=? 90)%nat.
Definition is_lower (c : ascii) : bool :=
  (97 <=? nat_of_ascii c)%nat && (nat_of_ascii c <=? 122)%nat.
Definition to_upper (c : ascii) : ascii :=
  if is_lower c then ascii_of_nat (nat_of_ascii c - 32) else c.
Definition to_lower (c : ascii) : ascii :=
  if is_upper c then ascii_of_nat (nat_of_ascii c + 32) else c.

Fixpoint title_from (after_letter : bool) (s : string) : string :=
  match s with
  | EmptyString => EmptyString
  | String c rest =>
      String (if after_letter then to_lower c else to_upper c)
             (title_from (is_upper c || is_lower c) rest)
  end.

Fixpoint replace_underscores (s : string) : string :=
  match s with
  | EmptyString => EmptyString
  | String c rest =>
      String (if Ascii.eqb c "_" then " "%char else c) (replace_underscores rest)
  end.

Definition sheet_label (k : string) : string :=
  title_from false (replace_underscores k).

Section WithLibraries.

(** The plotting and the data-frame libraries are taken as given:
    [bar_chart values] is the encoded picture of a bar chart, [DataFrame
    rows] the table made of rows; either may raise on values it cannot
    handle. *)
Variable bar_chart : list json -> result string.
Variable frame : Type.
Variable DataFrame : json -> result frame.

(** The first entry of [performance_results] with the given [test_type],
    drawn from the given fields. *)
Definition chart_of (rows : list json) (test_type key : string) (fields : list string)
  : result (gmap string string) :=
  picked ← for_each (fun r => t ← get r "test_type" JNull; Ok (is_str test_type t, r)) rows;
  match List.filter fst picked with
  | [] => Ok ∅
  | (_, data) :: _ =>
      values ← for_each (fun f => get data f (JInt 0)) fields;
      png ← bar_chart values;
      Ok {[ key := png ]}
  end.

Definition create_performance_charts (performance_data : json)
  : result (gmap string string) :=
  present ← contains "performance_results" performance_data;
  if (present : bool) then
    value ← subscript performance_data "performance_results";
    rows ← iterate value;
    c1 ← chart_of rows "insert_performance" "insert_performance"
           ["single_insert_rate"; "bulk_insert_rate"];
    value' ← subscript performance_data "performance_results";
    rows' ← iterate value';
    c2 ← chart_of rows' "query_performance" "query_performance"
           ["find_one_time"; "find_many_time"; "aggregation_time"];
    Ok (c2 ∪ c1)
  else Ok ∅.

(** [generate_html_report]: the path and the document written there.
    [now] is the time stamp of the file name, [shown] the one in the page. *)
Definition generate_html_report (d : reports_dir) (shown now : string)
  : result (string * html) :=
  results ← load_latest_results d;
  charts ←
    match results !! "performance" with
    | Some performance => create_performance_charts performance
    | None => Ok ∅
    end;
  summary ← get (default (JObj []) (results !! "summary"))
                "test_execution_summary" (JObj []);
  html_content ← render shown (Some summary) (get_or_none results "crud")
                   (get_or_none results "performance")
                   (get_or_none results "security")
                   (get_or_none results "validation") charts;
  Ok ("mongodb_test_report_" +:+ now +:+ ".html", html_content).

(** *** Spreadsheet *)

Record sheet : Type := {
  sheet_name : string;
  sheet_data : frame
}.

(** [df.to_excel(writer, sheet_name=...)] on the frame made of [rows]. *)
Definition to_excel (rows : json) (name : string) (sheets : list sheet)
  : result (list sheet) :=
  df ← DataFrame rows;
  Ok (sheets ++ [ {| sheet_name := name; sheet_data := df |} ])%list.

(** [if key in results[category]: DataFrame(results[category][key]).to_excel]. *)
Definition sheet_if_present (value : json) (key name : string) (sheets : list sheet)
  : result (list sheet) :=
  present ← contains key value;
  if (present : bool)
  then rows ← subscript value key; to_excel rows name sheets
  else Ok sheets.

Definition summary_rows (summary : json) : result json :=
  summary_data ← get summary "test_execution_summary" (JObj []);
  suite_results ← get summary "suite_results" (JObj []);
  t ← get summary_data "timestamp" (JStr "");
  total ← get summary_data "total_suites" (JInt 0);
  passed ← get summary_data "passed_suites" (JInt 0);
  failed ← get summary_data "failed_suites" (JInt 0);
  overall ← get summary_data "overall_status" (JStr "");
  items ← match suite_results with
          | JObj fields => Ok fields
          | _ => Raise AttributeError
          end;
  Ok (JArr ([ JArr [JStr "Test Execution Summary"; JStr ""];
              JArr [JStr "Timestamp"; t];
              JArr [JStr "Total Suites"; total];
              JArr [JStr "Passed Suites"; passed];
              JArr [JStr "Failed Suites"; failed];
              JArr [JStr "Overall Status"; overall];
              JArr [JStr ""; JStr ""];
              JArr [JStr "Suite Results"; JStr ""] ]
            ++ List.map (fun kv => JArr [JStr (sheet_label kv.1); kv.2]) items)%list).

(** The body of the [with pd.ExcelWriter(...) as writer] block. *)
Definition excel_body (results : gmap string json) : result (list sheet) :=
  sheets ←
    match results !! "summary" with
    | Some summary => rows ← summary_rows summary; to_excel rows "Summary" []
    | None => Ok []
    end;
  sheets ←
    match results !! "crud" with
    | Some crud => sheet_if_present crud "test_results" "CRUD Tests" sheets
    | None => Ok sheets
    end;
  sheets ←
    match results !! "performance" with
    | Some performance =>
        sheet_if_present performance "performance_results" "Performance Tests" sheets
    | None => Ok sheets
    end;
  sheets ←
    match results !! "security" with
    | Some security =>
        sheet_if_present security "security_results" "Security Tests" sheets
    | None => Ok sheets
    end;
  match results !! "validation" with
  | Some validation =>
      sheets ← sheet_if_present validation "validation_results" "Data Validation" sheets;
      sheet_if_present validation "data_quality_results" "Data Quality" sheets
  | None => Ok sheets
  end.

(** Leaving the [with] block saves the workbook. The writer starts from a
    workbook without any sheet, and the openpyxl engine refuses to save a
    workbook that has no visible sheet. *)
Definition save_workbook (sheets : list sheet) : result (list sheet) :=
  match sheets with
  | [] => Raise (IndexError "At least one sheet must be visible")
  | _ => Ok sheets
  end.

(** [generate_excel_report]: the path and the sheets of the saved workbook. *)
Definition generate_excel_report (d : reports_dir) (now : string)
  : result (string * list sheet) :=
  results ← load_latest_results d;
  let report_path := "mongodb_test_report_" +:+ now +:+ ".xlsx" in
  sheets ← excel_body results;
  book ← save_workbook sheets;
  Ok (report_path, book).

End WithLibraries.

Arguments sheet_name {frame} _.
Arguments sheet_data {frame} _.

(** The sections of a document, by kind. *)
Definition section_kinds (doc : html) : list section_kind :=
  List.map kind (sections doc).

(** A reports directory that exists and holds no file. *)
Definition empty_dir : reports_dir := Some ∅.

(** A reports directory holding two performance reports as the performance
    suite names them. *)
Definition timestamped_dir : reports_dir :=
  Some (<["performance_report_20240101_120000.json" :=
            JsonFile (JObj [("results", JArr [JInt 1])])]>
        (<["performance_report_20240102_120000.json" :=
            JsonFile (JObj [("results", JArr [JInt 2])])]> ∅)).

End Generator.

(** ** Integers held in doubles
    A double is read through its specification [Prim2SF]: sign, mantissa
    and exponent. *)

Module Binary64.

(** The integer a double is, when it is one. *)
Definition integer_value (x : float) : option Z :=
  match Prim2SF x with
  | S754_zero _ => Some 0
  | S754_finite s m e =>
      if 0 <=? e then Some (cond_Zopp s (Zpos m * 2 ^ e))
      else if Zpos m mod 2 ^ (- e) =? 0
           then Some (cond_Zopp s (Zpos m / 2 ^ (- e)))
           else None
  | _ => None
  end.

(** [m] shifted left by [k] bits, and the number of bits of [m]. *)
Definition shift_left (m : positive) (k : nat) : positive := Nat.iter k xO m.

Definition bit_length (m : positive) : nat := Pos.to_nat (digits2_pos m).

(** The normal form of [±N] for [N] below 2^53: a mantissa of 53 bits. *)
Definition canonical (s : bool) (N : positive) : spec_float :=
  S754_finite s (shift_left N (53 - bit_length N)) (Z.of_nat (bit_length N) - 53).

(** The double that is the integer [n], for [n] below 2^53 in absolute
    value. *)
Definition spec_of_integer (n : Z) : spec_float :=
  match n with
  | Z0 => S754_zero false
  | Zpos p => canonical false p
  | Zneg p => canonical true p
  end.

End Binary64.

(** ** Data-validation suite: the balance sequence
    (mongodb_data_validation.py, [test_data_integrity], first check) *)

Module Integrity.

(** A stored number: a BSON integer (of 32 or 64 bits) or a double. *)
Inductive bson_num : Type :=
  | BInt (n : Z)
  | BDouble (x : float).

(** The integers of 64 bits. *)
Definition int64 (n : Z) : bool := (- 2 ^ 63 <=? n) && (n <? 2 ^ 63).

(** The driver encodes a Python [int] as a BSON integer and refuses one
    that needs more than 8 bytes. *)
Definition encode_int (n : Z) : result Z :=
  if int64 n then Ok n
  else Raise (OtherError "OverflowError: MongoDB can only handle up to 8-byte ints").

Definition encode_num (v : bson_num) : result bson_num :=
  match v with
  | BInt n => n ← encode_int n; Ok (BInt n)
  | BDouble x => Ok (BDouble x)
  end.

Record transaction : Type := {
  type : string;
  amount : Z
}.

(** The document of the check, as far as the check reads it. *)
Record document : Type := {
  user_id : string;
  name : string;
  balance : bson_num;
  transactions : list transaction
}.

(** An update document [{"$inc": {"balance": d}, "$push": {"transactions": t}}]. *)
Record update : Type := {
  inc_balance : Z;
  push_transaction : transaction
}.

(** The collection: the documents in insertion order; the position of a
    document stands for its [_id]. *)
Definition collection : Type := list document.

(** A 64-bit integer as a double: the nearest one. *)
Definition double_of_int64 (d : Z) : float :=
  if d =? - 2 ^ 63 then (-9223372036854775808)%float
  else Performance.float_of_int d.

(** [$inc] by an integer: integers add within 64 bits, beyond which the
    server rejects the update; an integer added to a double gives a
    double. *)
Definition inc (current : bson_num) (d : Z) : result bson_num :=
  match current with
  | BInt n =>
      if int64 (n + d) then Ok (BInt (n + d))
      else Raise (OtherError "WriteError: Failed to apply $inc operations to current value")
  | BDouble x => Ok (BDouble (x + double_of_int64 d)%float)
  end.

Definition encode_transaction (t : transaction) : result transaction :=
  a ← encode_int (amount t); Ok {| type := type t; amount := a |}.

Definition encode_update (u : update) : result update :=
  d ← encode_int (inc_balance u);
  t ← encode_transaction (push_transaction u);
  Ok {| inc_balance := d; push_transaction := t |}.

Definition encode_document (doc : document) : result document :=
  b ← encode_num (balance doc);
  ts ← Generator.for_each encode_transaction (transactions doc);
  Ok {| user_id := user_id doc; name := name doc; balance := b; transactions := ts |}.

Definition apply_update (u : update) (doc : document) : result document :=
  b ← inc (balance doc) (inc_balance u);
  Ok {| user_id := user_id doc;
        name := name doc;
        balance := b;
        transactions := (transactions doc ++ [push_transaction u])%list |}.

(** [collection.delete_many({})]. *)
Definition delete_all (c : collection) : collection := [].

(** [collection.insert_one(doc)]: the new collection and [inserted_id]. *)
Definition insert_one (doc : document) (c : collection) : result (collection * nat) :=
  doc ← encode_document doc;
  Ok ((c ++ [doc])%list, length c).

(** [collection.update_one({"_id": doc_id}, update)]. *)
Definition update_one (doc_id : nat) (u : update) (c : collection) : result collection :=
  u ← encode_update u;
  match c !! doc_id with
  | Some doc => doc ← apply_update u doc; Ok (<[doc_id := doc]> c)
  | None => Ok c
  end.

(** [for update in updates: collection.update_one({"_id": doc_id}, update)]. *)
Fixpoint update_all (doc_id : nat) (updates : list update) (c : collection)
  : result collection :=
  match updates with
  | [] => Ok c
  | u :: rest => c ← update_one doc_id u c; update_all doc_id rest c
  end.

(** [collection.find_one({"_id": doc_id})]. *)
Definition find_one (doc_id : nat) (c : collection) : option document := c !! doc_id.

(** [final_doc["balance"] == expected]: Python compares an [int] with an
    [int] or a [float] by their exact values. *)
Definition balance_eq (stored : bson_num) (expected : Z) : bool :=
  match stored with
  | BInt n => n =? expected
  | BDouble x =>
      match Binary64.integer_value x with
      | Some v => v =? expected
      | None => false
      end
  end.

(** The sequence of the check for a given initial balance and given
    updates: clear, insert, update one by one, read back. *)
Definition balance_sequence (initial : bson_num) (updates : list update)
    (c : collection) : result (option document) :=
  let c := delete_all c in
  let original_doc :=
    {| user_id := "user_001"; name := "Alice Johnson"; balance := initial;
       transactions := [] |} in
  inserted ← insert_one original_doc c;
  let doc_id := inserted.2 in
  c ← update_all doc_id updates inserted.1;
  Ok (find_one doc_id c).

Definition updates : list update :=
  [ {| inc_balance := -100;
       push_transaction := {| type := "withdrawal"; amount := 100 |} |};
    {| inc_balance := 50;
       push_transaction := {| type := "deposit"; amount := 50 |} |};
    {| inc_balance := -75;
       push_transaction := {| type := "withdrawal"; amount := 75 |} |} ].

Definition expected_balance : Z := 1000 - 100 + 50 - 75.

(** The status the check records; an exception, also the one of
    subscripting a missing document, is recorded by the handler as a failed
    set-up. *)
Definition data_consistency_status (c : collection) : string * string :=
  match balance_sequence (BDouble 1000) updates c with
  | Ok (Some final_doc) =>
      let transaction_count := length (transactions final_doc) in
      if balance_eq (balance final_doc) expected_balance
         && (transaction_count =? 3)%nat
      then ("Data Consistency After Updates", "PASS")
      else ("Data Consistency After Updates", "FAIL")
  | _ => ("Data Integrity Setup", "FAIL")
  end.

(** The sum of the deltas of a list of updates. *)
Definition total_delta (us : list update) : Z :=
  foldr (fun u acc => inc_balance u + acc) 0 us.

(** Every delta and every amount fits in 64 bits. *)
Definition encodable (us : list update) : bool :=
  forallb (fun u => int64 (inc_balance u) && int64 (amount (push_transaction u))) us.

(** The balance, every delta and every partial sum are below 2^53 in
    absolute value, where a double holds every integer. *)
Fixpoint exact_in_double (V : Z) (deltas : list Z) : bool :=
  (Z.abs V <? 2 ^ 53)
  && match deltas with
     | [] => true
     | d :: rest => (Z.abs d <? 2 ^ 53) && exact_in_double (V + d) rest
     end.

(** The balance and every partial sum fit in 64 bits. *)
Fixpoint within_int64 (V : Z) (deltas : list Z) : bool :=
  int64 V
  && match deltas with
     | [] => true
     | d :: rest => within_int64 (V + d) rest
     end.

(** Two deposits of 1. *)
Definition two_deposits : list update :=
  [ {| inc_balance := 1; push_transaction := {| type := "deposit"; amount := 1 |} |};
    {| inc_balance := 1; push_transaction := {| type := "deposit"; amount := 1 |} |} ].

End Integrity.

(** ** The four suite executors, as far as they accumulate and persist
    (the four scripts under automation-scripts/) *)

Module Suites.
Import Reports.

(** The two renderings of [datetime.now()] a suite uses. *)
Record clock : Type := {
  isoformat : string;
  strftime : string
}.

(** A file written under [reports/]: its path and the dictionary dumped. *)
Definition written : Type := list (string * json).

Definition json_len (l : list json) : json := JInt (Z.of_nat (length l)).

(** *** Performance suite: [MongoDBPerformanceTester] *)

(** What the database and the clock do during one run: the elapsed times
    the tests measure, or the exception a database call raises. *)
Record performance_probe : Type := {
  cleanup_outcome : result unit;
  single_insert_time : result float;
  bulk_insert_time : result float;
  query_elapsed : result (list (string * float));
  concurrent_total_time : result float;
  aggregation_results : result (list json)
}.

Definition of_pynum (n : Performance.pynum) : json :=
  match n with
  | Performance.NInt n => JInt n
  | Performance.NFloat x => JFloat x
  end.

(** Each test returns the dictionary it appends to [self.results]. *)
Definition test_insert_performance (p : performance_probe) (document_count : Z)
  : result json :=
  single ← single_insert_time p;
  bulk ← bulk_insert_time p;
  single_rate ← Performance.single_insert_rate single;
  bulk_rate ← Performance.bulk_insert_rate document_count bulk;
  Ok (JObj [ ("test_type", JStr "insert_performance");
             ("single_insert_time", JFloat single);
             ("bulk_insert_time", JFloat bulk);
             ("documents_count", JInt document_count);
             ("single_insert_rate", of_pynum single_rate);
             ("bulk_insert_rate", of_pynum bulk_rate) ]).

Definition test_query_performance (p : performance_probe) (iterations : Z)
  : result json :=
  elapsed ← query_elapsed p;
  query_times ← Generator.for_each (fun qe =>
    if iterations =? 0 then Raise ZeroDivisionError
    else
      let avg_query_time := (qe.2 / Performance.float_of_int iterations)%float in
      rate ← Performance.queries_per_second avg_query_time;
      Ok (JObj [ ("query", JStr qe.1); ("avg_time", JFloat avg_query_time);
                 ("queries_per_second", of_pynum rate) ])) elapsed;
  Ok (JObj [ ("test_type", JStr "query_performance");
             ("query_results", JArr query_times);
             ("total_iterations", JInt iterations) ]).

Definition test_concurrent_operations (p : performance_probe)
    (num_threads operations_per_thread : Z) : result json :=
  total_time ← concurrent_total_time p;
  rate ← Performance.operations_per_second num_threads operations_per_thread total_time;
  Ok (JObj [ ("test_type", JStr "concurrent_operations");
             ("num_threads", JInt num_threads);
             ("operations_per_thread", JInt operations_per_thread);
             ("total_operations", JInt (num_threads * operations_per_thread));
             ("total_time", JFloat total_time);
             ("operations_per_second", of_pynum rate) ]).

Definition test_aggregation_performance (p : performance_probe) : result json :=
  rs ← aggregation_results p;
  Ok (JObj [ ("test_type", JStr "aggregation_performance");
             ("pipelines_tested", JInt 2);
             ("results", JArr rs) ]).

Definition generate_performance_report (c : clock) (database_name : string)
    (results : list json) : json * written :=
  let report :=
    JObj [ ("test_summary",
            JObj [ ("total_tests", json_len results);
                   ("test_timestamp", JStr (isoformat c));
                   ("database", JStr database_name) ]);
           ("results", JArr results) ] in
  (report, [("reports/performance_report_" +:+ strftime c +:+ ".json", report)]).

(** [run_full_performance_suite]: the accumulator [self.results] starts
    empty; the report and the files written. *)
Definition run_full_performance_suite (c : clock) (p : performance_probe)
  : result (list json * json * written) :=
  let results : list json := [] in
  _ ← cleanup_outcome p;
  r ← test_insert_performance p 1000;
  let results := (results ++ [r])%list in
  r ← test_query_performance p 50;
  let results := (results ++ [r])%list in
  r ← test_concurrent_operations p 5 50;
  let results := (results ++ [r])%list in
  r ← test_aggregation_performance p;
  let results := (results ++ [r])%list in
  let '(report, files) := generate_performance_report c "performance_test_db" results in
  Ok (results, report, files).

(** *** Security and data-validation suites
    Every test of these two builds its list of test cases inside
    [try ... except Exception] and appends one category dictionary. *)

Definition category_result (c : clock) (category : string) (test_cases : list json)
  : json :=
  JObj [ ("test_category", JStr category);
         ("timestamp", JStr (isoformat c));
         ("test_cases", JArr test_cases) ].

(** The test cases each test of the security suite ends up recording. *)
Record security_probe : Type := {
  authentication_cases : list json;
  ssl_cases : list json;
  encryption_cases : list json;
  injection_cases : list json;
  permission_cases : list json
}.

Definition security_recommendations : list json :=
  [ JStr "Enable authentication in production environments";
    JStr "Configure SSL/TLS for encrypted connections";
    JStr "Implement proper input validation and sanitization";
    JStr "Use application-level encryption for sensitive data";
    JStr "Regularly update MongoDB to latest security patches";
    JStr "Monitor database access logs";
    JStr "Implement role-based access control (RBAC)";
    JStr "Use connection string encryption in configuration files" ].

Definition generate_security_report (c : clock) (test_results : list json)
  : json * written :=
  let report :=
    JObj [ ("security_test_summary",
            JObj [ ("total_categories", json_len test_results);
                   ("test_timestamp", JStr (isoformat c));
                   ("tester", JStr "MongoDB QA Security Suite") ]);
           ("test_results", JArr test_results);
           ("recommendations", JArr security_recommendations) ] in
  (report, [("reports/security_report_" +:+ strftime c +:+ ".json", report)]).

Definition run_full_security_suite (c : clock) (p : security_probe)
  : result (list json * json * written) :=
  let test_results : list json := [] in
  let test_results :=
    (test_results ++ [category_result c "Authentication Testing" (authentication_cases p)])%list in
  let test_results :=
    (test_results ++ [category_result c "SSL/TLS Testing" (ssl_cases p)])%list in
  let test_results :=
    (test_results ++ [category_result c "Data Encryption Testing" (encryption_cases p)])%list in
  let test_results :=
    (test_results ++ [category_result c "NoSQL Injection Testing" (injection_cases p)])%list in
  let test_results :=
    (test_results ++ [category_result c "Database Permissions Testing" (permission_cases p)])%list in
  let '(report, files) := generate_security_report c test_results in
  Ok (test_results, report, files).

(** What the database does during one run of the data-validation suite. *)
Record validation_probe : Type := {
  validation_cleanup : result unit;
  schema_cases : list json;
  integrity_cases : list json;
  transaction_cases : list json;
  data_generation : result unit;
  quality_results : result json
}.

Definition validation_recommendations : list json :=
  [ JStr "Implement comprehensive schema validation for all collections";
    JStr "Use unique indexes to prevent duplicate data";
    JStr "Implement data quality checks in application layer";
    JStr "Regular data integrity audits";
    JStr "Use transactions for multi-document operations when using replica sets";
    JStr "Implement proper error handling and rollback mechanisms";
    JStr "Use data validation libraries in application code";
    JStr "Monitor data quality metrics continuously" ].

Definition generate_validation_report (c : clock) (database_name : string)
    (test_results : list json) : json * written :=
  let report :=
    JObj [ ("validation_test_summary",
            JObj [ ("total_categories", json_len test_results);
                   ("test_timestamp", JStr (isoformat c));
                   ("database", JStr database_name) ]);
           ("test_results", JArr test_results);
           ("recommendations", JArr validation_recommendations) ] in
  (report, [("reports/validation_report_" +:+ strftime c +:+ ".json", report)]).

Definition run_full_validation_suite (c : clock) (p : validation_probe)
  : result (list json * json * written) :=
  let test_results : list json := [] in
  _ ← validation_cleanup p;
  let test_results :=
    (test_results ++ [category_result c "Schema Validation Testing" (schema_cases p)])%list in
  let test_results :=
    (test_results ++ [category_result c "Data Integrity Testing" (integrity_cases p)])%list in
  let test_results :=
    (test_results ++ [category_result c "Transaction Handling Testing" (transaction_cases p)])%list in
  _ ← data_generation p;
  _ ← quality_results p;
  let '(report, files) := generate_validation_report c "validation_test_db" test_results in
  Ok (test_results, report, files).

(** *** Functional suite: the pytest module
    The script has the classes [TestMongoDBConnection],
    [TestMongoDBCRUDOperations] and [TestMongoDBIndexes] and, as its entry
    point, [pytest.main([__file__, "-v", "--tb=short"])]: the tests run
    and are reported on the terminal; nothing is accumulated by the script
    and nothing is written under [reports/]. *)

Definition crud_tests : list string :=
  [ "TestMongoDBConnection::test_connection_success";
    "TestMongoDBConnection::test_connection_invalid_host";
    "TestMongoDBConnection::test_database_selection";
    "TestMongoDBCRUDOperations::test_create_single_document";
    "TestMongoDBCRUDOperations::test_create_multiple_documents";
    "TestMongoDBCRUDOperations::test_read_documents";
    "TestMongoDBCRUDOperations::test_update_documents";
    "TestMongoDBCRUDOperations::test_delete_documents";
    "TestMongoDBIndexes::test_create_single_field_index";
    "TestMongoDBIndexes::test_create_compound_index";
    "TestMongoDBIndexes::test_query_performance_with_index" ].

(** The entry point: the outcome of every test, and the files written. *)
Definition crud_main (passes : string -> bool) : list (string * bool) * written :=
  (List.map (fun t => (t, passes t)) crud_tests, []).

(** *** The four executors side by side *)

Inductive executor : Type := Crud | PerformanceSuite | SecuritySuite | ValidationSuite.

(** Whatever one run of an executor depends on. *)
Record suite_world : Type := {
  time : clock;
  crud_passes : string -> bool;
  performance : performance_probe;
  security : security_probe;
  validation : validation_probe
}.

(** One run of an executor's entry point: the accumulator at the end and
    the files written, or the exception that ended the run. The functional
    suite has no accumulator. *)
Definition run_executor (e : executor) (w : suite_world)
  : result (list json * written) :=
  match e with
  | Crud => Ok ([], (crud_main (crud_passes w)).2)
  | PerformanceSuite =>
      r ← run_full_performance_suite (time w) (performance w); Ok (r.1.1, r.2)
  | SecuritySuite =>
      r ← run_full_security_suite (time w) (security w); Ok (r.1.1, r.2)
  | ValidationSuite =>
      r ← run_full_validation_suite (time w) (validation w); Ok (r.1.1, r.2)
  end.





(** A world in which every database call succeeds and takes some time. *)
Definition calm_world : suite_world :=
  {| time := {| isoformat := "2024-01-01T12:00:00"; strftime := "20240101_120000" |};
     crud_passes := fun _ => true;
     performance :=
       {| cleanup_outcome := Ok tt;
          single_insert_time := Ok 0.5%float;
          bulk_insert_time := Ok 0.25%float;
          query_elapsed := Ok [("{'department': 'Engineering'}", 0.125%float)];
          concurrent_total_time := Ok 2%float;
          aggregation_results := Ok [] |};
     security :=
       {| authentication_cases := []; ssl_cases := []; encryption_cases := [];
          injection_cases := []; permission_cases := [] |};
     validation :=
       {| validation_cleanup := Ok tt; schema_cases := []; integrity_cases := [];
          transaction_cases := []; data_generation := Ok tt;
          quality_results := Ok (JObj []) |} |}.

End Suites.

(** ** Further worlds for the runner *)

Module RunnerWorlds.
Import Runner.

(** Every command exits with 0. *)
Definition passing_world : world :=
  {| shell := fun _ => Ok {| returncode := 0; stdout := ""; stderr := "" |};
     path_exists := fun _ => true;
     now_isoformat := "2024-01-01T00:00:00";
     now_strftime := "20240101_000000";
     write_file := fun _ => Ok tt |}.

(** The database does not answer the ping; the suites would exit with 0. *)
Definition unreachable_world : world :=
  {| shell := fun c =>
       if String.eqb c ping_command
       then Ok {| returncode := 1; stdout := ""; stderr := "connect ECONNREFUSED" |}
       else Ok {| returncode := 0; stdout := ""; stderr := "" |};
     path_exists := fun _ => true;
     now_isoformat := "2024-01-01T00:00:00";
     now_strftime := "20240101_000000";
     write_file := fun _ => Ok tt |}.

Definition all_with_setup : args :=
  {| suite := all; skip_setup := false; load_data := false |}.

(** The entries of [suite_results] that say FAIL. *)
Definition failed_entries (report : summary_report) : list (string * string) :=
  List.filter (fun kv => String.eqb kv.2 "FAIL") (map_to_list (suite_results report)).

(** The same arguments with another [--load-data]. *)
Definition with_load_data (a : args) (b : bool) : args :=
  {| suite := suite a; skip_setup := skip_setup a; load_data := b |}.

End RunnerWorlds.

(** ** Names the loaders look for *)

Module Loaders.
Import Reports.

(** The four files the report generator opens by name, with the keys it
    stores them under, in the order it goes through them. *)
Definition fixed_files : list (string * string) :=
  [ ("crud_test_results.json", "crud");
    ("performance_test_results.json", "performance");
    ("security_test_results.json", "security");
    ("data_validation_results.json", "validation") ].

(** What a name holds, when it holds a parsed file. *)
Definition parsed (entries : gmap string file) (name : string) : option json :=
  match entries !! name with
  | Some (JsonFile content) => Some content
  | _ => None
  end.

(** A name that exists and cannot be loaded. *)
Definition unloadable (entries : gmap string file) (name : string) : Prop :=
  match entries !! name with
  | Some (JsonFile _) | None => False
  | Some _ => True
  end.

(** A directory with two summaries and a malformed suite file. *)
Definition mixed_dir : gmap string file :=
  <["test_summary_20240101_000000.json" := JsonFile (JObj [("run", JInt 1)])]>
  (<["test_summary_20240102_000000.json" := JsonFile (JObj [("run", JInt 2)])]>
  (<["security_test_results.json" := Malformed]>
  (<["performance_report_20240101_120000.json" := JsonFile (JInt 7)]> ∅))).

(** The same without the malformed file. *)
Definition clean_dir : gmap string file :=
  delete "security_test_results.json" mixed_dir.

End Loaders.

(** ** Shape of the reports, and what the runner's summary looks like once
    dumped and loaded again *)

Module ReportShape.
Import Reports Generator.




(** The sheets [generate_excel_report] can write, in the order it writes
    them. *)
Definition all_sheet_names : list string :=
  [ "Summary"; "CRUD Tests"; "Performance Tests"; "Security Tests";
    "Data Validation"; "Data Quality" ].

(** The names of the sheets of a workbook, in order. *)
Definition sheet_names (frame : Type) (sheets : list (sheet frame)) : list string :=
  List.map sheet_name sheets.

(** A sheet that may or may not have been written. *)
Definition opt (b : bool) (name : string) : list string := if b then [name] else [].

(** [json.dump] of the runner's summary, read back by [json.load]. *)
Definition summary_json (r : Runner.summary_report) : json :=
  let s := Runner.test_execution_summary r in
  let entry k := (k, JStr (default "" (Runner.suite_results r !! k))) in
  JObj [ ("test_execution_summary",
          JObj [ ("timestamp", JStr (Runner.timestamp s));
                 ("total_suites", JInt (Z.of_nat (Runner.total_suites s)));
                 ("passed_suites", JInt (Z.of_nat (Runner.passed_suites s)));
                 ("failed_suites", JInt (Z.of_nat (Runner.failed_suites s)));
                 ("overall_status", JStr (Runner.overall_status s)) ]);
         ("suite_results",
          JObj [ entry "functional_tests"; entry "performance_tests";
                 entry "security_tests"; entry "data_validation_tests" ]);
         ("recommendations", JArr (List.map JStr (Runner.recommendations r))) ].

(** A directory with a summary and a security file in the generator's
    layout. *)
Definition sample_dir : reports_dir :=
  Some (<["test_summary_1.json" :=
            JsonFile (JObj [("test_execution_summary",
                             JObj [("overall_status", JStr "PASS");
                                   ("failed_suites", JInt 0)]);
                            ("suite_results", JObj [("functional_tests", JStr "PASS")])])]>
        (<["security_test_results.json" :=
            JsonFile (JObj [("security_results",
                             JArr [JObj [("test_type", JStr "auth");
                                         ("status", JStr "PASS")]])])]> ∅)).

End ReportShape.

(** ** Report viewer (view_reports.py) *)

Module ViewReports.
Import Reports.

(** What the path [reports] is. *)
Inductive reports_path : Type :=
  | NoSuchPath
  | RegularFile
  | Dir (entries : gmap string file).

(** [s.endswith(suffix)]. *)
Definition endswith (suffix s : string) : bool :=
  let n := String.length s in
  let k := String.length suffix in
  (k <=? n)%nat && String.eqb (String.substring (n - k) k s) suffix.

(** What the viewer does besides printing messages. *)
Inductive action : Type :=
  | Opened (url : string)            (* [webbrowser.open(url)] *)
  | Listed (names : list string).    (* the names printed under "Available Reports" *)

(** [os.listdir(reports_dir)] after [os.path.exists] said yes. *)
Definition list_reports (p : reports_path) : result (list string) :=
  match p with
  | NoSuchPath => Raise FileNotFoundError
  | RegularFile => Raise (OtherError "NotADirectoryError")
  | Dir entries => Ok ((map_to_list entries).*1)
  end.

(** [main]; [cwd] is the directory [os.path.abspath] resolves against. *)
Definition main (p : reports_path) (cwd : string) : result (list action) :=
  match p with
  | NoSuchPath => Ok []
  | _ =>
      names ← list_reports p;
      let html_files := List.filter (endswith ".html") names in
      let opened :=
        match last (sorted html_files) with
        | Some latest_html =>
            let html_path := cwd +:+ "/reports/" +:+ latest_html in
            [Opened ("file://" +:+ html_path)]
        | None => []
        end in
      names' ← list_reports p;
      Ok (opened ++ [Listed (sorted names')])%list
  end.

End ViewReports.

(** ** The suite scripts as processes *)

Module Scripts.
Import Reports Suites.

(** The exit status of a script whose [__main__] block either runs to its
    end or is left by an uncaught exception. *)
Definition exit_status {A : Type} (r : result A) : Z :=
  match r with
  | Ok _ => 0
  | Raise _ => 1
  end.

(** What [pytest.main] returns: 0 when every test passed, 1 when some test
    failed. *)
Definition pytest_main (passes : string -> bool) : Z :=
  if forallb passes crud_tests then 0 else 1.

(** The exit status of each script: none of the four passes a status of its
    own to [sys.exit]; the functional one calls [pytest.main] and drops
    what it returns. *)
Definition script_exit (e : executor) (w : suite_world) : Z :=
  match e with
  | Crud => let _ := pytest_main (crud_passes w) in 0
  | _ => exit_status (run_executor e w)
  end.

Definition script_of (command : string) : option executor :=
  if String.eqb command Runner.crud_command then Some Crud
  else if String.eqb command Runner.performance_command then Some PerformanceSuite
  else if String.eqb command Runner.security_command then Some SecuritySuite
  else if String.eqb command Runner.validation_command then Some ValidationSuite
  else None.

(** The runner's world in which the four suite commands run the scripts in
    the suite world [sw] and every other command does what [other] says. *)
Definition world_of (sw : suite_world) (other : Runner.world) : Runner.world :=
  {| Runner.shell := fun command =>
       match script_of command with
       | Some e => Ok {| Runner.returncode := script_exit e sw;
                         Runner.stdout := ""; Runner.stderr := "" |}
       | None => Runner.shell other command
       end;
     Runner.path_exists := Runner.path_exists other;
     Runner.now_isoformat := Runner.now_isoformat other;
     Runner.now_strftime := Runner.now_strftime other;
     Runner.write_file := Runner.write_file other |}.

(** A suite world in which every functional test fails and every check of
    the security suite records FAIL. *)
Definition failing_checks : suite_world :=
  let failed name := JObj [("test", JStr name); ("status", JStr "FAIL")] in
  {| time := time calm_world;
     crud_passes := fun _ => false;
     performance := performance calm_world;
     security :=
       {| authentication_cases := [failed "No Authentication"];
          ssl_cases := [failed "Non-SSL Connection"];
          encryption_cases := [failed "Data Encryption Setup"];
          injection_cases := [failed "Injection Testing Setup"];
          permission_cases := [failed "Permission Testing Setup"] |};
     validation := validation calm_world |}.

Definition functional_only : Runner.args :=
  {| Runner.suite := Runner.functional; Runner.skip_setup := true;
     Runner.load_data := false |}.

(** The [test_type] of an accumulated result. *)
Definition test_type_of (r : json) : option json :=
  match r with
  | JObj fields => Generator.assoc "test_type" fields
  | _ => None
  end.

End Scripts.

(** ** Data quality (mongodb_data_validation.py, [validate_data_quality]) *)

Module Quality.
Import Reports.

(** What the database counts in the collection. *)
Record counts : Type := {
  total_docs : Z;
  missing_user_id : Z;
  missing_name : Z;
  missing_email : Z;
  duplicate_emails : Z;
  invalid_emails : Z
}.

(** [a / b] on two [int]s; the quotient is the correctly rounded one, which
    for counts below 2^53 is the quotient of the two as doubles. *)
Definition int_truediv (a b : Z) : result float :=
  if b =? 0 then Raise ZeroDivisionError
  else Ok (Performance.float_of_int a / Performance.float_of_int b)%float.

(** [(count / total_docs) * 100 if total_docs > 0 else 0]. *)
Definition percentage (count total : Z) : result json :=
  if 0 <? total
  then q ← int_truediv count total; Ok (JFloat (q * 100)%float)
  else Ok (JInt 0).

Definition check (name : string) (count total : Z) : result json :=
  p ← percentage count total;
  Ok (JObj [("check", JStr name); ("count", JInt count); ("percentage", p)]).

Definition validate_data_quality (collection_name : string) (c : counts)
  : result json :=
  let total := total_docs c in
  c1 ← check "Missing user_id" (missing_user_id c) total;
  c2 ← check "Missing name" (missing_name c) total;
  c3 ← check "Missing email" (missing_email c) total;
  c4 ← check "Duplicate emails" (duplicate_emails c) total;
  c5 ← check "Invalid email format" (invalid_emails c) total;
  Ok (JObj [ ("collection", JStr collection_name);
             ("total_documents", JInt total);
             ("validation_results", JArr [c1; c2; c3; c4; c5]) ]).

(** The percentages of a result, in order. *)
Definition percentages (r : json) : list json :=
  match r with
  | JObj fields =>
      match Generator.assoc "validation_results" fields with
      | Some (JArr checks) =>
          List.map (fun c =>
            match c with
            | JObj fs => default JNull (Generator.assoc "percentage" fs)
            | _ => JNull
            end) checks
      | _ => []
      end
  | _ => []
  end.

End Quality.

(** ** The clean-up script (cleanup_code.py) *)

Module Cleanup.




(** A match object: [m.group(0)] and [m.group(1)]. *)
Record re_match : Type := {
  group0 : string;
  group1 : string
}.

(** A compiled pattern, as far as [re.sub] uses it: the match that starts
    at the head of a text, if there is one. None of the patterns of the
    script looks behind or matches the empty string. *)
Definition pattern : Type := string -> option re_match.

(** [re.sub(pattern, repl, text)]: from left to right, every match is
    replaced by [repl] of it and the search goes on behind the match;
    [skip] counts the characters of a match still to pass over. *)
Fixpoint sub_from (p : pattern) (repl : re_match -> string) (skip : nat) (text : string)
  : string :=
  match text with
  | EmptyString => EmptyString
  | String c rest =>
      match skip with
      | S k => sub_from p repl k rest
      | O =>
          match p text with
          | Some m => repl m +:+ sub_from p repl (String.length (group0 m) - 1) rest
          | None => String c (sub_from p repl 0 rest)
          end
      end
  end.

Definition sub (p : pattern) (repl : re_match -> string) (text : string) : string :=
  sub_from p repl 0 text.





Section Patterns.

(** The characters [\w] matches. *)
Variable word_character : ascii -> bool.









End Patterns.


(** A directory: the names of its files and its subdirectories. *)
Inductive tree : Type :=
  | Folder (files : list string) (dirs : list (string * tree)).

Definition pruned : list string := ["venv"; "__pycache__"; ".pytest_cache"].

(** [os.path.join(root, name)] for a name of a directory entry. *)
Definition path_join (root name : string) : string := root +:+ "/" +:+ name.

(** The loop over [os.walk(root)], top down, with [dirs[:]] pruned in every
    directory before the walk descends: the paths appended to
    [python_files]. *)
Fixpoint python_files (root : string) (t : tree) : list string :=
  match t with
  | Folder files dirs =>
      (List.map (path_join root) (List.filter (ViewReports.endswith ".py") files)
       ++ (fix descend (dirs : list (string * tree)) : list string :=
             match dirs with
             | [] => []
             | (d, below) :: rest =>
                 (if bool_decide (d ∈ pruned) then []
                  else python_files (path_join root d) below)
                 ++ descend rest
             end) dirs)%list
  end.

(** What the walk collects below the subdirectories of [root]. *)
Definition descend (root : string) (dirs : list (string * tree)) : list string :=
  flat_map (fun entry =>
              if bool_decide (entry.1 ∈ pruned) then []
              else python_files (path_join root entry.1) entry.2) dirs.

(** The file [name] lies in [t] below the directories [dirs], outermost
    first. *)
Inductive located : tree -> list string -> string -> Prop :=
  | located_here files dirs name :
      In name files -> located (Folder files dirs) [] name
  | located_below files dirs d below ds name :
      In (d, below) dirs -> located below ds name ->
      located (Folder files dirs) (d :: ds) name.

Definition path_of (root : string) (dirs : list string) (name : string) : string :=
  path_join (foldl path_join root dirs) name.



End Cleanup.

(** ** Security suite: the tests that talk to a collection
    (mongodb_security_tests.py, [test_data_encryption] and
    [test_injection_attacks]) *)

Module SecurityTests.

(** The values the two tests store. *)
Inductive value : Type :=
  | VNull
  | VStr (s : string)
  | VBytes (b : string)
  | VDate (t : string)
  | VId (n : nat).

#[global] Instance value_eq_dec : EqDecision value.
Proof. solve_decision. Defined.

Definition document : Type := list (string * value).

(** The two conditions the queries of the tests put on a field:
    [{field: v}] and [{field: {"$ne": v}}]. *)
Inductive condition : Type :=
  | Equals (v : value)
  | NotEquals (v : value).

Definition query : Type := list (string * condition).

Fixpoint lookup_field (name : string) (d : document) : option value :=
  match d with
  | [] => None
  | (k, v) :: rest => if String.eqb k name then Some v else lookup_field name rest
  end.

(** The value a query compares: a field the document lacks compares as
    null. *)
Definition field (name : string) (d : document) : value :=
  default VNull (lookup_field name d).

Definition holds (d : document) (c : string * condition) : bool :=
  match c.2 with
  | Equals v => bool_decide (field c.1 d = v)
  | NotEquals v => negb (bool_decide (field c.1 d = v))
  end.

Definition matches (q : query) (d : document) : bool := forallb (holds d) q.

(** [d[name]]. *)
Definition subscript (d : document) (name : string) : result value :=
  match lookup_field name d with
  | Some v => Ok v
  | None => Raise (OtherError "KeyError")
  end.

Record test_case : Type := {
  test : string;
  status : string;
  details : string
}.

Definition case_json (c : test_case) : Reports.json :=
  Reports.JObj [ ("test", Reports.JStr (test c)); ("status", Reports.JStr (status c));
                 ("details", Reports.JStr (details c)) ].

(** One test: the collection it works on, the next [_id] the driver hands
    out, the number of calls made to the server, and [test_cases]. *)
Record state : Type := {
  docs : list document;
  next_id : nat;
  calls : nat;
  test_cases : list test_case
}.

(** A step of a test; an exception leaves the state as it was when it was
    raised. *)
Definition T (A : Type) : Type := state -> state * result A.

#[global] Instance T_ret : MRet T := fun A v st => (st, Ok v).
#[global] Instance T_bind : MBind T := fun A B k m st =>
  match m st with
  | (st', Ok v) => k v st'
  | (st', Raise e) => (st', Raise e)
  end.

Definition lift {A : Type} (r : result A) : T A := fun st => (st, r).

(** [test_cases.append(c)]. *)
Definition append (c : test_case) : T unit := fun st =>
  ({| docs := docs st; next_id := next_id st; calls := calls st;
      test_cases := test_cases st ++ [c] |}, Ok tt).

(** [try: body except Exception as e: handler(e)]. *)
Definition try_except {A : Type} (body : T A) (handler : exn -> T A) : T A := fun st =>
  match body st with
  | (st', Raise e) => handler e st'
  | finished => finished
  end.

Section Server.

(** Whether the n-th call of the test reaches the server. *)
Variable up : nat -> bool.

(** A call to the server: what it does to the collection and returns, when
    it gets through. *)
Definition call {A : Type}
    (operation : list document -> nat -> list document * nat * A) : T A := fun st =>
  if up (calls st) then
    let '(docs', next', answer) := operation (docs st) (next_id st) in
    ({| docs := docs'; next_id := next'; calls := S (calls st);
        test_cases := test_cases st |}, Ok answer)
  else
    ({| docs := docs st; next_id := next_id st; calls := S (calls st);
        test_cases := test_cases st |}, Raise (OtherError "ServerSelectionTimeoutError")).

Definition delete_many (q : query) : T unit :=
  call (fun docs next => (List.filter (fun d => negb (matches q d)) docs, next, tt)).

Definition insert_one (d : document) : T value :=
  call (fun docs next => ((docs ++ [("_id", VId next) :: d])%list, S next, VId next)).

Definition insert_many (ds : list document) : T unit :=
  call (fun docs next =>
          ((docs ++ imap (fun i d => ("_id", VId (next + i)) :: d) ds)%list,
           (next + length ds)%nat, tt)).

Definition find_one (q : query) : T (option document) :=
  call (fun docs next => (docs, next, List.find (matches q) docs)).

(** *** [test_injection_attacks] *)

Definition test_users : list document :=
  [ [("username", VStr "admin"); ("password", VStr "admin123"); ("role", VStr "admin")];
    [("username", VStr "user1"); ("password", VStr "password123"); ("role", VStr "user")];
    [("username", VStr "user2"); ("password", VStr "secret456"); ("role", VStr "user")] ].

(** [str] of a list of booleans. *)
Definition str_bools (l : list bool) : string :=
  "[" +:+ String.concat ", " (List.map (fun b : bool => if b then "True" else "False") l)
  +:+ "]".

Definition input_validation_case : test_case :=
  if bool_decide (Security.actual_results = Security.expected_results)
  then {| test := "Input Validation"; status := "PASS";
          details := "Input validation correctly identifies safe/unsafe inputs" |}
  else {| test := "Input Validation"; status := "FAIL";
          details := "Input validation failed. Expected: "
                     +:+ str_bools Security.expected_results +:+ ", Got: "
                     +:+ str_bools Security.actual_results |}.

Definition injection_body : T unit :=
  _ ← delete_many [];
  _ ← insert_many test_users;
  let safe_username := "admin" in
  safe_result ← find_one [("username", Equals (VStr safe_username))];
  _ ← match safe_result with
      | Some ((_ :: _) as d) =>
          username ← lift (subscript d "username");
          if bool_decide (username = VStr "admin")
          then append {| test := "Safe Query Execution"; status := "PASS";
                         details := "Proper parameterized query executed successfully" |}
          else mret tt
      | _ => mret tt
      end;
  let injection_attempt := NotEquals VNull in
  _ ← try_except
        (let dangerous_query :=
           [("username", Equals (VStr "admin")); ("password", injection_attempt)] in
         dangerous_result ← find_one dangerous_query;
         match dangerous_result with
         | None =>
             append {| test := "NoSQL Injection Prevention"; status := "PASS";
                       details :=
                         "MongoDB driver properly handled potential injection attempt" |}
         | Some _ =>
             append {| test := "NoSQL Injection Prevention"; status := "FAIL";
                       details := "Potential security vulnerability detected" |}
         end)
        (fun e =>
           append {| test := "NoSQL Injection Prevention"; status := "PASS";
                     details := "Driver properly rejected malformed query: "
                                +:+ Runner.exn_str e |});
  _ ← append input_validation_case;
  delete_many [].

(** The test cases [test_injection_attacks] records, on a collection that
    holds [before]. *)
Definition test_injection_attacks (before : list document) (first_id : nat)
  : list test_case :=
  let start := {| docs := before; next_id := first_id; calls := 0; test_cases := [] |} in
  test_cases
    (try_except injection_body
       (fun e => append {| test := "Injection Testing Setup"; status := "FAIL";
                           details := "Injection testing failed: " +:+ Runner.exn_str e |})
       start).1.

(** *** [test_data_encryption] *)

Section Crypto.

(** [cipher_suite.encrypt(text.encode())] and
    [cipher_suite.decrypt(token).decode()] for the key of the run, and
    [hashlib.sha256(text.encode()).hexdigest()]. *)
Variable encrypt : string -> string.
Variable decrypt : string -> result string.
Variable sha256_hexdigest : string -> string.

Definition encryption_body (now : string) : T unit :=
  _ ← delete_many [];
  let sensitive_data := "This is sensitive information: SSN 123-45-6789" in
  let encrypted_data := encrypt sensitive_data in
  let doc := [ ("user_id", VStr "test_user_001");
               ("encrypted_field", VBytes encrypted_data);
               ("created_at", VDate now) ] in
  inserted_id ← insert_one doc;
  retrieved_doc ← find_one [("_id", Equals inserted_id)];
  stored ← lift (match retrieved_doc with
                 | Some d => subscript d "encrypted_field"
                 | None => Raise TypeError
                 end);
  decrypted_data ← lift (match stored with
                         | VBytes token => decrypt token
                         | _ => Raise TypeError
                         end);
  _ ← (if String.eqb decrypted_data sensitive_data
       then append {| test := "Application-Level Encryption"; status := "PASS";
                      details := "Successfully encrypted and decrypted sensitive data" |}
       else append {| test := "Application-Level Encryption"; status := "FAIL";
                      details := "Encryption/decryption failed" |});
  let password := "user_password_123" in
  let hashed_password := sha256_hexdigest password in
  let user_doc := [ ("username", VStr "test_user");
                    ("password_hash", VStr hashed_password);
                    ("created_at", VDate now) ] in
  _ ← insert_one user_doc;
  let verification_hash := sha256_hexdigest password in
  _ ← (if String.eqb verification_hash hashed_password
       then append {| test := "Password Hashing"; status := "PASS";
                      details := "Password correctly hashed and verified" |}
       else append {| test := "Password Hashing"; status := "FAIL";
                      details := "Password hashing failed" |});
  delete_many [].

Definition test_data_encryption (now : string) (before : list document) (first_id : nat)
  : list test_case :=
  let start := {| docs := before; next_id := first_id; calls := 0; test_cases := [] |} in
  test_cases
    (try_except (encryption_body now)
       (fun e => append {| test := "Data Encryption Setup"; status := "FAIL";
                           details := "Encryption testing failed: " +:+ Runner.exn_str e |})
       start).1.

End Crypto.

End Server.

(** A server that answers every call, and one that never does. *)
Definition always_up (n : nat) : bool := true.
Definition never_up (n : nat) : bool := false.

(** A cipher that reverses the text: decrypting undoes encrypting. *)
Definition reverse_cipher (text : string) : string :=
  string_of_list_ascii (rev (list_ascii_of_string text)).

(** A collection left over from an earlier run. *)
Definition leftover : list document :=
  [ [("_id", VId 0); ("username", VStr "admin"); ("password", VNull)] ].

End SecurityTests.

(** ** Performance suite: the documents of the insert test
    (mongodb_performance_tests.py, [test_insert_performance]) *)

Module LoadData.

(** A document of the insert test, without its two time stamps
    ([created_at] and [metadata.last_login], both read off the clock);
    [last_login_days] is the [timedelta] added to the second. *)
Record user_document : Type := {
  user_id : Z;
  name : string;
  email : string;
  age : Z;
  department : string;
  salary : Z;
  last_login_days : Z;
  theme : string;
  language : string
}.

Definition departments : list string :=
  ["Engineering"; "Sales"; "Marketing"; "HR"; "Finance"].

(** [choices[i % len(choices)]]. *)
Definition choose (choices : list string) (i : Z) : string :=
  nth (Z.to_nat (i mod Z.of_nat (length choices))) choices "".

(** The document built in iteration [i]. *)
Definition doc (i : Z) : user_document :=
  {| user_id := 1000 + i;
     name := "User_" +:+ pretty i;
     email := "user" +:+ pretty i +:+ "@example.com";
     age := 20 + i mod 50;
     department := choose departments i;
     salary := 50000 + i * 100;
     last_login_days := i mod 30;
     theme := choose ["light"; "dark"] i;
     language := choose ["en"; "es"; "fr"] i |}.

(** [test_data] after the loop over [range(document_count)]. *)
Definition test_data (document_count : Z) : list user_document :=
  doc <$> seqZ 0 document_count.

(** [test_data[:100]], the documents inserted one by one. *)
Definition single_inserts (document_count : Z) : list user_document :=
  take 100 (test_data document_count).

End LoadData.

(** ** Time stamps in file names
    ([datetime.now().strftime("%Y%m%d_%H%M%S")] in run_tests.py and in the
    three suites that write a report) *)

Module Timestamps.

(** A [datetime], to the second. *)
Record datetime : Type := {
  year : Z;
  month : Z;
  day : Z;
  hour : Z;
  minute : Z;
  second : Z
}.

(** The fields are in their ranges; the year has four digits. *)
Definition valid (t : datetime) : Prop :=
  1000 <= year t <= 9999 /\ 1 <= month t <= 12 /\ 1 <= day t <= 31
  /\ 0 <= hour t <= 23 /\ 0 <= minute t <= 59 /\ 0 <= second t <= 59.

(** The last decimal digit of [n]. *)
Definition digit (n : Z) : ascii := ascii_of_N (48 + Z.to_N (n mod 10)).

(** [%m], [%d], [%H], [%M] and [%S]: two digits, zero-padded. *)
Definition two_digits (n : Z) (rest : string) : string :=
  String (digit (n / 10)) (String (digit n) rest).

(** [%Y] for a year of four digits. *)
Definition four_digits (n : Z) (rest : string) : string :=
  String (digit (n / 1000)) (String (digit (n / 100))
    (String (digit (n / 10)) (String (digit n) rest))).

(** [t.strftime("%Y%m%d_%H%M%S")], followed by [rest]. *)
Definition strftime_then (t : datetime) (rest : string) : string :=
  four_digits (year t) (two_digits (month t) (two_digits (day t)
    (String "_" (two_digits (hour t) (two_digits (minute t)
      (two_digits (second t) rest)))))).

Definition strftime (t : datetime) : string := strftime_then t EmptyString.

(** The name of the file written at [t]:
    [f"{prefix}{timestamp}.json"]. *)
Definition stamped (prefix : string) (t : datetime) : string :=
  prefix +:+ strftime_then t ".json".

(** The order of two times. *)
Definition then_by (c : comparison) (rest : comparison) : comparison :=
  match c with
  | Eq => rest
  | _ => c
  end.

Definition compare (a b : datetime) : comparison :=
  then_by (year a ?= year b)
    (then_by (month a ?= month b)
       (then_by (day a ?= day b)
          (then_by (hour a ?= hour b)
             (then_by (minute a ?= minute b) (second a ?= second b))))).

Definition new_year_2024 : datetime :=
  {| year := 2024; month := 1; day := 1; hour := 0; minute := 0; second := 0 |}.

Definition later_that_day : datetime :=
  {| year := 2024; month := 1; day := 1; hour := 9; minute := 30; second := 5 |}.

End Timestamps.

(** * Properties *)

Module SecurityProps.
Import Security.

Lemma contains_char (c : codepoint) (s : str) :
  contains [c] s = true <-> In c s.
Proof.
  induction s as [|a s IH]; cbn [contains starts_with].
  - split; [discriminate | intros []].
  - rewrite orb_true_iff, IH, andb_true_iff, N.eqb_eq. cbn [In].
    split; [intros [[-> _]|H]; auto | intros [->|H]; [left; by destruct s | auto]].
Qed.

Lemma any_forbidden (s : str) :
  any (fun char => contains char s) forbidden = true
  <-> exists c, In c forbidden_chars /\ In c s.
Proof.
  unfold any, forbidden, forbidden_chars.
  change (str_of "$") with [36%N]. change (str_of "{") with [123%N].
  change (str_of "}") with [125%N]. change (str_of ";") with [59%N].
  cbn [existsb].
  rewrite !orb_true_iff, !contains_char. split.
  - intros [H|[H|[H|[H|H]]]]; [eexists; split; [|exact H]; cbn; tauto ..|discriminate].
  - intros [c [[<-|[<-|[<-|[<-|[]]]]] H]]; tauto.
Qed.

(** C5. The validator returns [true, true, false, false, false] on the five
    inputs of the suite, so the check records PASS, and in general accepts
    a value exactly when it is a string of at most 50 characters (code
    points, as [len] counts them) with none of [$ { } ;] in it; a name of
    27 accented letters is accepted. *)
Theorem validate_user_input_spec :
  List.map validate_user_input test_inputs = [true; true; false; false; false]
  /\ input_validation_status = "PASS"
  /\ (forall v : pyvalue,
       validate_user_input v = true
       <-> exists s : str,
             v = PyStr s
             /\ (length s <= 50)%nat
             /\ forall c, In c forbidden_chars -> ~ In c s)
  /\ validate_user_input (PyStr accented_name) = true.
Proof.
  split; [reflexivity|]. split; [reflexivity|]. split; [|reflexivity].
  intros v. split.
  - unfold validate_user_input. destruct v; try (intros H; discriminate H).
    destruct (50 <? Z.of_nat (length s)) eqn:Hlen; [discriminate|].
    destruct (any _ forbidden) eqn:Hany; [discriminate|]. intros _.
    exists s. split; [reflexivity|]. split; [apply Z.ltb_ge in Hlen; lia|].
    intros c Hc Hin.
    assert (any (fun char => contains char s) forbidden = true) as Ht
      by (apply any_forbidden; eauto).
    congruence.
  - intros (s & -> & Hlen & Hnone). unfold validate_user_input.
    destruct (50 <? Z.of_nat (length s)) eqn:E; [apply Z.ltb_lt in E; lia|].
    destruct (any _ forbidden) eqn:Hany; [|reflexivity].
    apply any_forbidden in Hany as (c & Hc & Hin). destruct (Hnone c Hc Hin).
Qed.

End SecurityProps.

Module PerformanceProps.
Import Performance.
Local Open Scope float_scope.

(** A float that compares equal to zero is not greater than zero. *)
Lemma zero_not_gt0 (t : float) : (t =? 0) = true -> gt0 t = false.
Proof.
  unfold gt0. rewrite FloatAxioms.eqb_spec, FloatAxioms.ltb_spec.
  destruct (Prim2SF t) as [s|s| |s m e]; vm_compute; try congruence;
    destruct s; congruence.
Qed.

Lemma gt0_not_zero (t : float) : gt0 t = true -> (t =? 0) = false.
Proof.
  intros H. destruct (t =? 0) eqn:E; [|reflexivity].
  apply zero_not_gt0 in E. congruence.
Qed.

(** The three guarded rates are the integer 0 at a zero elapsed time. *)
Lemma guarded_rates_zero (t : float) (n : Z) :
  (t =? 0) = true ->
  single_insert_rate t = Ok (NInt 0)
  /\ bulk_insert_rate n t = Ok (NInt 0)
  /\ queries_per_second t = Ok (NInt 0).
Proof.
  intros H. apply zero_not_gt0 in H.
  unfold single_insert_rate, bulk_insert_rate, queries_per_second.
  rewrite H. auto.
Qed.

(** The three guarded rates never fault, whatever the elapsed time. *)
Lemma guarded_rates_total (t : float) (n : Z) :
  is_ok (single_insert_rate t) = true
  /\ is_ok (bulk_insert_rate n t) = true
  /\ is_ok (queries_per_second t) = true.
Proof.
  unfold single_insert_rate, bulk_insert_rate, queries_per_second, truediv.
  destruct (gt0 t) eqn:E; [|auto].
  rewrite (gt0_not_zero _ E). auto.
Qed.

(** The unguarded rate faults at every zero elapsed time (either sign). *)
Lemma unguarded_rate_faults (num_threads operations_per_thread : Z) (t : float) :
  (t =? 0) = true ->
  operations_per_second num_threads operations_per_thread t = Raise ZeroDivisionError.
Proof.
  intros H. unfold operations_per_second, truediv. rewrite H. reflexivity.
Qed.

(** C2 (the code at the failing input). With a zero elapsed time the
    concurrent-operations rate of the suite's own call (5 workers, 50
    operations each) divides by zero: line 228 has no guard, while the
    insert and query rates of the same file return 0 there. *)
Theorem concurrent_rate_divides_by_zero :
  operations_per_second 5 50 0 = Raise ZeroDivisionError
  /\ single_insert_rate 0 = Ok (NInt 0)
  /\ bulk_insert_rate 1000 0 = Ok (NInt 0)
  /\ queries_per_second 0 = Ok (NInt 0)
  /\ query_rate 50 0 = Ok (NInt 0).
Proof. repeat split; reflexivity. Qed.

End PerformanceProps.


Module RunnerProps.
Import Runner.

Lemma command_result_success (w : world) (c : string) :
  success (command_result w c) = true <-> return_code (command_result w c) = 0.
Proof.
  unfold command_result. destruct (shell w c) as [p|e]; simpl.
  - apply bool_decide_eq_true.
  - split; [discriminate | lia].
Qed.

(** Unfolding [main] for given arguments. *)
Ltac run_unfold a w :=
  destruct a as [s sk ld];
  unfold run, main, setup_passes, setup_events, results_of, selected_commands,
    summary_writable;
  unfold setup_environment, run_functional_tests, run_performance_tests,
    run_security_tests, run_data_validation_tests, generate_summary_report,
    load_test_data, run_command, emit;
  cbv zeta; cbn [suite skip_setup load_data];
  destruct (write_file w (summary_filename w)) as [[]|?].

Ltac not_in_list :=
  let H := fresh in
  intros H;
  repeat (apply elem_of_cons in H as [H|H]; [discriminate H|]);
  by apply elem_of_nil in H.

(** The tests [args.suite in [...]] for a known choice. *)
Ltac decide_membership :=
  repeat match goal with
  | |- context [bool_decide (?x ∈ ?l)] =>
      first [ rewrite (bool_decide_eq_true_2 (x ∈ l)) by (repeat constructor)
            | rewrite (bool_decide_eq_false_2 (x ∈ l)) by not_in_list ]
  end.

Ltac run_finish :=
  unfold mbind, mret, M_bind, M_ret;
  decide_membership;
  cbn -[build_report command_result String.append String.eqb insert empty
        summary_filename];
  repeat match goal with
  | E : success _ = _ |- _ => rewrite E
  end;
  cbn -[build_report command_result String.append String.eqb insert empty
        summary_filename];
  try match goal with
  | |- context [String.eqb (overall_status ?x) ?y] =>
      destruct (String.eqb (overall_status x) y)
  end;
  reflexivity.

(** Everything an invocation does, in order. *)
Lemma run_log (a : args) (w : world) :
  (run a w).2 =
  (setup_events a w ++
   if setup_passes a w
   then List.map (fun c => Spawned c (command_result w c)) (selected_commands (suite a))
        ++ (if summary_writable w
            then [WroteSummary (summary_filename w)
                               (build_report w (results_of w (suite a)))]
            else [])
   else [])%list.
Proof.
  run_unfold a w;
    destruct s, sk, ld; destruct (success (command_result w ping_command)) eqn:E;
    run_finish.
Qed.

Lemma run_exit_status (a : args) (w : world) :
  (run a w).1 =
  if setup_passes a w && summary_writable w
     && String.eqb (overall_status (test_execution_summary
                      (build_report w (results_of w (suite a))))) "PASS"
  then 0 else 1.
Proof.
  run_unfold a w;
    destruct s, sk, ld; destruct (success (command_result w ping_command)) eqn:E;
    run_finish.
Qed.

Lemma status_of_results (w : world) (s : suite_choice) :
  String.eqb (overall_status (test_execution_summary
                (build_report w (results_of w s)))) "PASS"
  = forallb (fun c => success (command_result w c)) (selected_commands s).
Proof.
  unfold results_of, selected_commands.
  destruct s; cbn [selected foldl fst snd fmap list_fmap forallb];
    repeat match goal with
    | |- context [success ?r] => destruct (success r)
    end; vm_compute; reflexivity.
Qed.

Lemma run_exit_code (a : args) (w : world) :
  (run a w).1 =
  if setup_passes a w && summary_writable w
     && forallb (fun c => success (command_result w c)) (selected_commands (suite a))
  then 0 else 1.
Proof. rewrite run_exit_status, status_of_results. reflexivity. Qed.

Lemma no_suite_in_setup (a : args) (w : world) :
  spawned_suites (setup_events a w) = []
  /\ summaries_written (setup_events a w) = [].
Proof. unfold setup_events. destruct (skip_setup a); split; reflexivity. Qed.

Lemma spawned_of_commands (w : world) (cs : list string) :
  Forall (fun c => c ∈ suite_commands) cs ->
  spawned_suites (List.map (fun c => Spawned c (command_result w c)) cs)
  = List.map (fun c => (c, command_result w c)) cs.
Proof.
  induction 1 as [|c cs Hc _ IH]; [reflexivity|].
  cbn [List.map spawned_suites flat_map]. rewrite bool_decide_eq_true_2 by exact Hc.
  cbn [app]. f_equal. exact IH.
Qed.

Lemma selected_are_suite_commands (s : suite_choice) :
  Forall (fun c => c ∈ suite_commands) (selected_commands s).
Proof. destruct s; repeat constructor. Qed.

Lemma run_spawned (a : args) (w : world) :
  spawned_suites (run a w).2 =
  if setup_passes a w
  then List.map (fun c => (c, command_result w c)) (selected_commands (suite a))
  else [].
Proof.
  rewrite run_log. unfold spawned_suites at 1. rewrite flat_map_app.
  fold (spawned_suites (setup_events a w)).
  rewrite (proj1 (no_suite_in_setup a w)). cbn [app].
  destruct (setup_passes a w); [|reflexivity].
  rewrite flat_map_app.
  fold (spawned_suites (List.map (fun c => Spawned c (command_result w c))
                          (selected_commands (suite a)))).
  rewrite spawned_of_commands by apply selected_are_suite_commands.
  destruct (summary_writable w); cbn [flat_map app]; by rewrite app_nil_r.
Qed.

Lemma no_summary_among_spawns (w : world) (cs : list string) :
  summaries_written (List.map (fun c => Spawned c (command_result w c)) cs) = [].
Proof. induction cs as [|c cs IH]; [reflexivity|]. cbn. exact IH. Qed.

Lemma run_summaries (a : args) (w : world) :
  summaries_written (run a w).2 =
  if setup_passes a w && summary_writable w
  then [(summary_filename w, build_report w (results_of w (suite a)))]
  else [].
Proof.
  rewrite run_log. unfold summaries_written at 1. rewrite flat_map_app.
  fold (summaries_written (setup_events a w)).
  rewrite (proj2 (no_suite_in_setup a w)). cbn [app].
  destruct (setup_passes a w); [|reflexivity].
  rewrite flat_map_app.
  fold (summaries_written (List.map (fun c => Spawned c (command_result w c))
                             (selected_commands (suite a)))).
  rewrite no_summary_among_spawns.
  destruct (summary_writable w); reflexivity.
Qed.

Lemma selected_commands_nonempty (s : suite_choice) :
  exists c, c ∈ selected_commands s.
Proof. destruct s; eexists; apply list_elem_of_here. Qed.

Lemma pass_fail_PASS (b : bool) : pass_fail b = "PASS" <-> b = true.
Proof. destruct b; simpl; split; congruence. Qed.

Lemma overall_status_PASS (w : world) (results : gmap string bool) :
  overall_status (test_execution_summary (build_report w results)) = "PASS"
  <-> forall k b, results !! k = Some b -> b = true.
Proof.
  cbn [build_report test_execution_summary overall_status].
  rewrite pass_fail_PASS, forallb_forall. unfold values. split.
  - intros H k b Hk. apply H, list_elem_of_In, list_elem_of_fmap.
    exists (k, b). split; [reflexivity|]. by apply elem_of_map_to_list.
  - intros H b Hb. apply list_elem_of_In, list_elem_of_fmap in Hb as ([k b'] & -> & Hkb).
    apply elem_of_map_to_list in Hkb. eauto.
Qed.

Lemma command_returns_zero (w : world) (c : string) :
  success (command_result w c) = true
  <-> exists p, shell w c = Ok p /\ returncode p = 0.
Proof.
  unfold command_result. destruct (shell w c) as [p|e]; cbn [success].
  - rewrite bool_decide_eq_true. split; [eauto | by intros (p' & [= <-] & H)].
  - split; [discriminate | by intros (p' & [=] & _)].
Qed.

Lemma results_of_entries (w : world) (s : suite_choice) (k : string) (b : bool) :
  results_of w s !! k = Some b
  <-> exists c, (k, c) ∈ selected s /\ b = success (command_result w c).
Proof.
  unfold results_of. split.
  - destruct s; cbn [selected foldl fst snd]; intros H;
      repeat (apply lookup_insert_Some in H as [[<- <-]|[_ H]];
              [eexists; split; [|reflexivity]; repeat constructor|]);
      by rewrite lookup_empty in H.
  - intros (c & Hin & ->).
    destruct s; cbn [selected foldl fst snd] in *;
      repeat (apply elem_of_cons in Hin as [Hin|Hin]; [injection Hin as -> ->|]);
      try (by apply elem_of_nil in Hin);
      repeat first [ rewrite lookup_insert_eq; reflexivity
                   | rewrite lookup_insert_ne by discriminate ].
Qed.

(** C1. The runner exits with 0 exactly when the reachability check is
    skipped or passes, every suite the selection names returns 0 from its
    subprocess, and the summary file can be written; otherwise it exits
    with 1. Past the reachability check the subprocesses it runs are the
    selected suites', each once. The summary it writes is the one built
    from the per-suite success map, which holds for every selected suite
    whether its subprocess returned 0; that summary says PASS exactly when
    every entry of the map is true, and the exit status is 0 exactly when
    it says PASS. *)
Theorem exit_zero_iff_all_selected_suites_passed (a : args) (w : world) :
  ((run a w).1 = 0
   <-> setup_passes a w = true
       /\ (forall c, c ∈ selected_commands (suite a) ->
             exists p, shell w c = Ok p /\ returncode p = 0)
       /\ summary_writable w = true)
  /\ ((run a w).1 = 0 \/ (run a w).1 = 1)
  /\ (setup_passes a w = true ->
      spawned_suites (run a w).2
      = List.map (fun c => (c, command_result w c)) (selected_commands (suite a)))
  /\ (forall f report, (f, report) ∈ summaries_written (run a w).2 ->
        report = build_report w (results_of w (suite a))
        /\ ((run a w).1 = 0 <-> overall_status (test_execution_summary report) = "PASS"))
  /\ (forall k b, results_of w (suite a) !! k = Some b
        <-> exists c, (k, c) ∈ selected (suite a)
                      /\ b = success (command_result w c))
  /\ (forall results : gmap string bool,
        overall_status (test_execution_summary (build_report w results)) = "PASS"
        <-> forall k b, results !! k = Some b -> b = true).
Proof.
  split; [|split; [|split; [|split; [|split;
    [apply results_of_entries | apply overall_status_PASS]]]]].
  - rewrite run_exit_code.
    destruct (setup_passes a w); [|split; [discriminate | by intros [? _]]].
    destruct (summary_writable w); cbn [andb];
      [|split; [discriminate | by intros (_ & _ & ?)]].
    destruct (forallb _ _) eqn:E.
    + split; [intros _|reflexivity]. split; [reflexivity|]. split; [|reflexivity].
      intros c Hc. apply command_returns_zero.
      rewrite forallb_forall in E. apply E, list_elem_of_In, Hc.
    + split; [discriminate|]. intros (_ & H & _). exfalso.
      apply not_true_iff_false in E. apply E, forallb_forall. intros c Hc.
      apply command_returns_zero, H, list_elem_of_In, Hc.
  - rewrite run_exit_code. destruct (_ && _); [by left | by right].
  - intros Hsetup. by rewrite run_spawned, Hsetup.
  - intros f report. rewrite run_summaries, run_exit_status.
    destruct (setup_passes a w && summary_writable w);
      [|intros H; by apply elem_of_nil in H].
    intros H. apply list_elem_of_singleton in H. inversion H; subst. cbn [andb].
    split; [reflexivity|].
    destruct (String.eqb_spec
      (overall_status (test_execution_summary
         (build_report w (results_of w (suite a))))) "PASS") as [E|E];
      [by rewrite E|]. split; [discriminate | intros E'; by destruct E].
Qed.

Lemma exit_zero_iff_all_selected_suites_passed_witness :
  (run performance_only RunnerWorlds.passing_world).1 = 0.
Proof.
  apply (proj1 (exit_zero_iff_all_selected_suites_passed
                  performance_only RunnerWorlds.passing_world)).
  split; [reflexivity|]. split; [|reflexivity].
  intros c Hc. eexists. split; reflexivity.
Defined.

(** C1, as stated, fails where the summary cannot be written: with
    [--suite functional --skip-setup] in a directory without [reports/]
    the only selected suite returns 0 and the runner exits with 1. *)
Lemma suites_pass_yet_exit_one :
  (forall c, c ∈ selected_commands (suite functional_skipping_setup) ->
     exists p, shell bare_directory c = Ok p /\ returncode p = 0)
  /\ (List.map (fun cr => (cr.1, return_code cr.2))
        (spawned_suites (run functional_skipping_setup bare_directory).2)
      = [(crud_command, 0)])
  /\ (run functional_skipping_setup bare_directory).1 = 1
  /\ summaries_written (run functional_skipping_setup bare_directory).2 = [].
Proof.
  split; [|split; [|split]]; try reflexivity.
  intros c Hc. apply list_elem_of_singleton in Hc as ->.
  eexists. split; reflexivity.
Qed.

Lemma fst_spawned (w : world) (cs : list string) :
  (List.map (fun c => (c, command_result w c)) cs).*1 = cs.
Proof. induction cs as [|c cs IH]; [reflexivity|]. cbn. f_equal. exact IH. Qed.

(** C8. Once past the reachability check, every suite the selection names
    is spawned, in the fixed order functional, performance, security,
    validation, whatever the earlier suites returned; with [all] that is
    all four. When the summary file can be written, one summary is written
    after them, as the last thing the run does; when it cannot, the run
    ends after the suites with status 1 and no summary. *)
Theorem failing_suite_does_not_halt_the_run (a : args) (w : world) :
  setup_passes a w = true ->
  (spawned_suites (run a w).2).*1 = selected_commands (suite a)
  /\ (suite a = all ->
      (spawned_suites (run a w).2).*1
      = [crud_command; performance_command; security_command; validation_command])
  /\ (summary_writable w = true ->
      exists before f report,
        (run a w).2 = (before ++ [WroteSummary f report])%list
        /\ summaries_written (run a w).2 = [(f, report)]
        /\ summaries_written before = [])
  /\ (summary_writable w = false ->
      summaries_written (run a w).2 = [] /\ (run a w).1 = 1).
Proof.
  intros Hsetup. rewrite run_spawned, run_summaries, run_log, run_exit_code, Hsetup.
  rewrite fst_spawned.
  split; [reflexivity|]. split; [|split].
  - intros Hall. rewrite Hall. reflexivity.
  - intros ->. eexists (_ ++ _)%list, _, _. split; [by rewrite app_assoc|].
    split; [reflexivity|].
    unfold summaries_written. rewrite flat_map_app.
    fold (summaries_written (setup_events a w)).
    fold (summaries_written
            (List.map (fun c => Spawned c (command_result w c))
                      (selected_commands (suite a)))).
    by rewrite no_summary_among_spawns, (proj2 (no_suite_in_setup a w)).
  - intros ->. split; reflexivity.
Qed.

Lemma failing_suite_does_not_halt_the_run_witness :
  (spawned_suites
     (run {| suite := all; skip_setup := false; load_data := false |} failing_world).2).*1
  = [crud_command; performance_command; security_command; validation_command].
Proof.
  refine (proj1 (proj2 (failing_suite_does_not_halt_the_run
    {| suite := all; skip_setup := false; load_data := false |} failing_world _)) _);
    reflexivity.
Defined.

(** C8, as stated, fails in its last part: with [--suite all --skip-setup]
    in a directory without [reports/], where no suite script gets as far as
    creating it, all four suites are run and no summary is generated. *)
Lemma no_summary_without_reports_directory :
  List.map (fun cr => (cr.1, return_code cr.2))
    (spawned_suites (run all_skipping_setup bare_directory).2)
  = [(crud_command, 0); (performance_command, 1); (security_command, 1);
     (validation_command, 1)]
  /\ summaries_written (run all_skipping_setup bare_directory).2 = []
  /\ (run all_skipping_setup bare_directory).1 = 1.
Proof. split; [|split]; reflexivity. Qed.

Lemma suite_results_dom (w : world) (results : gmap string bool) :
  dom (suite_results (build_report w results)) = four_report_keys.
Proof.
  cbn [build_report suite_results]. rewrite !dom_insert_L, dom_empty_L.
  unfold four_report_keys. set_solver.
Qed.

(** C9. The summary an invocation writes has an entry for each of the four
    suites; when a single suite was selected, [total_suites] is 1, the
    entry of the selected suite tells what its subprocess returned, and the
    entries of the three suites that never ran say FAIL. *)
Theorem suite_results_always_has_four_entries
    (a : args) (w : world) (f : string) (report : summary_report) :
  (f, report) ∈ summaries_written (run a w).2 ->
  dom (suite_results report) = four_report_keys
  /\ (suite a <> all ->
      total_suites (test_execution_summary report) = 1%nat
      /\ forall key command, (key, command) ∈ selected all ->
           suite_results report !! report_key key
           = Some (if bool_decide ((key, command) ∈ selected (suite a))
                   then pass_fail (success (command_result w command))
                   else "FAIL")).
Proof.
  rewrite run_summaries. destruct (setup_passes a w && summary_writable w);
    [|intros H; by apply elem_of_nil in H].
  intros H. apply list_elem_of_singleton in H. inversion H; subst; clear H.
  split; [apply suite_results_dom|].
  intros Hsingle. unfold results_of.
  destruct (suite a) eqn:Hs; [done| | | |];
    cbn [selected List.map fst snd];
    generalize (command_result w crud_command);
    generalize (command_result w performance_command);
    generalize (command_result w security_command);
    generalize (command_result w validation_command);
    intros [b4 ? ? ?] [b3 ? ? ?] [b2 ? ? ?] [b1 ? ? ?];
    (split; [reflexivity|]);
    intros key command Hin;
    repeat (apply elem_of_cons in Hin as [Hin|Hin]; [inversion Hin; subst; clear Hin|]);
    try (by apply elem_of_nil in Hin);
    cbn [success]; destruct b1, b2, b3, b4; vm_compute; reflexivity.
Qed.

Lemma suite_results_always_has_four_entries_witness :
  total_suites (test_execution_summary
    (build_report failing_world (results_of failing_world performance))) = 1%nat
  /\ suite_results (build_report failing_world (results_of failing_world performance))
       !! "security_tests" = Some "FAIL".
Proof.
  pose proof (suite_results_always_has_four_entries performance_only failing_world
    "reports/test_summary_20240101_000000.json"
    (build_report failing_world (results_of failing_world performance))) as H.
  destruct H as [_ H]; [vm_compute; apply list_elem_of_here|].
  destruct H as [Htotal Hkeys]; [discriminate|].
  split; [exact Htotal|].
  exact (Hkeys "security" security_command ltac:(vm_compute; repeat constructor)).
Defined.

End RunnerProps.

Module ReportsProps.
Import Reports.

(** *** The order on file names *)

Lemma ascii_compare_refl (c : ascii) : Ascii.compare c c = Eq.
Proof. unfold Ascii.compare. apply N.compare_refl. Qed.

Lemma leb_refl (x : string) : String.leb x x = true.
Proof. destruct (String.leb_total x x); assumption. Qed.

Lemma leb_trans (x y z : string) :
  String.leb x y = true -> String.leb y z = true -> String.leb x z = true.
Proof.
  unfold String.leb. revert y z.
  induction x as [|a x IH]; intros [|b y] [|c z]; simpl; try congruence.
  unfold Ascii.compare.
  destruct (N.compare_spec (N_of_ascii a) (N_of_ascii b)) as [Hab|Hab|Hab];
    destruct (N.compare_spec (N_of_ascii b) (N_of_ascii c)) as [Hbc|Hbc|Hbc];
    try congruence.
  - rewrite Hab, Hbc, N.compare_refl. apply IH.
  - intros _ _. rewrite Hab. apply N.compare_lt_iff in Hbc. by rewrite Hbc.
  - intros _ _. rewrite <- Hbc. apply N.compare_lt_iff in Hab. by rewrite Hab.
  - intros _ _.
    assert (N_of_ascii a < N_of_ascii c)%N as H by lia.
    apply N.compare_lt_iff in H. by rewrite H.
Qed.

Lemma elem_of_insert_sorted (x y : string) (l : list string) :
  y ∈ insert_sorted x l <-> y = x \/ y ∈ l.
Proof.
  induction l as [|z l IH]; simpl.
  - rewrite list_elem_of_singleton, elem_of_nil. tauto.
  - destruct (String.leb x z); rewrite !elem_of_cons; [tauto|].
    rewrite IH. tauto.
Qed.

Lemma elem_of_sorted (y : string) (l : list string) : y ∈ sorted l <-> y ∈ l.
Proof.
  induction l as [|x l IH]; simpl; [reflexivity|].
  rewrite elem_of_insert_sorted, elem_of_cons, IH. reflexivity.
Qed.

Lemma insert_sorted_ascending (x : string) (l : list string) :
  StronglySorted le_name l -> StronglySorted le_name (insert_sorted x l).
Proof.
  induction 1 as [|y l Hl IH Hy]; simpl.
  - repeat constructor.
  - destruct (String.leb x y) eqn:E.
    + constructor; [by constructor|]. constructor; [exact E|].
      eapply Forall_impl; [exact Hy|]. intros z Hz. by eapply leb_trans.
    + constructor; [exact IH|].
      apply Forall_forall. intros z Hz. apply elem_of_insert_sorted in Hz as [->|Hz].
      * destruct (String.leb_total x y); [congruence|assumption].
      * rewrite Forall_forall in Hy. by apply Hy.
Qed.

Lemma sorted_ascending (l : list string) : StronglySorted le_name (sorted l).
Proof.
  induction l as [|x l IH]; simpl; [constructor|].
  by apply insert_sorted_ascending.
Qed.

Lemma last_of_ascending (l : list string) (x : string) :
  StronglySorted le_name l -> last l = Some x ->
  forall y, y ∈ l -> le_name y x.
Proof.
  induction 1 as [|a l Hl IH Ha]; intros Hlast y Hy; [by apply elem_of_nil in Hy|].
  destruct l as [|b l].
  - simpl in Hlast. inversion Hlast; subst.
    apply list_elem_of_singleton in Hy as ->. apply leb_refl.
  - assert (last (b :: l) = Some x) as Hlast' by exact Hlast.
    apply elem_of_cons in Hy as [->|Hy]; [|by apply IH].
    rewrite Forall_forall in Ha. apply Ha.
    by apply last_Some_elem_of.
Qed.

(** [sorted(files)[-1]] is a member of [files] and no member is above it. *)
Lemma latest_is_greatest (files : list string) (latest : string) :
  last (sorted files) = Some latest ->
  latest ∈ files /\ forall f, f ∈ files -> String.leb f latest = true.
Proof.
  intros H. split.
  - apply elem_of_sorted. by apply last_Some_elem_of.
  - intros f Hf. eapply last_of_ascending; [apply sorted_ascending|exact H|].
    by apply elem_of_sorted.
Qed.

Lemma no_latest_iff_no_file (files : list string) :
  last (sorted files) = None <-> files = [].
Proof.
  rewrite last_None. split; [|by intros ->].
  destruct files as [|x l]; [done|]. intros H.
  assert (x ∈ sorted (x :: l)) as Hx by (apply elem_of_sorted; left).
  rewrite H in Hx. by apply elem_of_nil in Hx.
Qed.

Lemma load_latest_spec (d : reports_dir) (prefix key : string)
    (results : gmap string json) :
  load_latest d prefix key results =
  match latest_of d prefix with
  | Ok None => (results, Ok tt)
  | Ok (Some content) => (<[key := content]> results, Ok tt)
  | Raise e => (results, Raise e)
  end.
Proof.
  unfold load_latest, latest_of, lift, store, mbind, mret, L_bind, L_ret,
    result_bind.
  destruct (listdir d) as [names|e]; [|reflexivity].
  destruct (last (sorted (with_prefix prefix names))) as [latest|]; [|reflexivity].
  destruct (load_json d latest); reflexivity.
Qed.

Lemma L_bind_unfold {A B : Type} (m : L A) (k : A -> L B)
    (results : gmap string json) :
  (m ≫= k) results =
  match m results with
  | (results', Ok v) => k v results'
  | (results', Raise e) => (results', Raise e)
  end.
Proof. reflexivity. Qed.

End ReportsProps.

Module DashboardProps.
Import Reports Dashboard ReportsProps.

Ltac lookups :=
  repeat (rewrite lookup_insert_eq || (rewrite lookup_insert_ne by discriminate));
  rewrite ?lookup_empty; reflexivity.

Lemma latest_of_missing_dir (prefix : string) :
  latest_of None prefix = Raise FileNotFoundError.
Proof. reflexivity. Qed.


End DashboardProps.

Module GeneratorProps.
Import Reports Generator ReportsProps.

Lemma elem_of_listdir (entries : gmap string file) (name : string) :
  name ∈ (map_to_list entries).*1 <-> is_Some (entries !! name).
Proof.
  rewrite list_elem_of_fmap. split.
  - intros ([k v] & -> & H). apply elem_of_map_to_list in H. by exists v.
  - intros [v H]. exists (name, v). split; [reflexivity|].
    by apply elem_of_map_to_list.
Qed.

(** What [latest_of] finds is the file whose name is the greatest among the
    names with the prefix. *)
Lemma latest_of_greatest (entries : gmap string file) (prefix : string)
    (content : json) :
  latest_of (Some entries) prefix = Ok (Some content) ->
  exists name,
    String.prefix prefix name = true
    /\ entries !! name = Some (JsonFile content)
    /\ forall other, is_Some (entries !! other) ->
         String.prefix prefix other = true -> String.leb other name = true.
Proof.
  unfold latest_of, listdir. cbn [mbind result_bind].
  destruct (last (sorted (with_prefix prefix (map_to_list entries).*1)))
    as [latest|] eqn:E; [|discriminate].
  apply latest_is_greatest in E as [Hin Hmax].
  unfold with_prefix in Hin. apply list_elem_of_In, filter_In in Hin as [Hin Hpre].
  intros H. exists latest. split; [exact Hpre|]. split.
  - unfold load_json in H. destruct (entries !! latest) as [[]|]; try discriminate.
    cbn in H. congruence.
  - intros other Hother Hp. apply Hmax. unfold with_prefix.
    apply list_elem_of_In, filter_In. split; [|exact Hp].
    by apply list_elem_of_In, elem_of_listdir.
Qed.

Lemma filter_none {A : Type} (p : A -> bool) (l : list A) :
  (forall x, In x l -> p x = false) -> List.filter p l = [].
Proof.
  induction l as [|x l IH]; intros H; [reflexivity|]. simpl.
  rewrite (H x) by (left; reflexivity). apply IH. intros y Hy. apply H. by right.
Qed.

(** No file with the prefix: nothing is loaded and nothing is raised. *)
Lemma latest_of_none (entries : gmap string file) (prefix : string) :
  (forall name, is_Some (entries !! name) -> String.prefix prefix name = false) ->
  latest_of (Some entries) prefix = Ok None.
Proof.
  intros H. unfold latest_of, listdir. cbn [mbind result_bind].
  unfold with_prefix. rewrite filter_none; [reflexivity|].
  intros name Hname. by apply H, elem_of_listdir, list_elem_of_In.
Qed.

(** *** Loading for the report generator *)

Lemma load_fixed_spec (d : reports_dir) (name key : string)
    (results : gmap string json) :
  load_fixed d name key results =
  if exists_ d name
  then match load_json d name with
       | Ok content => (<[key := content]> results, Ok tt)
       | Raise e => (results, Raise e)
       end
  else (results, Ok tt).
Proof.
  unfold load_fixed. destruct (exists_ d name); [|reflexivity].
  rewrite L_bind_unfold. unfold lift. destruct (load_json d name); reflexivity.
Qed.

(** The report generator reads its four suite files under fixed names: a
    directory in which none of the four names exists gives at most the
    summary, whatever else it holds. *)
Lemma generator_ignores_other_names (entries : gmap string file) :
  entries !! "crud_test_results.json" = None ->
  entries !! "performance_test_results.json" = None ->
  entries !! "security_test_results.json" = None ->
  entries !! "data_validation_results.json" = None ->
  forall results, load_latest_results (Some entries) = Ok results ->
  forall key, key <> "summary" -> results !! key = None.
Proof.
  intros H1 H2 H3 H4 results. unfold load_latest_results, load_body.
  do 4 (rewrite L_bind_unfold, load_fixed_spec; unfold exists_;
        rewrite ?H1, ?H2, ?H3, ?H4;
        rewrite bool_decide_eq_false_2 by (intros [? ?]; discriminate)).
  rewrite load_latest_spec.
  destruct (latest_of (Some entries) "test_summary_") as [[j|]|e];
    intros H key Hkey; inversion H; subst.
  - rewrite lookup_insert_ne by congruence. apply lookup_empty.
  - apply lookup_empty.
Qed.

(** C4 (the code at the failing input). In a directory that holds two
    performance reports under the names the performance suite gives them,
    the report generator loads nothing: it looks for
    [performance_test_results.json]. The dashboard, which lists the
    directory and sorts the names, loads the later of the two. *)
Theorem report_generator_misses_timestamped_reports :
  load_latest_results timestamped_dir = Ok ∅
  /\ Dashboard.load_latest_results timestamped_dir
     = Ok {[ "performance" := JObj [("results", JArr [JInt 2])] ]}.
Proof. split; vm_compute; reflexivity. Qed.

(** *** Rendering *)

(** Going through a sequence of steps each of which may raise. *)
Ltac ok_steps :=
  unfold mbind, result_bind;
  repeat match goal with
  | |- context [match ?r with Ok _ => _ | Raise _ => _ end] =>
      destruct r; [|discriminate]
  end.

Lemma render_crud_kinds (crud : jv) (s : list section) :
  render_crud crud = Ok s ->
  List.map kind s = if truthy crud then [CrudSection] else [].
Proof.
  unfold render_crud. destruct (truthy crud); [|by intros [= <-]].
  ok_steps. by intros [= <-].
Qed.

Lemma render_performance_kinds (performance : jv) (charts : gmap string string)
    (s : list section) :
  render_performance performance charts = Ok s ->
  List.map kind s = if truthy performance then [PerformanceSection] else [].
Proof.
  unfold render_performance. destruct (truthy performance); [|by intros [= <-]].
  ok_steps. by intros [= <-].
Qed.

Lemma render_security_kinds (security : jv) (s : list section) :
  render_security security = Ok s ->
  List.map kind s = if truthy security then [SecuritySection] else [].
Proof.
  unfold render_security. destruct (truthy security); [|by intros [= <-]].
  ok_steps. by intros [= <-].
Qed.

Lemma render_validation_kinds (validation : jv) (s : list section) :
  render_validation validation = Ok s ->
  List.map kind s = if truthy validation then [ValidationSection] else [].
Proof.
  unfold render_validation. destruct (truthy validation); [|by intros [= <-]].
  ok_steps. by intros [= <-].
Qed.

Lemma render_recommendations_kinds (summary : jv) (s : list section) :
  render_recommendations summary = Ok s ->
  List.map kind s =
  if truthy summary && truthy (attr summary "recommendations")
  then [RecommendationsSection] else [].
Proof.
  unfold render_recommendations.
  destruct (truthy summary && truthy (attr summary "recommendations"));
    [|by intros [= <-]].
  ok_steps. by intros [= <-].
Qed.

(** A rendered document has the section of a category exactly when the
    value handed to the template for it is truthy; a category whose file is
    absent is handed Python's [None]. *)
Lemma rendered_sections (timestamp : string)
    (summary crud performance security validation : jv)
    (charts : gmap string string) (doc : html) :
  render timestamp summary crud performance security validation charts = Ok doc ->
  section_kinds doc =
    ((if truthy crud then [CrudSection] else [])
     ++ (if truthy performance then [PerformanceSection] else [])
     ++ (if truthy security then [SecuritySection] else [])
     ++ (if truthy validation then [ValidationSection] else [])
     ++ (if truthy summary && truthy (attr summary "recommendations")
         then [RecommendationsSection] else []))%list.
Proof.
  unfold render. unfold mbind, result_bind.
  destruct (render_cards summary); [|discriminate].
  destruct (render_crud crud) eqn:E1; [|discriminate].
  destruct (render_performance performance charts) eqn:E2; [|discriminate].
  destruct (render_security security) eqn:E3; [|discriminate].
  destruct (render_validation validation) eqn:E4; [|discriminate].
  destruct (render_recommendations summary) eqn:E5; [|discriminate].
  intros [= <-]. unfold section_kinds. cbn [sections].
  rewrite !map_app.
  by rewrite (render_crud_kinds _ _ E1), (render_performance_kinds _ _ _ E2),
    (render_security_kinds _ _ E3), (render_validation_kinds _ _ E4),
    (render_recommendations_kinds _ _ E5).
Qed.

(** With no result file at all the page is rendered: no section, and the
    four cards show their defaults. *)
Lemma html_report_without_files (bar_chart : list json -> result string)
    (d : reports_dir) (shown now : string) :
  load_latest_results d = Ok ∅ ->
  generate_html_report bar_chart d shown now
  = Ok ("mongodb_test_report_" +:+ now +:+ ".html",
        {| generated := shown;
           cards := [Text "error"; Text "N/A"; Text "0"; Text "0";
                     Text "success"; Text "0"];
           sections := [] |}).
Proof. intros H. unfold generate_html_report. rewrite H. reflexivity. Qed.

(** A category without a file has no section in the page. *)
Lemma html_omits_absent_categories (bar_chart : list json -> result string)
    (d : reports_dir) (shown now path : string) (doc : html)
    (results : gmap string json) :
  load_latest_results d = Ok results ->
  generate_html_report bar_chart d shown now = Ok (path, doc) ->
  (results !! "crud" = None -> CrudSection ∉ section_kinds doc)
  /\ (results !! "performance" = None -> PerformanceSection ∉ section_kinds doc)
  /\ (results !! "security" = None -> SecuritySection ∉ section_kinds doc)
  /\ (results !! "validation" = None -> ValidationSection ∉ section_kinds doc)
  /\ (results !! "summary" = None -> RecommendationsSection ∉ section_kinds doc).
Proof.
  intros Hload. unfold generate_html_report. rewrite Hload.
  unfold mbind at 1 2 3 4, result_bind.
  destruct (match results !! "performance" with
            | Some p => create_performance_charts bar_chart p
            | None => Ok ∅
            end) as [charts|]; [|discriminate].
  destruct (get _ _ _) as [summary|] eqn:Hsummary; [|discriminate].
  destruct (render _ _ _ _ _ _ _) as [doc'|] eqn:Hrender; [|discriminate].
  intros [= <- <-]. rewrite (rendered_sections _ _ _ _ _ _ _ _ Hrender).
  unfold get_or_none.
  repeat split; intros Habsent; rewrite Habsent in *;
    try (cbn in Hsummary; injection Hsummary as <-);
    cbn [default];
    try change (truthy (Some JNull)) with false;
    try change (truthy (Some (JObj []))) with false;
    cbn [andb];
    rewrite ?elem_of_app; intros H;
    repeat match type of H with
    | _ \/ _ => destruct H as [H|H]
    | _ ∈ (if ?b then _ else _) => destruct b
    | _ ∈ [] => by apply elem_of_nil in H
    | _ ∈ [_] => apply list_elem_of_singleton in H; discriminate H
    end.
Qed.

(** With no result file at all no sheet is written, and saving fails. *)
Lemma excel_report_without_files (frame : Type) (DataFrame : json -> result frame)
    (d : reports_dir) (now : string) :
  load_latest_results d = Ok ∅ ->
  generate_excel_report frame DataFrame d now
  = Raise (IndexError "At least one sheet must be visible").
Proof. intros H. unfold generate_excel_report. rewrite H. reflexivity. Qed.

(** C7 (the code at the failing input). In a reports directory without any
    result file, as [__init__] leaves it when it has just created it, the
    spreadsheet report raises: every sheet is guarded by the presence of its
    category, no sheet is written, and the workbook cannot be saved. The
    same happens when only files under other names are there. The HTML
    report of the same directory is rendered. *)
Theorem excel_report_raises_without_result_files
    (bar_chart : list json -> result string)
    (frame : Type) (DataFrame : json -> result frame) (shown now : string) :
  generate_excel_report frame DataFrame (ensure_reports_dir None) now
  = Raise (IndexError "At least one sheet must be visible")
  /\ generate_excel_report frame DataFrame empty_dir now
     = Raise (IndexError "At least one sheet must be visible")
  /\ generate_excel_report frame DataFrame timestamped_dir now
     = Raise (IndexError "At least one sheet must be visible")
  /\ is_ok (generate_html_report bar_chart empty_dir shown now) = true.
Proof.
  split; [|split; [|split]];
    try (apply excel_report_without_files; vm_compute; reflexivity).
  by rewrite html_report_without_files.
Qed.

End GeneratorProps.

Module Binary64Props.
Import Binary64.

Lemma pos_iter_nat {A} (f : A -> A) (x : A) (p : positive) :
  Pos.iter f x p = Nat.iter (Pos.to_nat p) f x.
Proof.
  induction p as [|p IH] using Pos.peano_ind.
  - reflexivity.
  - rewrite Pos.iter_succ, Pos2Nat.inj_succ, IH. reflexivity.
Qed.

Lemma iter_pos_nat {A} (f : A -> A) (p : positive) (x : A) :
  SpecFloat.iter_pos f p x = Nat.iter (Pos.to_nat p) f x.
Proof.
  revert x. induction p as [p IH|p IH|]; intros x; cbn [SpecFloat.iter_pos].
  - rewrite !IH, Pos2Nat.inj_xI, <- Nat.iter_add, <- Nat.iter_succ_r. f_equal. lia.
  - rewrite !IH, Pos2Nat.inj_xO, <- Nat.iter_add. f_equal. lia.
  - reflexivity.
Qed.

Lemma shift_left_twice (m : positive) (j k : nat) : shift_left (shift_left m j) k = shift_left m (k + j).
Proof. unfold shift_left. symmetry. apply Nat.iter_add. Qed.

Lemma bit_length_shift_left (m : positive) (k : nat) : bit_length (shift_left m k) = (bit_length m + k)%nat.
Proof.
  induction k as [|k IH]; [unfold shift_left, bit_length; cbn; lia|].
  unfold bit_length in *. change (shift_left m (S k)) with (xO (shift_left m k)). cbn [digits2_pos].
  rewrite Pos2Nat.inj_succ, IH. lia.
Qed.

Lemma bit_length_pos (m : positive) : (1 <= bit_length m)%nat.
Proof. unfold bit_length. lia. Qed.

Lemma digits_bit_length (m : positive) : Zpos (digits2_pos m) = Z.of_nat (bit_length m).
Proof. unfold bit_length. lia. Qed.

Lemma shr_exact (m : positive) (k : nat) :
  Nat.iter k shr_1 {| shr_m := Zpos (shift_left m k); shr_r := false; shr_s := false |}
  = {| shr_m := Zpos m; shr_r := false; shr_s := false |}.
Proof.
  induction k as [|k IH]; [reflexivity|].
  rewrite Nat.iter_succ_r. change (shift_left m (S k)) with (xO (shift_left m k)).
  cbn [shr_1 orb]. exact IH.
Qed.

Lemma shr_fexp_canonical (m : positive) (e : Z) :
  bit_length m = 53%nat -> -1074 <= e ->
  shr_fexp prec emax (Zpos m) e loc_Exact
  = ({| shr_m := Zpos m; shr_r := false; shr_s := false |}, e).
Proof.
  intros Hd He. unfold shr_fexp, fexp, Zdigits2, SpecFloat.emin, prec, emax.
  rewrite digits_bit_length, Hd.
  replace (Z.max (Z.of_nat 53 + e - 53) (3 - 1024 - 53) - e) with 0 by lia.
  reflexivity.
Qed.

Lemma binary_round_aux_canonical (s : bool) (m : positive) (e : Z) :
  bit_length m = 53%nat -> -1074 <= e <= 971 ->
  binary_round_aux prec emax s (Zpos m) e loc_Exact = S754_finite s m e.
Proof.
  intros Hd He. unfold binary_round_aux.
  rewrite shr_fexp_canonical by lia.
  cbn [shr_m loc_of_shr_record round_nearest_even].
  rewrite shr_fexp_canonical by lia.
  cbn [shr_m]. unfold emax, prec.
  destruct (Z.leb_spec e (1024 - 53)); [reflexivity | lia].
Qed.

Lemma binary_round_shifted (s : bool) (N : positive) (k : nat) :
  (bit_length N <= 53)%nat ->
  binary_round prec emax s (shift_left N k) (- Z.of_nat k) = canonical s N.
Proof.
  intros Hd. pose proof (bit_length_pos N) as Hpos. unfold binary_round, canonical.
  rewrite digits_bit_length, bit_length_shift_left.
  assert (fexp prec emax (Z.of_nat (bit_length N + k) + - Z.of_nat k) = Z.of_nat (bit_length N) - 53) as ->.
  { unfold fexp, SpecFloat.emin, prec, emax. lia. }
  unfold shl_align.
  destruct (Z.of_nat (bit_length N) - 53 - - Z.of_nat k) as [|p|d] eqn:E.
  - replace (- Z.of_nat k) with (Z.of_nat (bit_length N) - 53) by lia.
    replace k with (53 - bit_length N)%nat by lia.
    apply binary_round_aux_canonical; [rewrite bit_length_shift_left; lia | lia].
  - assert (shr_fexp prec emax (Zpos (shift_left N k)) (- Z.of_nat k) loc_Exact
            = ({| shr_m := Zpos (shift_left N (53 - bit_length N)); shr_r := false; shr_s := false |},
               Z.of_nat (bit_length N) - 53)) as Hshift.
    { unfold shr_fexp. cbn [Zdigits2]. rewrite digits_bit_length, bit_length_shift_left.
      assert (fexp prec emax (Z.of_nat (bit_length N + k) + - Z.of_nat k) - - Z.of_nat k
              = Zpos p) as ->.
      { unfold fexp, SpecFloat.emin, prec, emax. lia. }
      cbn [shr shr_record_of_loc]. rewrite iter_pos_nat.
      replace k with (Pos.to_nat p + (53 - bit_length N))%nat at 1 by lia.
      rewrite <- shift_left_twice, shr_exact. f_equal. lia. }
    unfold binary_round_aux. rewrite Hshift.
    cbn [shr_m loc_of_shr_record round_nearest_even].
    rewrite shr_fexp_canonical by (rewrite ?bit_length_shift_left; lia).
    cbn [shr_m]. unfold emax, prec.
    destruct (Z.leb_spec (Z.of_nat (bit_length N) - 53) (1024 - 53)); [reflexivity | lia].
  - rewrite pos_iter_nat. fold (shift_left (shift_left N k) (Pos.to_nat d)). rewrite shift_left_twice.
    replace (Pos.to_nat d + k)%nat with (53 - bit_length N)%nat by lia.
    apply binary_round_aux_canonical; [rewrite bit_length_shift_left; lia | lia].
Qed.

Lemma Zpos_shift_left (m : positive) (k : nat) : Zpos (shift_left m k) = Zpos m * 2 ^ Z.of_nat k.
Proof.
  induction k as [|k IH]; [cbn; lia|].
  change (shift_left m (S k)) with (xO (shift_left m k)).
  rewrite Nat2Z.inj_succ, Z.pow_succ_r by lia. rewrite Pos2Z.inj_xO, IH. lia.
Qed.

Lemma bit_length_bounds (p : positive) :
  Zpos p < 2 ^ Z.of_nat (bit_length p) /\ 2 ^ Z.of_nat (bit_length p) <= 2 * Zpos p.
Proof.
  unfold bit_length. induction p as [p IH|p IH|]; cbn [digits2_pos].
  - rewrite Pos2Nat.inj_succ, Nat2Z.inj_succ, Z.pow_succ_r by lia. lia.
  - rewrite Pos2Nat.inj_succ, Nat2Z.inj_succ, Z.pow_succ_r by lia. lia.
  - cbn. lia.
Qed.

Lemma bit_length_le_53 (p : positive) : Zpos p < 2 ^ 53 -> (bit_length p <= 53)%nat.
Proof.
  intros H. destruct (bit_length_bounds p) as [_ Hlow].
  destruct (Nat.le_gt_cases (bit_length p) 53) as [|Hgt]; [assumption|exfalso].
  assert (2 ^ 54 <= 2 ^ Z.of_nat (bit_length p)) by (apply Z.pow_le_mono_r; lia).
  change (2 ^ 54) with (2 * 2 ^ 53) in *. lia.
Qed.

Lemma shl_align_fst (m : positive) (e ez : Z) :
  ez <= e -> fst (shl_align m e ez) = shift_left m (Z.to_nat (e - ez)).
Proof.
  intros H. unfold shl_align. destruct (ez - e) as [|p|d] eqn:E.
  - replace (e - ez) with 0 by lia. reflexivity.
  - lia.
  - cbn [fst]. rewrite pos_iter_nat. unfold shift_left. f_equal. lia.
Qed.

Lemma aligned (s : bool) (A : positive) (ez : Z) :
  (bit_length A <= 53)%nat -> ez <= Z.of_nat (bit_length A) - 53 ->
  cond_Zopp s (Zpos (fst (shl_align (shift_left A (53 - bit_length A)) (Z.of_nat (bit_length A) - 53) ez)))
  = cond_Zopp s (Zpos A) * 2 ^ (- ez).
Proof.
  intros Hd He. rewrite shl_align_fst by lia. rewrite shift_left_twice, Zpos_shift_left.
  replace (Z.of_nat (Z.to_nat (Z.of_nat (bit_length A) - 53 - ez) + (53 - bit_length A))) with (- ez) by lia.
  destruct s; cbn [cond_Zopp]; lia.
Qed.

Lemma binary_normalize_shifted (n : Z) (k : nat) :
  Z.abs n < 2 ^ 53 ->
  binary_normalize prec emax (n * 2 ^ Z.of_nat k) (- Z.of_nat k) false = spec_of_integer n.
Proof.
  intros Hn. destruct n as [|p|p]; [reflexivity| |].
  - change (Zpos p * 2 ^ Z.of_nat k) with (Zpos p * 2 ^ Z.of_nat k).
    rewrite <- Zpos_shift_left. cbn [binary_normalize spec_of_integer].
    apply binary_round_shifted, bit_length_le_53. lia.
  - replace (Zneg p * 2 ^ Z.of_nat k) with (Zneg (shift_left p k))
      by (rewrite <- Pos2Z.opp_pos, Zpos_shift_left; lia).
    cbn [binary_normalize spec_of_integer]. apply binary_round_shifted, bit_length_le_53. lia.
Qed.

Lemma SFadd_integers (a b : Z) :
  Z.abs a < 2 ^ 53 -> Z.abs b < 2 ^ 53 -> Z.abs (a + b) < 2 ^ 53 ->
  SFadd prec emax (spec_of_integer a) (spec_of_integer b) = spec_of_integer (a + b).
Proof.
  intros Ha Hb Hab.
  destruct a as [|A|A]; [destruct b; reflexivity| |];
    (destruct b as [|B|B]; [rewrite Z.add_0_r; reflexivity| |]).
  all: cbn [spec_of_integer]; unfold canonical; cbn [SFadd].
  all: pose proof (bit_length_le_53 A ltac:(lia)); pose proof (bit_length_le_53 B ltac:(lia)).
  all: pose proof (bit_length_pos A); pose proof (bit_length_pos B).
  all: set (ez := Z.min (Z.of_nat (bit_length A) - 53) (Z.of_nat (bit_length B) - 53)).
  all: rewrite !aligned by lia.
  all: cbn [cond_Zopp].
  all: rewrite <- Z.mul_add_distr_r.
  all: replace ez with (- Z.of_nat (Z.to_nat (- ez))) at 2 by lia.
  all: replace (- ez) with (Z.of_nat (Z.to_nat (- ez))) at 1 by lia.
  all: rewrite binary_normalize_shifted; [reflexivity | lia].
Qed.

Lemma of_uint63_integer (n : Z) :
  0 <= n < 2 ^ 53 -> Prim2SF (of_uint63 (Uint63.of_Z n)) = spec_of_integer n.
Proof.
  intros Hn. rewrite of_uint63_spec, Uint63.of_Z_spec.
  rewrite Z.mod_small.
  - rewrite <- (binary_normalize_shifted n 0) by lia.
    cbn [Z.of_nat Z.opp]. by rewrite Z.pow_0_r, Z.mul_1_r.
  - change wB with (2 ^ 63). split; [lia|].
    apply Z.lt_trans with (2 ^ 53); [lia | reflexivity].
Qed.

Lemma float_of_int_spec (n : Z) :
  Z.abs n < 2 ^ 53 -> Prim2SF (Performance.float_of_int n) = spec_of_integer n.
Proof.
  intros Hn. unfold Performance.float_of_int. destruct (Z.ltb_spec n 0).
  - rewrite FloatAxioms.opp_spec, of_uint63_integer by lia.
    destruct n; try lia. reflexivity.
  - apply of_uint63_integer. lia.
Qed.

Lemma add_exact (a b : Z) :
  Z.abs a < 2 ^ 53 -> Z.abs b < 2 ^ 53 -> Z.abs (a + b) < 2 ^ 53 ->
  (Performance.float_of_int a + Performance.float_of_int b)%float = Performance.float_of_int (a + b).
Proof.
  intros Ha Hb Hab. apply Prim2SF_inj.
  rewrite FloatAxioms.add_spec, !float_of_int_spec by assumption.
  by apply SFadd_integers.
Qed.

Lemma integer_value_spec (n : Z) (x : float) :
  Z.abs n < 2 ^ 53 -> Prim2SF x = spec_of_integer n -> integer_value x = Some n.
Proof.
  intros Hn Hx. unfold integer_value. rewrite Hx.
  destruct n as [|p|p]; [reflexivity| |]; cbn [spec_of_integer]; unfold canonical.
  all: pose proof (bit_length_le_53 p ltac:(lia)) as Hd; pose proof (bit_length_pos p).
  all: rewrite Zpos_shift_left.
  all: destruct (Z.leb_spec 0 (Z.of_nat (bit_length p) - 53)) as [He|He].
  all: try (replace (53 - bit_length p)%nat with 0%nat by lia;
            replace (Z.of_nat (bit_length p) - 53) with 0 by lia;
            cbn [Z.of_nat cond_Zopp]; rewrite !Z.pow_0_r, !Z.mul_1_r; reflexivity).
  all: replace (- (Z.of_nat (bit_length p) - 53)) with (Z.of_nat (53 - bit_length p)) by lia.
  all: rewrite Z.mod_mul by (apply Z.pow_nonzero; lia).
  all: cbn [Z.eqb]; rewrite Z.div_mul by (apply Z.pow_nonzero; lia).
  all: reflexivity.
Qed.

Lemma integer_value_float_of_int (n : Z) :
  Z.abs n < 2 ^ 53 -> integer_value (Performance.float_of_int n) = Some n.
Proof. intros Hn. by apply integer_value_spec, float_of_int_spec. Qed.

End Binary64Props.

Module IntegrityProps.
Import Integrity.

Lemma encode_update_ok (u : update) :
  int64 (inc_balance u) && int64 (amount (push_transaction u)) = true ->
  encode_update u = Ok u.
Proof.
  destruct u as [d [t a]]. cbn [inc_balance push_transaction amount].
  intros [Hd Ha]%andb_true_iff.
  unfold encode_update, encode_transaction, encode_int.
  cbn [inc_balance push_transaction amount type]. by rewrite Hd, Ha.
Qed.

Lemma update_one_single (u : update) (doc : document) :
  int64 (inc_balance u) && int64 (amount (push_transaction u)) = true ->
  update_one 0 u [doc] = (doc' ← apply_update u doc; Ok [doc']).
Proof. intros H. unfold update_one. by rewrite (encode_update_ok u H). Qed.

Lemma double_of_small (d : Z) :
  Z.abs d < 2 ^ 53 -> double_of_int64 d = Performance.float_of_int d.
Proof.
  intros H. unfold double_of_int64.
  destruct (Z.eqb_spec d (- 2 ^ 63)) as [->|_]; [|reflexivity].
  exfalso. revert H. change (Z.abs (- 2 ^ 63)) with (2 ^ 10 * 2 ^ 53). lia.
Qed.

(** The updates on a balance held as a double, within the exact range. *)
Lemma double_updates (V : Z) (us : list update) (doc : document) :
  encodable us = true ->
  exact_in_double V (List.map inc_balance us) = true ->
  balance doc = BDouble (Performance.float_of_int V) ->
  exists doc',
    update_all 0 us [doc] = Ok [doc']
    /\ balance doc' = BDouble (Performance.float_of_int (V + total_delta us))
    /\ transactions doc' = (transactions doc ++ List.map push_transaction us)%list
    /\ Z.abs (V + total_delta us) < 2 ^ 53.
Proof.
  revert V doc. induction us as [|u us IH]; intros V doc Henc Hexact Hbal.
  - exists doc. cbn [update_all total_delta foldr List.map].
    rewrite Z.add_0_r, app_nil_r. repeat split; [exact Hbal|].
    cbn [exact_in_double List.map] in Hexact.
    apply andb_true_iff in Hexact as [Hv _]. by apply Z.ltb_lt in Hv.
  - cbn [encodable forallb] in Henc. apply andb_true_iff in Henc as [Hu Henc].
    cbn [List.map exact_in_double] in Hexact.
    apply andb_true_iff in Hexact as [Hv Hrest].
    apply andb_true_iff in Hrest as [Hd Hrest].
    apply Z.ltb_lt in Hv, Hd.
    assert (Z.abs (V + inc_balance u) < 2 ^ 53) as Hsum.
    { destruct (List.map inc_balance us); cbn [exact_in_double] in Hrest;
        apply andb_true_iff in Hrest as [H _]; by apply Z.ltb_lt in H. }
    cbn [update_all]. rewrite update_one_single by exact Hu.
    unfold apply_update. rewrite Hbal. cbn [inc].
    rewrite double_of_small, Binary64Props.add_exact by assumption.
    unfold mbind at 1 2, result_bind.
    destruct (IH (V + inc_balance u)
                {| user_id := user_id doc; name := name doc;
                   balance := BDouble (Performance.float_of_int (V + inc_balance u));
                   transactions := (transactions doc ++ [push_transaction u])%list |}
                Henc Hrest eq_refl) as (doc' & Hrun & Hb & Ht & Hbound).
    exists doc'. split; [exact Hrun|].
    cbn [total_delta foldr List.map]. fold (total_delta us).
    rewrite Z.add_assoc. split; [exact Hb|]. split; [|exact Hbound].
    rewrite Ht. cbn [transactions]. by rewrite <- app_assoc.
Qed.

(** The updates on a balance held as an integer, within 64 bits. *)
Lemma integer_updates (V : Z) (us : list update) (doc : document) :
  encodable us = true ->
  within_int64 V (List.map inc_balance us) = true ->
  balance doc = BInt V ->
  exists doc',
    update_all 0 us [doc] = Ok [doc']
    /\ balance doc' = BInt (V + total_delta us)
    /\ transactions doc' = (transactions doc ++ List.map push_transaction us)%list.
Proof.
  revert V doc. induction us as [|u us IH]; intros V doc Henc Hin Hbal.
  - exists doc. cbn [update_all total_delta foldr List.map].
    by rewrite Z.add_0_r, app_nil_r.
  - cbn [encodable forallb] in Henc. apply andb_true_iff in Henc as [Hu Henc].
    cbn [List.map within_int64] in Hin.
    apply andb_true_iff in Hin as [_ Hrest].
    assert (int64 (V + inc_balance u) = true) as Hsum.
    { destruct (List.map inc_balance us); cbn [within_int64] in Hrest;
        by apply andb_true_iff in Hrest as [H _]. }
    cbn [update_all]. rewrite update_one_single by exact Hu.
    unfold apply_update. rewrite Hbal. cbn [inc]. rewrite Hsum.
    unfold mbind at 1 2, result_bind.
    destruct (IH (V + inc_balance u)
                {| user_id := user_id doc; name := name doc;
                   balance := BInt (V + inc_balance u);
                   transactions := (transactions doc ++ [push_transaction u])%list |}
                Henc Hrest eq_refl) as (doc' & Hrun & Hb & Ht).
    exists doc'. split; [exact Hrun|].
    cbn [total_delta foldr List.map]. fold (total_delta us).
    rewrite Z.add_assoc. split; [exact Hb|].
    rewrite Ht. cbn [transactions]. by rewrite <- app_assoc.
Qed.

(** C6. Whatever the collection held before, the sequence of the check
    ends with the balance [V] plus the sum of the deltas and with one
    history entry per update, in order: for a balance held as a double
    (as the code's 1000.00 is) when the balance, the deltas and every
    partial sum are integers below 2^53 in absolute value, and for a
    balance held as an integer when every partial sum fits in 64 bits.
    With the values of the code (1000.0, then -100, +50, -75) the stored
    balance is 875.0, the history has 3 entries, and the check records
    PASS. *)
Theorem balance_sequence_consistent (V : Z) (us : list update) (c : collection) :
  encodable us = true ->
  (exact_in_double V (List.map inc_balance us) = true ->
   exists final_doc x,
     balance_sequence (BDouble (Performance.float_of_int V)) us c = Ok (Some final_doc)
     /\ balance final_doc = BDouble x
     /\ Binary64.integer_value x = Some (V + total_delta us)
     /\ balance_eq (balance final_doc) (V + total_delta us) = true
     /\ transactions final_doc = List.map push_transaction us
     /\ length (transactions final_doc) = length us)
  /\ (within_int64 V (List.map inc_balance us) = true ->
      exists final_doc,
        balance_sequence (BInt V) us c = Ok (Some final_doc)
        /\ balance final_doc = BInt (V + total_delta us)
        /\ balance_eq (balance final_doc) (V + total_delta us) = true
        /\ transactions final_doc = List.map push_transaction us
        /\ length (transactions final_doc) = length us)
  /\ (exists final_doc,
        balance_sequence (BDouble 1000) updates c = Ok (Some final_doc)
        /\ balance final_doc = BDouble 875
        /\ length (transactions final_doc) = 3%nat)
  /\ expected_balance = 875
  /\ data_consistency_status c = ("Data Consistency After Updates", "PASS").
Proof.
  intros Henc. split; [|split; [|split; [|split]]].
  - intros Hexact.
    destruct (double_updates V us
                {| user_id := "user_001"; name := "Alice Johnson";
                   balance := BDouble (Performance.float_of_int V);
                   transactions := [] |} Henc Hexact eq_refl)
      as (doc' & Hrun & Hb & Ht & Hbound).
    exists doc', (Performance.float_of_int (V + total_delta us)).
    unfold balance_sequence, delete_all, insert_one, encode_document, encode_num.
    cbn [balance transactions Generator.for_each app length fst snd
         user_id name].
    unfold mbind, result_bind. cbn [fst snd]. rewrite Hrun.
    split; [reflexivity|]. split; [exact Hb|].
    pose proof (Binary64Props.integer_value_float_of_int _ Hbound) as Hvalue.
    split; [exact Hvalue|]. rewrite Hb, Ht. cbn [balance_eq app].
    rewrite Hvalue, Z.eqb_refl. split; [reflexivity|]. split; [reflexivity|].
    apply length_map.
  - intros Hin.
    assert (int64 V = true) as HV.
    { destruct (List.map inc_balance us); cbn [within_int64] in Hin;
        by apply andb_true_iff in Hin as [H _]. }
    destruct (integer_updates V us
                {| user_id := "user_001"; name := "Alice Johnson";
                   balance := BInt V; transactions := [] |} Henc Hin eq_refl)
      as (doc' & Hrun & Hb & Ht).
    exists doc'.
    unfold balance_sequence, delete_all, insert_one, encode_document, encode_num,
      encode_int.
    cbn [balance transactions Generator.for_each app length fst snd
         user_id name].
    rewrite HV. unfold mbind, result_bind. cbn [fst snd]. rewrite Hrun.
    split; [reflexivity|]. split; [exact Hb|]. rewrite Hb, Ht.
    cbn [balance_eq app]. rewrite Z.eqb_refl.
    split; [reflexivity|]. split; [reflexivity|]. apply length_map.
  - eexists. split; [reflexivity|]. split; reflexivity.
  - reflexivity.
  - reflexivity.
Qed.

Lemma balance_sequence_consistent_witness :
  exists final_doc x,
    balance_sequence (BDouble (Performance.float_of_int 1000)) updates [] = Ok (Some final_doc)
    /\ balance final_doc = BDouble x
    /\ Binary64.integer_value x = Some 875.
Proof.
  destruct (proj1 (balance_sequence_consistent 1000 updates [] eq_refl) eq_refl)
    as (final_doc & x & Hrun & Hb & Hvalue & _).
  exists final_doc, x. split; [exact Hrun|]. split; [exact Hb | exact Hvalue].
Defined.

(** C6, as stated for every balance and every delta, fails beyond those
    ranges: a balance of 2^53 held as a double is still 2^53 after two
    deposits of 1, and a balance of 2^63 - 1 held as an integer cannot take
    a deposit of 1. *)
Lemma balance_beyond_exact_range :
  (exists final_doc,
     balance_sequence (BDouble 9007199254740992) two_deposits [] = Ok (Some final_doc)
     /\ balance final_doc = BDouble 9007199254740992
     /\ total_delta two_deposits = 2
     /\ balance_eq (balance final_doc) (9007199254740992 + total_delta two_deposits)
        = false)
  /\ is_ok (balance_sequence (BInt 9223372036854775807) two_deposits []) = false.
Proof.
  split; [|reflexivity].
  eexists. split; [reflexivity|]. split; [reflexivity|]. split; reflexivity.
Qed.

End IntegrityProps.

Module SuitesProps.
Import Reports Suites.


(** The security suite always runs to its end. *)
Lemma security_suite_completes (w : suite_world) :
  is_ok (run_executor SecuritySuite w) = true.
Proof. reflexivity. Qed.





(** A run of the performance suite in which the concurrent test measures a
    zero elapsed time ends in the division and writes no report. *)
Lemma performance_suite_can_end_early :
  run_executor PerformanceSuite
    {| time := time calm_world; crud_passes := crud_passes calm_world;
       performance :=
         {| cleanup_outcome := Ok tt;
            single_insert_time := Ok 0.5%float;
            bulk_insert_time := Ok 0.25%float;
            query_elapsed := Ok [];
            concurrent_total_time := Ok 0%float;
            aggregation_results := Ok [] |};
       security := security calm_world; validation := validation calm_world |}
  = Raise ZeroDivisionError.
Proof. reflexivity. Qed.

End SuitesProps.

Module RunnerExtras.
Import Runner RunnerWorlds RunnerProps.

Lemma no_failure_iff_all (l : list bool) :
  length (List.filter (fun r => negb r) l) = 0%nat <-> forallb (fun r => r) l = true.
Proof.
  induction l as [|[] l IH]; cbn; [done|exact IH|]. split; discriminate.
Qed.

(** X1. In every summary the passed and the failed suites add up to the
    total, the overall status is PASS exactly when no suite failed, and a
    summary of no suite at all says PASS with a total of 0. *)
Theorem summary_counts_add_up (w : world) (results : gmap string bool) :
  let s := test_execution_summary (build_report w results) in
  (passed_suites s + failed_suites s = total_suites s)%nat
  /\ (overall_status s = "PASS" <-> failed_suites s = 0%nat)
  /\ overall_status (test_execution_summary (build_report w ∅)) = "PASS"
  /\ total_suites (test_execution_summary (build_report w ∅)) = 0%nat.
Proof.
  cbn [build_report test_execution_summary passed_suites failed_suites
       total_suites overall_status].
  split; [|split; [|split; reflexivity]].
  - rewrite (filter_length (fun r => r) (values results)). unfold values.
    by rewrite length_fmap, length_map_to_list.
  - rewrite pass_fail_PASS. symmetry. apply no_failure_iff_all.
Qed.

(** X2. When the setup is not skipped and the ping fails, the runner exits
    with 1 having created the three directories and spawned the ping only:
    no suite runs and no summary is written. *)
Theorem failed_setup_aborts_the_run (a : args) (w : world) :
  skip_setup a = false ->
  success (command_result w ping_command) = false ->
  (run a w).1 = 1
  /\ (run a w).2 = [MakeDirs "reports"; MakeDirs "data/test-db"; MakeDirs "logs";
                   Spawned ping_command (command_result w ping_command)]
  /\ spawned_suites (run a w).2 = []
  /\ summaries_written (run a w).2 = [].
Proof.
  intros Hskip Hping.
  rewrite run_exit_code, run_spawned, run_summaries, run_log.
  unfold setup_passes, setup_events. rewrite Hskip, Hping. cbn [orb andb].
  by rewrite app_nil_r.
Qed.

Lemma failed_setup_aborts_the_run_witness :
  (run all_with_setup unreachable_world).1 = 1
  /\ summaries_written (run all_with_setup unreachable_world).2 = [].
Proof.
  pose proof (failed_setup_aborts_the_run all_with_setup unreachable_world
                eq_refl eq_refl) as (H1 & _ & _ & H4).
  exact (conj H1 H4).
Defined.

(** X3. [--load-data] changes nothing the runner does or returns. *)
Theorem load_data_changes_nothing (a : args) (w : world) (b : bool) :
  run (with_load_data a b) w = run a w.
Proof.
  rewrite (surjective_pairing (run (with_load_data a b) w)),
    (surjective_pairing (run a w)).
  by rewrite !run_exit_status, !run_log.
Qed.

(** X4. A run of a single suite that passes, where the summary file can
    be written, exits with 0 and writes a summary whose overall status is
    PASS with one suite passed and none failed, while three of the four
    entries of [suite_results] say FAIL. *)
Theorem single_passing_suite_lists_three_failures (a : args) (w : world) :
  suite a <> all ->
  setup_passes a w = true ->
  summary_writable w = true ->
  forallb (fun c => success (command_result w c)) (selected_commands (suite a)) = true ->
  (run a w).1 = 0
  /\ exists f report,
       summaries_written (run a w).2 = [(f, report)]
       /\ overall_status (test_execution_summary report) = "PASS"
       /\ passed_suites (test_execution_summary report) = 1%nat
       /\ failed_suites (test_execution_summary report) = 0%nat
       /\ length (failed_entries report) = 3%nat.
Proof.
  intros Hsingle Hsetup Hwrite Hpass.
  rewrite run_exit_code, run_summaries, Hsetup, Hwrite, Hpass. split; [reflexivity|].
  do 2 eexists. split; [reflexivity|].
  unfold results_of, selected_commands in *.
  destruct (suite a); [done| | | |];
    cbn [selected fmap list_fmap snd fst forallb foldl] in *;
    rewrite andb_true_r in Hpass; rewrite Hpass;
    repeat split; vm_compute; reflexivity.
Qed.

Lemma single_passing_suite_lists_three_failures_witness :
  (run performance_only passing_world).1 = 0.
Proof.
  refine (proj1 (single_passing_suite_lists_three_failures
                   performance_only passing_world _ _ _ _));
    [discriminate | reflexivity | reflexivity | reflexivity].
Defined.

End RunnerExtras.

Module LoaderExtras.
Import Reports Loaders ReportsProps GeneratorProps.

Ltac lookups :=
  repeat (rewrite lookup_insert_eq || (rewrite lookup_insert_ne by discriminate));
  rewrite ?lookup_empty; reflexivity.

(** *** [sorted] gives one answer for all orders of the listing *)

Lemma le_name_antisymm : AntiSymm (=) le_name.
Proof. intros x y Hxy Hyx. by apply String.leb_antisym. Qed.

Lemma insert_sorted_perm (x : string) (l : list string) :
  insert_sorted x l ≡ₚ x :: l.
Proof.
  induction l as [|y l IH]; simpl; [done|].
  destruct (String.leb x y); [done|]. rewrite IH. apply perm_swap.
Qed.

Lemma sorted_perm (l : list string) : sorted l ≡ₚ l.
Proof.
  induction l as [|x l IH]; simpl; [done|].
  by rewrite insert_sorted_perm, IH.
Qed.

Lemma with_prefix_perm (prefix : string) (l l' : list string) :
  l ≡ₚ l' -> with_prefix prefix l ≡ₚ with_prefix prefix l'.
Proof.
  unfold with_prefix. induction 1 as [|x l l' _ IH|x y l|l1 l2 l3 _ IH1 _ IH2]; simpl.
  - done.
  - destruct (String.prefix prefix x); [by constructor|done].
  - destruct (String.prefix prefix x), (String.prefix prefix y);
      try done. apply perm_swap.
  - by etrans.
Qed.

(** X5. The file both loaders take as the latest, [sorted(files)[-1]], does
    not depend on the order in which the directory is listed. *)
Theorem latest_independent_of_listing_order
    (prefix : string) (names names' : list string) :
  names ≡ₚ names' ->
  sorted (with_prefix prefix names) = sorted (with_prefix prefix names')
  /\ last (sorted (with_prefix prefix names))
     = last (sorted (with_prefix prefix names')).
Proof.
  intros H.
  assert (sorted (with_prefix prefix names) = sorted (with_prefix prefix names')) as E.
  { apply (@StronglySorted_unique _ le_name le_name_antisymm);
      try apply sorted_ascending.
    rewrite !sorted_perm. by apply with_prefix_perm. }
  by rewrite E.
Qed.

Lemma latest_independent_of_listing_order_witness :
  last (sorted (with_prefix "test_summary_" ["test_summary_2"; "x"; "test_summary_1"]))
  = last (sorted (with_prefix "test_summary_" ["test_summary_1"; "test_summary_2"; "x"])).
Proof.
  refine (proj2 (latest_independent_of_listing_order "test_summary_"
    ["test_summary_2"; "x"; "test_summary_1"]
    ["test_summary_1"; "test_summary_2"; "x"] _)).
  exact (Permutation_app_comm ["test_summary_2"; "x"] ["test_summary_1"]).
Defined.

(** *** What the dashboard serves *)

Ltac lookups_in H :=
  repeat (rewrite lookup_insert_eq in H
          || (rewrite lookup_insert_ne in H by discriminate));
  rewrite ?lookup_empty in H.

Lemma dashboard_lookup (d : reports_dir) (results : gmap string json)
    (prefix key : string) (content : json) :
  Dashboard.load_latest_results d = Ok results ->
  (prefix, key) ∈ Dashboard.categories ->
  results !! key = Some content ->
  latest_of d prefix = Ok (Some content).
Proof.
  unfold Dashboard.load_latest_results, Dashboard.load_body, Dashboard.categories.
  rewrite L_bind_unfold, load_latest_spec.
  destruct (latest_of d "test_summary_") as [[j1|]|e1] eqn:E1;
    try rewrite L_bind_unfold, load_latest_spec;
    destruct (latest_of d "performance_report_") as [[j2|]|e2] eqn:E2;
    try rewrite L_bind_unfold, load_latest_spec;
    destruct (latest_of d "security_report_") as [[j3|]|e3] eqn:E3;
    try rewrite load_latest_spec;
    destruct (latest_of d "validation_report_") as [[j4|]|e4] eqn:E4;
    intros [= <-] Hin Hlook;
    repeat (apply elem_of_cons in Hin as [[= -> ->]|Hin];
            [lookups_in Hlook; congruence|]);
    by apply elem_of_nil in Hin.
Qed.

(** X6. Whatever the dashboard serves for a category is the content of the
    file whose name is the greatest, in [sorted]'s order, among the names of
    the directory that start with the category's prefix. *)
Theorem dashboard_serves_greatest_named_file (entries : gmap string file)
    (results : gmap string json) (prefix key : string) (content : json) :
  Dashboard.load_latest_results (Some entries) = Ok results ->
  (prefix, key) ∈ Dashboard.categories ->
  results !! key = Some content ->
  exists name,
    String.prefix prefix name = true
    /\ entries !! name = Some (JsonFile content)
    /\ forall other, is_Some (entries !! other) ->
         String.prefix prefix other = true -> String.leb other name = true.
Proof.
  intros Hload Hin Hlook. apply latest_of_greatest.
  by eapply dashboard_lookup.
Qed.

Lemma dashboard_serves_greatest_named_file_witness :
  exists name,
    String.prefix "test_summary_" name = true
    /\ mixed_dir !! name = Some (JsonFile (JObj [("run", JInt 2)]))
    /\ forall other, is_Some (mixed_dir !! other) ->
         String.prefix "test_summary_" other = true -> String.leb other name = true.
Proof.
  apply (dashboard_serves_greatest_named_file mixed_dir
           (<["performance" := JInt 7]> (<["summary" := JObj [("run", JInt 2)]]> ∅))
           "test_summary_" "summary").
  - vm_compute. reflexivity.
  - apply list_elem_of_here.
  - reflexivity.
Defined.

(** *** What the report generator loads *)

(** One [load_fixed] step of the generator's body, by what the name holds. *)
Ltac fixed_step H entries name :=
  rewrite L_bind_unfold, load_fixed_spec in H; unfold exists_, load_json in H;
  destruct (entries !! name) as [[?| | |]|] eqn:?;
  [rewrite bool_decide_eq_true_2 in H by eauto ..
  |rewrite bool_decide_eq_false_2 in H by (intros [? ?]; discriminate)];
  cbv beta iota in H.

Lemma latest_none_no_file (entries : gmap string file) (prefix : string) :
  latest_of (Some entries) prefix = Ok None ->
  forall name, is_Some (entries !! name) -> String.prefix prefix name = false.
Proof.
  unfold latest_of, listdir. unfold mbind, result_bind.
  destruct (last (sorted (with_prefix prefix (map_to_list entries).*1)))
    as [latest|] eqn:E.
  - destruct (load_json (Some entries) latest); discriminate.
  - intros _ name Hname. apply no_latest_iff_no_file in E.
    destruct (String.prefix prefix name) eqn:Hp; [|reflexivity].
    assert (name ∈ with_prefix prefix (map_to_list entries).*1) as Hin.
    { unfold with_prefix. apply list_elem_of_In, filter_In. split; [|exact Hp].
      by apply list_elem_of_In, elem_of_listdir. }
    rewrite E in Hin. by apply elem_of_nil in Hin.
Qed.

(** X7. When the report generator's loading returns, each of its four
    suite keys holds exactly what the file of the fixed name holds, if
    there is one; the summary it holds is the content of the greatest-named
    [test_summary_] file; and it holds no summary only if the directory has
    no such file. *)
Theorem generator_loads_fixed_names_and_latest_summary
    (entries : gmap string file) (results : gmap string json) :
  Generator.load_latest_results (Some entries) = Ok results ->
  (forall name key, (name, key) ∈ fixed_files -> results !! key = parsed entries name)
  /\ (forall content, results !! "summary" = Some content ->
       exists name,
         String.prefix "test_summary_" name = true
         /\ entries !! name = Some (JsonFile content)
         /\ forall other, is_Some (entries !! other) ->
              String.prefix "test_summary_" other = true ->
              String.leb other name = true)
  /\ (results !! "summary" = None ->
       forall name, is_Some (entries !! name) ->
         String.prefix "test_summary_" name = false).
Proof.
  unfold Generator.load_latest_results, Generator.load_body. intros H.
  fixed_step H entries "crud_test_results.json"; try discriminate H;
    fixed_step H entries "performance_test_results.json"; try discriminate H;
    fixed_step H entries "security_test_results.json"; try discriminate H;
    fixed_step H entries "data_validation_results.json"; try discriminate H;
    rewrite load_latest_spec in H;
    destruct (latest_of (Some entries) "test_summary_") as [[j|]|e] eqn:Es;
    try discriminate H; injection H as <-;
    (split;
     [ intros name key Hin; unfold fixed_files, parsed in *;
       repeat (apply elem_of_cons in Hin as [[= -> ->]|Hin];
               [match goal with E : entries !! _ = _ |- _ => rewrite E end;
                lookups|]);
       by apply elem_of_nil in Hin
     | split;
       [ intros c Hc; lookups_in Hc;
         first [discriminate Hc | injection Hc as <-; by apply latest_of_greatest]
       | intros Hn; lookups_in Hn;
         first [discriminate Hn | by apply latest_none_no_file] ] ]).
Qed.

Lemma generator_loads_fixed_names_and_latest_summary_witness :
  (<["summary" := JObj [("run", JInt 2)]]> (∅ : gmap string json)) !! "security"
  = parsed clean_dir "security_test_results.json".
Proof.
  refine (proj1 (generator_loads_fixed_names_and_latest_summary clean_dir
                   (<["summary" := JObj [("run", JInt 2)]]> ∅) _)
            "security_test_results.json" "security" _).
  - vm_compute. reflexivity.
  - unfold fixed_files. do 2 apply list_elem_of_further. apply list_elem_of_here.
Defined.

Lemma generator_load_raises (entries : gmap string file) :
  (exists name key, (name, key) ∈ fixed_files /\ unloadable entries name)
  \/ is_ok (latest_of (Some entries) "test_summary_") = false ->
  exists e, Generator.load_latest_results (Some entries) = Raise e.
Proof.
  intros Hbad.
  destruct (Generator.load_latest_results (Some entries)) as [results|e] eqn:H;
    [exfalso|by eexists].
  unfold Generator.load_latest_results, Generator.load_body in H.
  fixed_step H entries "crud_test_results.json"; try discriminate H;
    fixed_step H entries "performance_test_results.json"; try discriminate H;
    fixed_step H entries "security_test_results.json"; try discriminate H;
    fixed_step H entries "data_validation_results.json"; try discriminate H;
    rewrite load_latest_spec in H;
    destruct (latest_of (Some entries) "test_summary_") as [[j|]|e] eqn:Es;
    try discriminate H;
    (destruct Hbad as [(name & key & Hin & Hun)|Hs]; [|discriminate Hs]);
    unfold fixed_files, unloadable in *;
    repeat (apply elem_of_cons in Hin as [[= -> ->]|Hin];
            [match goal with E : entries !! _ = _ |- _ => by rewrite E in Hun end|]);
    by apply elem_of_nil in Hin.
Qed.

(** X8. The report generator has no handler around its loading: when one
    of its four suite files exists and cannot be opened or parsed, or the
    latest summary cannot, the loading raises and so do the HTML and the
    spreadsheet report. *)
Theorem generator_raises_on_unloadable_file
    (bar_chart : list json -> result string)
    (frame : Type) (DataFrame : json -> result frame)
    (entries : gmap string file) (shown now : string) :
  (exists name key, (name, key) ∈ fixed_files /\ unloadable entries name)
  \/ is_ok (latest_of (Some entries) "test_summary_") = false ->
  is_ok (Generator.load_latest_results (Some entries)) = false
  /\ is_ok (Generator.generate_html_report bar_chart (Some entries) shown now) = false
  /\ is_ok (Generator.generate_excel_report frame DataFrame (Some entries) now) = false.
Proof.
  intros Hbad. destruct (generator_load_raises entries Hbad) as [e He].
  unfold Generator.generate_html_report, Generator.generate_excel_report.
  rewrite He. by repeat split.
Qed.

Lemma generator_raises_on_unloadable_file_witness :
  is_ok (Generator.load_latest_results (Some mixed_dir)) = false.
Proof.
  refine (proj1 (generator_raises_on_unloadable_file (fun _ => Ok "") unit
                   (fun _ => Ok tt) mixed_dir "" "" _)).
  left. exists "security_test_results.json", "security". split.
  - unfold fixed_files. do 2 apply list_elem_of_further. apply list_elem_of_here.
  - vm_compute. exact I.
Defined.

End LoaderExtras.

Module ReportExtras.
Import Reports Generator ReportShape GeneratorProps.




(** *** Sheets of the spreadsheet *)

Section Sheets.

Variable frame : Type.
Variable DataFrame : json -> result frame.

Lemma to_excel_names (rows : json) (name : string) (sheets sheets' : list (sheet frame)) :
  to_excel frame DataFrame rows name sheets = Ok sheets' ->
  sheet_names frame sheets' = (sheet_names frame sheets ++ [name])%list.
Proof.
  unfold to_excel. unfold mbind, result_bind.
  destruct (DataFrame rows); [|discriminate]. intros [= <-].
  unfold sheet_names. by rewrite map_app.
Qed.

Lemma sheet_if_present_names (value : json) (key name : string)
    (sheets sheets' : list (sheet frame)) :
  sheet_if_present frame DataFrame value key name sheets = Ok sheets' ->
  exists b, sheet_names frame sheets' = (sheet_names frame sheets ++ opt b name)%list.
Proof.
  unfold sheet_if_present. unfold mbind at 1, result_bind.
  destruct (contains key value) as [[]|]; [| |discriminate].
  - unfold mbind, result_bind. destruct (subscript value key); [|discriminate].
    intros H. exists true. by apply to_excel_names in H.
  - intros [= <-]. exists false. unfold opt. by rewrite app_nil_r.
Qed.

Lemma excel_body_names (results : gmap string json) (sheets : list (sheet frame)) :
  excel_body frame DataFrame results = Ok sheets ->
  exists b1 b2 b3 b4 b5 b6,
    (b1 = true <-> is_Some (results !! "summary"))
    /\ sheet_names frame sheets =
      (opt b1 "Summary"
       ++ opt b2 "CRUD Tests" ++ opt b3 "Performance Tests"
       ++ opt b4 "Security Tests" ++ opt b5 "Data Validation"
       ++ opt b6 "Data Quality")%list.
Proof.
  unfold excel_body.
  unfold mbind at 1, result_bind.
  destruct (match results !! "summary" with
            | Some summary => _ | None => Ok [] end) as [s1|] eqn:E1; [|discriminate].
  assert (exists b1, (b1 = true <-> is_Some (results !! "summary"))
                     /\ sheet_names frame s1 = opt b1 "Summary") as (b1 & Hb1 & H1).
  { destruct (results !! "summary") as [summary|].
    - revert E1. unfold mbind, result_bind.
      destruct (summary_rows summary); [|discriminate]. intros H.
      apply to_excel_names in H. exists true. split; [by split; eauto|by rewrite H].
    - injection E1 as <-. exists false. split; [|done].
      split; [discriminate|]. by intros [? ?]. }
  unfold mbind at 1, result_bind.
  destruct (match results !! "crud" with
            | Some crud => _ | None => Ok s1 end) as [s2|] eqn:E2; [|discriminate].
  assert (exists b, sheet_names frame s2 = (sheet_names frame s1 ++ opt b "CRUD Tests")%list) as [b2 H2].
  { destruct (results !! "crud"); [by eapply sheet_if_present_names|].
    injection E2 as <-. exists false. unfold opt. by rewrite app_nil_r. }
  unfold mbind at 1, result_bind.
  destruct (match results !! "performance" with
            | Some x => _ | None => Ok s2 end) as [s3|] eqn:E3; [|discriminate].
  assert (exists b, sheet_names frame s3 = (sheet_names frame s2 ++ opt b "Performance Tests")%list) as [b3 H3].
  { destruct (results !! "performance"); [by eapply sheet_if_present_names|].
    injection E3 as <-. exists false. unfold opt. by rewrite app_nil_r. }
  unfold mbind at 1, result_bind.
  destruct (match results !! "security" with
            | Some x => _ | None => Ok s3 end) as [s4|] eqn:E4; [|discriminate].
  assert (exists b, sheet_names frame s4 = (sheet_names frame s3 ++ opt b "Security Tests")%list) as [b4 H4].
  { destruct (results !! "security"); [by eapply sheet_if_present_names|].
    injection E4 as <-. exists false. unfold opt. by rewrite app_nil_r. }
  intros E5.
  assert (exists b5 b6, sheet_names frame sheets
            = (sheet_names frame s4 ++ opt b5 "Data Validation" ++ opt b6 "Data Quality")%list)
    as (b5 & b6 & H5).
  { destruct (results !! "validation") as [validation|].
    - revert E5. unfold mbind, result_bind.
      destruct (sheet_if_present frame DataFrame validation "validation_results"
                  "Data Validation" s4) as [s5|] eqn:E5; [|discriminate].
      intros E6. apply sheet_if_present_names in E5 as [b5 H5].
      apply sheet_if_present_names in E6 as [b6 H6].
      exists b5, b6. by rewrite H6, H5, <- app_assoc.
    - injection E5 as <-. exists false, false. unfold opt. by rewrite !app_nil_r. }
  exists b1, b2, b3, b4, b5, b6. split; [exact Hb1|].
  rewrite H5, H4, H3, H2, H1. by rewrite <- !app_assoc.
Qed.

(** X10. A spreadsheet report that is written has at least one sheet; its
    sheets are, in this order and each at most once, among Summary, CRUD
    Tests, Performance Tests, Security Tests, Data Validation and Data
    Quality; and it has the Summary sheet exactly when a summary was
    loaded. *)
Theorem excel_report_sheets (d : reports_dir) (now path : string)
    (book : list (sheet frame)) (results : gmap string json) :
  load_latest_results d = Ok results ->
  generate_excel_report frame DataFrame d now = Ok (path, book) ->
  path = "mongodb_test_report_" +:+ now +:+ ".xlsx"
  /\ book <> []
  /\ sheet_names frame book `sublist_of` all_sheet_names
  /\ ("Summary" ∈ sheet_names frame book <-> is_Some (results !! "summary")).
Proof.
  intros Hload. unfold generate_excel_report. rewrite Hload.
  unfold mbind at 1 2, result_bind.
  destruct (excel_body frame DataFrame results) as [sheets|] eqn:Hbody; [|discriminate].
  unfold mbind, result_bind.
  destruct (save_workbook frame sheets) as [saved|] eqn:Hsave; [|discriminate].
  intros [= <- <-]. split; [reflexivity|].
  assert (saved = sheets /\ sheets <> []) as [-> Hne].
  { destruct sheets; [discriminate Hsave|]. injection Hsave as <-. done. }
  split; [exact Hne|].
  apply excel_body_names in Hbody as (b1 & b2 & b3 & b4 & b5 & b6 & Hb1 & Hn).
  rewrite Hn, <- Hb1. unfold all_sheet_names. split.
  - destruct b1, b2, b3, b4, b5, b6; cbn;
      repeat first [apply sublist_nil | apply sublist_skip | apply sublist_cons].
  - destruct b1.
    + split; [reflexivity|intros _]. apply list_elem_of_here.
    + split; [|discriminate]. intros H. exfalso.
      destruct b2, b3, b4, b5, b6; cbn in H;
        repeat (apply elem_of_cons in H as [H|H]; [discriminate H|]);
        by apply elem_of_nil in H.
Qed.

End Sheets.

Lemma excel_report_sheets_witness :
  exists book,
    generate_excel_report json (fun rows => Ok rows) sample_dir "20240101"
      = Ok ("mongodb_test_report_20240101.xlsx", book)
    /\ book <> [].
Proof.
  assert (exists results, load_latest_results sample_dir = Ok results) as [results L]
    by (eexists; vm_compute; reflexivity).
  assert (exists book,
            generate_excel_report json (fun rows => Ok rows) sample_dir "20240101"
            = Ok ("mongodb_test_report_20240101.xlsx", book)) as [book E]
    by (eexists; vm_compute; reflexivity).
  exists book. split; [exact E|].
  exact (proj1 (proj2 (excel_report_sheets json _ _ _ _ _ _ L E))).
Defined.

(** *** The suites' reports and the runner's summary, seen by the generator *)

(** X11. The dictionaries the three suites dump keep their accumulator
    under [results] or [test_results], while the generator reads
    [performance_results], [security_results], [validation_results] and
    [data_quality_results]: handed such a dictionary, whatever it
    accumulated, the generator draws no chart, renders the section without
    a single row and writes no sheet for it. *)
Theorem suite_reports_show_no_data (bar_chart : list json -> result string)
    (frame : Type) (DataFrame : json -> result frame)
    (c : Suites.clock) (database_name : string) (accumulator : list json)
    (sheets : list (sheet frame)) :
  let performance := (Suites.generate_performance_report c database_name accumulator).1 in
  let security := (Suites.generate_security_report c accumulator).1 in
  let validation := (Suites.generate_validation_report c database_name accumulator).1 in
  create_performance_charts bar_chart performance = Ok ∅
  /\ render_performance (Some performance) ∅
     = Ok [ {| kind := PerformanceSection; cells := [] |} ]
  /\ render_security (Some security) = Ok [ {| kind := SecuritySection; cells := [] |} ]
  /\ render_validation (Some validation)
     = Ok [ {| kind := ValidationSection; cells := [] |} ]
  /\ sheet_if_present frame DataFrame performance "performance_results"
       "Performance Tests" sheets = Ok sheets
  /\ sheet_if_present frame DataFrame security "security_results"
       "Security Tests" sheets = Ok sheets
  /\ sheet_if_present frame DataFrame validation "validation_results"
       "Data Validation" sheets = Ok sheets
  /\ sheet_if_present frame DataFrame validation "data_quality_results"
       "Data Quality" sheets = Ok sheets.
Proof. cbv zeta. repeat split. Qed.

(** X12. For every summary the runner writes, the cards of the page show
    its overall status and its three counts; the status card and the
    failed-suites card agree (both green or both red); and the page has no
    recommendations section, since the runner keeps its recommendations
    beside the execution summary and the template looks for them inside. *)
Theorem runner_summary_cards (w : Runner.world) (results : gmap string bool) :
  let report := Runner.build_report w results in
  let s := Runner.test_execution_summary report in
  let green := String.eqb (Runner.overall_status s) "PASS" in
  exists summary,
    get (summary_json report) "test_execution_summary" (JObj []) = Ok summary
    /\ render_cards (Some summary)
       = Ok [ Text (if green then "success" else "error");
              Shown (Some (JStr (Runner.overall_status s)));
              Shown (Some (JInt (Z.of_nat (Runner.total_suites s))));
              Shown (Some (JInt (Z.of_nat (Runner.passed_suites s))));
              Text (if green then "success" else "error");
              Shown (Some (JInt (Z.of_nat (Runner.failed_suites s)))) ]
    /\ render_recommendations (Some summary) = Ok [].
Proof.
  cbv zeta. eexists. split; [reflexivity|]. split; [|reflexivity].
  unfold render_cards, if_else. cbn [truthy bool_decide].
  change (truthy (Some (JObj _))) with true.
  cbn [attr assoc String.eqb Ascii.eqb Bool.eqb gt_zero as_num eq_str is_str
       mbind result_bind].
  pose proof (RunnerExtras.no_failure_iff_all (Runner.values results)) as Hfail.
  cbn [Runner.build_report Runner.test_execution_summary Runner.failed_suites
       Runner.overall_status Runner.total_suites Runner.passed_suites].
  destruct (forallb (fun r => r) (Runner.values results)) eqn:Hall; cbn [Runner.pass_fail].
  - rewrite (proj2 Hfail eq_refl). reflexivity.
  - destruct (length (List.filter (fun r => negb r) (Runner.values results))).
    + discriminate (proj1 Hfail eq_refl).
    + reflexivity.
Qed.

End ReportExtras.

Module ViewReportsExtras.
Import Reports ViewReports ReportsProps GeneratorProps LoaderExtras.


End ViewReportsExtras.

Module ScriptExtras.
Import Reports Suites Scripts.

(** X14. The functional script drops the status of [pytest.main] and the
    security script records every failure as a test case, so both end with
    status 0 whatever their tests and checks found. A runner started on
    either of them alone, past the reachability check and able to write its
    summary, therefore exits with 0 and writes a summary that says PASS
    with one suite passed, also when every test and every check failed. *)
Theorem failed_checks_do_not_fail_the_suite (sw : suite_world) (other : Runner.world)
    (a : Runner.args) :
  Runner.suite a = Runner.functional \/ Runner.suite a = Runner.security ->
  Runner.setup_passes a (world_of sw other) = true ->
  Runner.summary_writable (world_of sw other) = true ->
  (Runner.run a (world_of sw other)).1 = 0
  /\ exists f report,
       Runner.summaries_written (Runner.run a (world_of sw other)).2 = [(f, report)]
       /\ Runner.overall_status (Runner.test_execution_summary report) = "PASS"
       /\ Runner.passed_suites (Runner.test_execution_summary report) = 1%nat
       /\ Runner.failed_suites (Runner.test_execution_summary report) = 0%nat.
Proof.
  intros Hsuite Hsetup Hwrite.
  rewrite RunnerProps.run_exit_code, RunnerProps.run_summaries, Hsetup, Hwrite.
  destruct Hsuite as [-> | ->]; (split; [reflexivity|]);
    do 2 eexists; (split; [reflexivity|]); repeat split; vm_compute; reflexivity.
Qed.

Lemma failed_checks_do_not_fail_the_suite_witness :
  pytest_main (crud_passes failing_checks) = 1
  /\ (Runner.run functional_only (world_of failing_checks Runner.failing_world)).1 = 0.
Proof.
  split; [reflexivity|].
  refine (proj1 (failed_checks_do_not_fail_the_suite
            failing_checks Runner.failing_world functional_only _ _ _)).
  - left. reflexivity.
  - reflexivity.
  - reflexivity.
Defined.

(** X15. A run of the performance suite that reaches its end has
    accumulated exactly four results, for the insert, query, concurrent and
    aggregation tests in this order, and its report counts four tests. *)
Theorem performance_suite_accumulates_four (c : clock) (p : performance_probe)
    (results : list json) (report : json) (files : written) :
  run_full_performance_suite c p = Ok (results, report, files) ->
  List.map test_type_of results
  = [ Some (JStr "insert_performance"); Some (JStr "query_performance");
      Some (JStr "concurrent_operations"); Some (JStr "aggregation_performance") ]
  /\ Generator.get report "test_summary" JNull
     = Ok (JObj [ ("total_tests", JInt 4);
                  ("test_timestamp", JStr (isoformat c));
                  ("database", JStr "performance_test_db") ]).
Proof.
  unfold run_full_performance_suite.
  unfold mbind at 1 2 3 4 5, result_bind.
  destruct (cleanup_outcome p); [|discriminate].
  destruct (test_insert_performance p 1000) as [r1|] eqn:E1; [|discriminate].
  destruct (test_query_performance p 50) as [r2|] eqn:E2; [|discriminate].
  destruct (test_concurrent_operations p 5 50) as [r3|] eqn:E3; [|discriminate].
  destruct (test_aggregation_performance p) as [r4|] eqn:E4; [|discriminate].
  intros [= <- <- <-]. cbn [app List.map].
  assert (test_type_of r1 = Some (JStr "insert_performance")) as ->.
  { revert E1. unfold test_insert_performance. unfold mbind, result_bind.
    repeat match goal with
    | |- context [match ?r with Ok _ => _ | Raise _ => _ end] =>
        destruct r; [|discriminate]
    end. by intros [= <-]. }
  assert (test_type_of r2 = Some (JStr "query_performance")) as ->.
  { revert E2. unfold test_query_performance. unfold mbind, result_bind.
    destruct (query_elapsed p); [|discriminate].
    destruct (Generator.for_each _ _); [|discriminate]. by intros [= <-]. }
  assert (test_type_of r3 = Some (JStr "concurrent_operations")) as ->.
  { revert E3. unfold test_concurrent_operations. unfold mbind, result_bind.
    destruct (concurrent_total_time p); [|discriminate].
    destruct (Performance.operations_per_second _ _ _); [|discriminate].
    by intros [= <-]. }
  assert (test_type_of r4 = Some (JStr "aggregation_performance")) as ->.
  { revert E4. unfold test_aggregation_performance. unfold mbind, result_bind.
    destruct (aggregation_results p); [|discriminate]. by intros [= <-]. }
  split; reflexivity.
Qed.

Lemma performance_suite_accumulates_four_witness :
  exists results report files,
    run_full_performance_suite (time calm_world) (performance calm_world)
    = Ok (results, report, files)
    /\ length results = 4%nat.
Proof.
  assert (exists results report files,
            run_full_performance_suite (time calm_world) (performance calm_world)
            = Ok (results, report, files)) as (results & report & files & E)
    by (do 3 eexists; vm_compute; reflexivity).
  exists results, report, files. split; [exact E|].
  pose proof (proj1 (performance_suite_accumulates_four _ _ _ _ _ E)) as H.
  apply (f_equal length) in H. by rewrite length_map in H.
Defined.

End ScriptExtras.

Module QualityExtras.
Import Reports Quality.

Lemma percentage_ok (count total : Z) :
  exists p, percentage count total = Ok p /\ (total <= 0 -> p = JInt 0).
Proof.
  unfold percentage, int_truediv.
  destruct (0 <? total) eqn:E.
  - apply Z.ltb_lt in E. destruct (total =? 0) eqn:E0; [apply Z.eqb_eq in E0; lia|].
    eexists. split; [reflexivity|]. lia.
  - eexists. split; [reflexivity|]. done.
Qed.

(** X16. [validate_data_quality] never divides by zero: for all counts it
    returns its five checks, and on an empty collection every percentage
    is the integer 0. *)
Theorem data_quality_never_divides_by_zero (collection_name : string) (c : counts) :
  exists r,
    validate_data_quality collection_name c = Ok r
    /\ length (percentages r) = 5%nat
    /\ (total_docs c <= 0 -> percentages r = [JInt 0; JInt 0; JInt 0; JInt 0; JInt 0]).
Proof.
  unfold validate_data_quality, check.
  destruct (percentage_ok (missing_user_id c) (total_docs c)) as (p1 & -> & H1).
  destruct (percentage_ok (missing_name c) (total_docs c)) as (p2 & -> & H2).
  destruct (percentage_ok (missing_email c) (total_docs c)) as (p3 & -> & H3).
  destruct (percentage_ok (duplicate_emails c) (total_docs c)) as (p4 & -> & H4).
  destruct (percentage_ok (invalid_emails c) (total_docs c)) as (p5 & -> & H5).
  eexists. split; [reflexivity|]. split; [reflexivity|].
  intros H. cbn. by rewrite H1, H2, H3, H4, H5.
Qed.

End QualityExtras.

Module CleanupExtras.
Import Cleanup.


















Lemma tree_induction (P : tree -> Prop) :
  (forall files dirs, Forall (fun d => P d.2) dirs -> P (Folder files dirs)) ->
  forall t, P t.
Proof.
  intros H. fix IH 1. intros [files dirs]. apply H.
  induction dirs as [|[d below] rest IHd]; constructor; [apply IH | exact IHd].
Qed.

Lemma python_files_unfold (root : string) (files : list string)
    (dirs : list (string * tree)) :
  python_files root (Folder files dirs)
  = (List.map (path_join root) (List.filter (ViewReports.endswith ".py") files)
     ++ descend root dirs)%list.
Proof.
  cbn [python_files]. f_equal.
  induction dirs as [|[d below] rest IH]; [reflexivity|].
  unfold descend. cbn [flat_map fst snd]. by rewrite IH.
Qed.

Lemma in_descend (root path : string) (dirs : list (string * tree)) :
  In path (descend root dirs)
  <-> exists d below,
        In (d, below) dirs /\ (d ∉ pruned)
        /\ In path (python_files (path_join root d) below).
Proof.
  unfold descend. rewrite in_flat_map. split.
  - intros [[d below] [Hin Hp]]. cbn [fst snd] in Hp.
    destruct (bool_decide (d ∈ pruned)) eqn:E; [destruct Hp|].
    apply bool_decide_eq_false in E. by exists d, below.
  - intros (d & below & Hin & Hd & Hp). exists (d, below).
    split; [exact Hin|]. cbn [fst snd].
    by rewrite bool_decide_eq_false_2.
Qed.

(** X18. The files the clean-up script collects are exactly the files
    whose name ends in [.py] and that lie below no directory named venv,
    __pycache__ or .pytest_cache. *)
Theorem cleanup_collects_python_files_outside_pruned (t : tree) (root path : string) :
  In path (python_files root t)
  <-> exists dirs name,
        located t dirs name
        /\ ViewReports.endswith ".py" name = true
        /\ Forall (fun d => d ∉ pruned) dirs
        /\ path = path_of root dirs name.
Proof.
  revert root. induction t as [files dirs IH] using tree_induction. intros root.
  rewrite List.Forall_forall in IH.
  rewrite python_files_unfold, in_app_iff, in_map_iff, in_descend. split.
  - intros [(name & <- & Hin) | (d & below & Hin & Hd & Hp)].
    + apply filter_In in Hin as [Hin Hpy].
      exists [], name. split; [by constructor|]. split; [exact Hpy|].
      split; [constructor | reflexivity].
    + apply (IH _ Hin) in Hp as (ds & name & Hloc & Hpy & Hds & ->).
      exists (d :: ds), name. split; [by econstructor|]. split; [exact Hpy|].
      split; [by constructor | reflexivity].
  - intros (ds & name & Hloc & Hpy & Hds & ->).
    inversion Hloc as [? ? ? Hin | ? ? d below ds' ? Hin Hbelow]; subst.
    + left. exists name. split; [reflexivity|]. by apply filter_In.
    + right. apply Forall_cons in Hds as [Hd Hds].
      exists d, below. split; [exact Hin|]. split; [exact Hd|].
      apply (IH _ Hin). by exists ds', name.
Qed.

End CleanupExtras.

Module SecurityTestsExtras.
Import SecurityTests.

Lemma T_bind_unfold {A B : Type} (m : T A) (k : A -> T B) (st : state) :
  (x ← m; k x) st
  = match m st with
    | (st', Ok v) => k v st'
    | (st', Raise e) => (st', Raise e)
    end.
Proof. reflexivity. Qed.

Lemma delete_all (l : list document) :
  List.filter (fun d => negb (matches [] d)) l = [].
Proof. induction l as [|d l IH]; [reflexivity | exact IH]. Qed.

(** The test cases of the injection test, by the calls that get through. *)
Lemma injection_cases (up : nat -> bool) (before : list document) (first_id : nat) :
  List.map (fun c => (test c, status c)) (test_injection_attacks up before first_id)
  = if up 0%nat && up 1%nat && up 2%nat
    then ([ ("Safe Query Execution", "PASS");
            ("NoSQL Injection Prevention", if up 3%nat then "FAIL" else "PASS");
            ("Input Validation", "PASS") ]
          ++ if up 4%nat then [] else [("Injection Testing Setup", "FAIL")])%list
    else [("Injection Testing Setup", "FAIL")].
Proof.
  unfold test_injection_attacks, try_except, injection_body.
  rewrite T_bind_unfold. unfold delete_many at 1, call.
  cbn [calls docs next_id test_cases]. rewrite delete_all.
  destruct (up 0%nat); [|reflexivity].
  vm_compute.
  destruct (up 1%nat); [|reflexivity].
  destruct (up 2%nat); [|reflexivity].
  destruct (up 3%nat); destruct (up 4%nat); reflexivity.
Qed.

(** X19. Whenever the query of the injection check reaches the server, the
    check records FAIL: after the three users are inserted, the query with
    [{"$ne": None}] as password finds the admin, whatever the collection
    held before. With every call answered the test records PASS, FAIL,
    PASS; the check is recorded as passed only when its query could not be
    run. *)
Theorem injection_check_fails_whenever_its_query_runs (up : nat -> bool)
    (before : list document) (first_id : nat) :
  let cases := test_injection_attacks up before first_id in
  ((forall n, (n < 5)%nat -> up n = true) ->
   List.map (fun c => (test c, status c)) cases
   = [ ("Safe Query Execution", "PASS"); ("NoSQL Injection Prevention", "FAIL");
       ("Input Validation", "PASS") ])
  /\ (forall c, In c cases -> test c = "NoSQL Injection Prevention" ->
      status c = "PASS" -> up 3%nat = false).
Proof.
  intros cases. split.
  - intros Hup. unfold cases. rewrite injection_cases.
    by rewrite !Hup by lia.
  - intros c Hin Htest Hstatus.
    apply (in_map (fun c => (test c, status c))) in Hin.
    unfold cases in Hin. rewrite injection_cases, Htest, Hstatus in Hin.
    destruct (up 3%nat); [|reflexivity]. exfalso.
    destruct (up 0%nat && up 1%nat && up 2%nat), (up 4%nat);
      cbn in Hin; intuition discriminate.
Qed.

Lemma injection_check_fails_whenever_its_query_runs_witness :
  List.map (fun c => (test c, status c)) (test_injection_attacks always_up leftover 1)
  = [ ("Safe Query Execution", "PASS"); ("NoSQL Injection Prevention", "FAIL");
      ("Input Validation", "PASS") ].
Proof.
  apply (proj1 (injection_check_fails_whenever_its_query_runs always_up leftover 1)).
  intros n _. reflexivity.
Defined.

Section Crypto.

Variable up : nat -> bool.
Variable encrypt : string -> string.
Variable decrypt : string -> result string.
Variable sha256_hexdigest : string -> string.

(** The test cases of the encryption test, by the calls that get through
    and by what decrypting gives. *)
Lemma encryption_cases (now : string) (before : list document) (first_id : nat) :
  List.map (fun c => (test c, status c))
    (test_data_encryption up encrypt decrypt sha256_hexdigest now before first_id)
  = if up 0%nat && up 1%nat && up 2%nat
    then match decrypt (encrypt "This is sensitive information: SSN 123-45-6789") with
         | Ok decrypted =>
             (("Application-Level Encryption",
               if String.eqb decrypted "This is sensitive information: SSN 123-45-6789"
               then "PASS" else "FAIL")
              :: if up 3%nat
                 then ("Password Hashing", "PASS")
                      :: (if up 4%nat then [] else [("Data Encryption Setup", "FAIL")])
                 else [("Data Encryption Setup", "FAIL")])%list
         | Raise _ => [("Data Encryption Setup", "FAIL")]
         end
    else [("Data Encryption Setup", "FAIL")].
Proof.
  unfold test_data_encryption, try_except, encryption_body.
  rewrite T_bind_unfold. unfold delete_many at 1, call.
  cbn [calls docs next_id test_cases]. rewrite delete_all.
  destruct (up 0%nat); [|reflexivity].
  cbv zeta. rewrite String.eqb_refl.
  rewrite T_bind_unfold. unfold insert_one at 1, call.
  cbn [calls docs next_id test_cases app].
  destruct (up 1%nat); [|reflexivity].
  rewrite T_bind_unfold. unfold find_one at 1, call.
  cbn [calls docs next_id test_cases app].
  destruct (up 2%nat); [|reflexivity].
  cbn [find matches forallb holds fst snd field lookup_field String.eqb Ascii.eqb
       Bool.eqb default from_option id andb].
  rewrite bool_decide_eq_true_2 by reflexivity. cbn [andb].
  rewrite T_bind_unfold. unfold lift at 1.
  cbn [subscript lookup_field String.eqb Ascii.eqb Bool.eqb].
  rewrite T_bind_unfold. unfold lift at 1.
  destruct (decrypt _) as [decrypted|e]; [|reflexivity].
  destruct (String.eqb decrypted _); vm_compute;
    destruct (up 3%nat); try reflexivity; destruct (up 4%nat); reflexivity.
Qed.

(** X20. The password hashing check of the encryption test cannot fail: it
    compares the digest of the password with the digest of the same
    password, so it records PASS whatever the hash function is, whenever
    it is reached. With every call answered and a cipher that decrypts what
    it encrypted, the test records PASS for both of its checks. *)
Theorem password_hashing_check_cannot_fail (now : string) (before : list document)
    (first_id : nat) :
  let cases :=
    test_data_encryption up encrypt decrypt sha256_hexdigest now before first_id in
  (forall c, In c cases -> test c = "Password Hashing" -> status c = "PASS")
  /\ ((forall n, (n < 5)%nat -> up n = true) ->
      decrypt (encrypt "This is sensitive information: SSN 123-45-6789")
      = Ok "This is sensitive information: SSN 123-45-6789" ->
      List.map (fun c => (test c, status c)) cases
      = [("Application-Level Encryption", "PASS"); ("Password Hashing", "PASS")]).
Proof.
  intros cases. split.
  - intros c Hin Htest.
    apply (in_map (fun c => (test c, status c))) in Hin.
    unfold cases in Hin. rewrite encryption_cases, Htest in Hin.
    destruct (String.eqb (status c) "PASS") eqn:E; [by apply String.eqb_eq in E|].
    exfalso.
    destruct (up 0%nat && up 1%nat && up 2%nat); [|cbn in Hin; intuition discriminate].
    destruct (decrypt _); [|cbn in Hin; intuition discriminate].
    destruct (up 3%nat), (up 4%nat); cbn in Hin;
      destruct Hin as [Hin|Hin]; try discriminate;
      repeat (destruct Hin as [Hin|Hin]; try discriminate);
      try (injection Hin as Hin; rewrite <- Hin in E; discriminate);
      try destruct Hin.
  - intros Hup Hround. unfold cases. rewrite encryption_cases, Hround.
    by rewrite !Hup by lia.
Qed.

End Crypto.

Lemma password_hashing_check_cannot_fail_witness :
  List.map (fun c => (test c, status c))
    (test_data_encryption always_up reverse_cipher (fun token => Ok (reverse_cipher token))
       (fun _ => "digest") "2024-01-01T12:00:00" leftover 1)
  = [("Application-Level Encryption", "PASS"); ("Password Hashing", "PASS")].
Proof.
  apply (proj2 (password_hashing_check_cannot_fail always_up reverse_cipher
                  (fun token => Ok (reverse_cipher token)) (fun _ => "digest")
                  "2024-01-01T12:00:00" leftover 1)).
  - intros n _. reflexivity.
  - vm_compute. reflexivity.
Defined.

End SecurityTestsExtras.

Module LoadDataExtras.
Import LoadData.

Lemma length_append (a b : string) :
  String.length (a +:+ b) = (String.length a + String.length b)%nat.
Proof.
  induction a as [|c a IH]; [reflexivity|].
  change (S (String.length (a +:+ b)) = S (String.length a + String.length b)).
  by rewrite IH.
Qed.

Lemma append_inv_tail (a b s : string) : a +:+ s = b +:+ s -> a = b.
Proof.
  revert b. induction a as [|x a IH]; intros [|y b] H.
  - reflexivity.
  - apply (f_equal String.length) in H. rewrite !length_append in H.
    cbn [String.length] in H. lia.
  - apply (f_equal String.length) in H. rewrite !length_append in H.
    cbn [String.length] in H. lia.
  - change (String x (a +:+ s) = String y (b +:+ s)) in H.
    injection H as -> H. by rewrite (IH _ H).
Qed.

Lemma email_inj (i j : Z) : email (doc i) = email (doc j) -> i = j.
Proof.
  cbn [email doc]. intros H.
  apply (String.app_inj "user") in H.
  apply append_inv_tail in H. by apply (inj pretty).
Qed.

Lemma choose_in (choices : list string) (i : Z) :
  choices <> [] -> In (choose choices i) choices.
Proof.
  intros Hne. unfold choose. apply nth_In.
  assert (0 < Z.of_nat (length choices)) by (destruct choices; [done | cbn; lia]).
  pose proof (Z.mod_pos_bound i (Z.of_nat (length choices))). lia.
Qed.

(** X21. The insert test builds one document for every index below
    [document_count] (none when it is negative), with pairwise distinct
    user ids and e-mail addresses, an age from 20 to 69, one of the five
    departments and a salary of at least 50000; the documents inserted one
    by one are the first [min(100, document_count)] of them. *)
Theorem insert_test_data_is_distinct_and_in_range (document_count : Z) :
  let data := test_data document_count in
  length data = Z.to_nat document_count
  /\ NoDup (user_id <$> data)
  /\ NoDup (email <$> data)
  /\ Forall (fun d => 20 <= age d <= 69 /\ In (department d) departments
                      /\ 50000 <= salary d
                      /\ In (theme d) ["light"; "dark"]
                      /\ In (language d) ["en"; "es"; "fr"]) data
  /\ length (single_inserts document_count) = Nat.min 100 (Z.to_nat document_count)
  /\ single_inserts document_count `prefix_of` data.
Proof.
  intros data. unfold data, single_inserts, test_data.
  split; [by rewrite length_fmap, length_seqZ|].
  split.
  { rewrite <- list_fmap_compose. apply NoDup_fmap_2; [|apply NoDup_seqZ].
    intros i j H. cbn in H. lia. }
  split.
  { rewrite <- list_fmap_compose. apply NoDup_fmap_2; [|apply NoDup_seqZ].
    intros i j H. by apply email_inj. }
  split.
  { apply Forall_fmap, Forall_forall. intros i Hi.
    apply elem_of_seqZ in Hi. cbn [age department salary theme language doc compose].
    pose proof (Z.mod_pos_bound i 50).
    split; [lia|]. split; [by apply choose_in|]. split; [lia|].
    split; by apply choose_in. }
  split; [by rewrite length_take, length_fmap, length_seqZ|].
  apply prefix_take.
Qed.

End LoadDataExtras.

Module TimestampExtras.
Import Reports Timestamps.

Lemma compare_digit (x y : Z) (s s' : string) :
  String.compare (String (digit x) s) (String (digit y) s')
  = then_by (x mod 10 ?= y mod 10) (String.compare s s').
Proof.
  cbn [String.compare]. unfold Ascii.compare, digit.
  pose proof (Z.mod_pos_bound x 10). pose proof (Z.mod_pos_bound y 10).
  rewrite !N_ascii_embedding by lia.
  destruct (Z.compare_spec (x mod 10) (y mod 10)) as [E|E|E]; cbn [then_by].
  - rewrite E, N.compare_refl. reflexivity.
  - replace (_ ?= _)%N with Lt; [reflexivity|]. symmetry. apply N.compare_lt_iff. lia.
  - replace (_ ?= _)%N with Gt; [reflexivity|]. symmetry. apply N.compare_gt_iff. lia.
Qed.

Lemma then_by_lexicographic (a b : Z) (rest : comparison) :
  then_by (a / 10 ?= b / 10) (then_by (a mod 10 ?= b mod 10) rest)
  = then_by (a ?= b) rest.
Proof.
  pose proof (Z.div_mod a 10). pose proof (Z.div_mod b 10).
  pose proof (Z.mod_pos_bound a 10). pose proof (Z.mod_pos_bound b 10).
  destruct (Z.compare_spec (a / 10) (b / 10)) as [E|E|E];
    destruct (Z.compare_spec (a mod 10) (b mod 10)) as [E'|E'|E'];
    destruct (Z.compare_spec a b) as [E''|E''|E'']; cbn [then_by];
    try reflexivity; exfalso; lia.
Qed.

Lemma small_quotient (a bound : Z) : 0 <= a < 10 * bound -> 0 <= a / 10 < bound.
Proof.
  intros H. split; [apply Z.div_pos; lia | apply Z.div_lt_upper_bound; lia].
Qed.

Lemma quotient_100 (a : Z) : a / 100 = a / 10 / 10.
Proof. rewrite Z.div_div by lia. reflexivity. Qed.

Lemma quotient_1000 (a : Z) : a / 1000 = a / 10 / 10 / 10.
Proof. rewrite !Z.div_div by lia. reflexivity. Qed.

Lemma compare_two_digits (a b : Z) (s s' : string) :
  0 <= a <= 99 -> 0 <= b <= 99 ->
  String.compare (two_digits a s) (two_digits b s')
  = then_by (a ?= b) (String.compare s s').
Proof.
  intros Ha Hb. unfold two_digits. rewrite !compare_digit.
  rewrite (Z.mod_small (a / 10)), (Z.mod_small (b / 10))
    by (apply small_quotient; lia).
  apply then_by_lexicographic.
Qed.

Lemma compare_four_digits (a b : Z) (s s' : string) :
  0 <= a <= 9999 -> 0 <= b <= 9999 ->
  String.compare (four_digits a s) (four_digits b s')
  = then_by (a ?= b) (String.compare s s').
Proof.
  intros Ha Hb. unfold four_digits. rewrite !compare_digit.
  rewrite !quotient_100, !quotient_1000.
  rewrite (Z.mod_small (a / 10 / 10 / 10)), (Z.mod_small (b / 10 / 10 / 10))
    by (do 3 (apply small_quotient); lia).
  by rewrite !then_by_lexicographic.
Qed.

Lemma then_by_assoc (a b c : comparison) :
  then_by (then_by a b) c = then_by a (then_by b c).
Proof. by destruct a. Qed.

Lemma compare_strftime (a b : datetime) (rest rest' : string) :
  valid a -> valid b ->
  String.compare (strftime_then a rest) (strftime_then b rest')
  = then_by (compare a b) (String.compare rest rest').
Proof.
  intros (Hy & Hm & Hd & HH & HM & HS) (Hy' & Hm' & Hd' & HH' & HM' & HS').
  unfold strftime_then, compare.
  rewrite compare_four_digits, !compare_two_digits by lia.
  cbn [String.compare]. rewrite ReportsProps.ascii_compare_refl.
  rewrite !compare_two_digits by lia.
  by rewrite !then_by_assoc.
Qed.

Lemma compare_common_prefix (prefix x y : string) :
  String.compare (prefix +:+ x) (prefix +:+ y) = String.compare x y.
Proof.
  induction prefix as [|c prefix IH]; [reflexivity|].
  change (String.compare (String c (prefix +:+ x)) (String c (prefix +:+ y))
          = String.compare x y).
  cbn [String.compare]. by rewrite ReportsProps.ascii_compare_refl.
Qed.

Lemma compare_stamped (prefix : string) (a b : datetime) :
  valid a -> valid b ->
  String.compare (stamped prefix a) (stamped prefix b) = compare a b.
Proof.
  intros Ha Hb. unfold stamped.
  rewrite compare_common_prefix, compare_strftime by done.
  by destruct (compare a b).
Qed.

(** X22. File names order as the time stamps in them: for two times with
    a year of four digits, the names written at them compare as the times
    do. So the file a loader takes as the latest, the last of the sorted
    names with the prefix, is the one written at the latest time, when the
    files with the prefix are the ones written at the times [runs]. *)
Theorem latest_file_name_is_latest_run (prefix : string) (names : list string)
    (runs : list datetime) (latest : string) :
  Forall valid runs ->
  with_prefix prefix names = List.map (stamped prefix) runs ->
  last (sorted (with_prefix prefix names)) = Some latest ->
  (forall a b, In a runs -> In b runs ->
     String.compare (stamped prefix a) (stamped prefix b) = compare a b)
  /\ exists t, In t runs /\ latest = stamped prefix t
               /\ forall t', In t' runs -> compare t' t <> Gt.
Proof.
  intros Hvalid Hnames Hlast. rewrite List.Forall_forall in Hvalid.
  split; [intros a b Ha Hb; apply compare_stamped; auto|].
  apply ReportsProps.latest_is_greatest in Hlast as [Hin Hmax].
  rewrite Hnames in Hin. apply list_elem_of_In, in_map_iff in Hin as (t & <- & Ht).
  exists t. split; [exact Ht|]. split; [reflexivity|].
  intros t' Ht' Hgt.
  assert (String.leb (stamped prefix t') (stamped prefix t) = true) as Hle.
  { apply Hmax. rewrite Hnames. apply list_elem_of_In, in_map. exact Ht'. }
  unfold String.leb in Hle. rewrite compare_stamped, Hgt in Hle by auto.
  discriminate.
Qed.

Lemma latest_file_name_is_latest_run_witness :
  exists t, In t [later_that_day; new_year_2024]
            /\ "test_summary_20240101_093005.json" = stamped "test_summary_" t
            /\ forall t', In t' [later_that_day; new_year_2024] -> compare t' t <> Gt.
Proof.
  refine (proj2 (latest_file_name_is_latest_run "test_summary_"
            ["test_summary_20240101_093005.json"; "notes.txt";
             "test_summary_20240101_000000.json"]
            [later_that_day; new_year_2024]
            "test_summary_20240101_093005.json" _ _ _)).
  - repeat constructor; vm_compute; intuition discriminate.
  - reflexivity.
  - reflexivity.
Defined.

End TimestampExtras.
